(** * Oracle collection handlers: a shallow embedding

    Source files embedded here:
    - [supabase/functions/track-oracle-result/index.ts]: the two edge
      functions, the spin recorder (lines 16-162) and the profile reader
      (lines 172-282);
    - [supabase/migrations/20260224082222_001_create_collections_schema.sql]:
      the three tables, their defaults, CHECKs and UNIQUE constraints.

    How the code is read:
    - a handler is a function from the world it runs in (database, clock,
      log of the calls issued) to its response and the world it leaves;
      requests are served one after the other;
    - a table is the list of its rows; [select], [update], [insert] and
      [maybeSingle] are the list operations of the same names;
    - every call to the database is answered; a write that breaks a
      constraint of the schema or carries a number outside the range of
      an [integer] column is refused and changes nothing, and the
      handlers go on, since they ignore the [error] member of each
      result;
    - the body fields have their declared types or are missing; scores
      are integers of any size;
    - the arithmetic of the completion percentage is binary64. *)

From Stdlib Require Import ZArith List String Bool Lia.
From Stdlib Require Import Permutation Sorted.
From Stdlib Require Import Floats.SpecFloat.
Import ListNotations.
Local Open Scope string_scope.
Local Open Scope list_scope.
Local Open Scope Z_scope.

(** ** JavaScript numbers

    [collectedWords / totalWords] and [... * 100] are IEEE 754 binary64
    operations rounded to nearest-even.  [SpecFloat] is the Z-based
    specification of exactly these operations. *)

Module JsNumber.

Definition prec : Z := 53.
Definition emax : Z := 1024.

Definition number := spec_float.

(** An array length (below 2^32) is represented exactly. *)
Definition of_Z (z : Z) : number := binary_normalize prec emax z 0 false.

Definition div (x y : number) : number := SFdiv prec emax x y.
Definition mul (x y : number) : number := SFmul prec emax x y.

(** [Math.floor], read back as an integer.  Infinities and NaN have no
    integer value; [JSON.stringify] writes them as [null]. *)
Definition floor (x : number) : option Z :=
  match x with
  | S754_zero _ => Some 0
  | S754_finite s m e =>
      let sm := if s then Z.neg m else Z.pos m in
      Some (if 0 <=? e then sm * 2 ^ e else sm / 2 ^ (- e))
  | S754_infinity _ | S754_nan => None
  end.

End JsNumber.

(** The values that [score] and [highest_score] take in the recorder.
    [score] is [undefined] when the body has no such field;
    [stats.highest_score] is [null] when the column is NULL; [Math.max]
    yields [NaN] as soon as one argument converts to [NaN].  Scores are
    integers, as the [highest_score integer] column has them. *)
Inductive JsValue : Type :=
| js_undefined
| js_null
| js_NaN
| js_int (z : Z).

(** [ToNumber]: [None] stands for [NaN]. *)
Definition ToNumber (v : JsValue) : option Z :=
  match v with
  | js_undefined => None
  | js_null => Some 0
  | js_NaN => None
  | js_int z => Some z
  end.

Definition Math_max (a b : JsValue) : JsValue :=
  match ToNumber a, ToNumber b with
  | Some x, Some y => js_int (Z.max x y)
  | _, _ => js_NaN
  end.

(** What [JSON.stringify] makes of a property of the payload:
    an [undefined] property is left out, [NaN] and [null] are written
    [null]. *)
Inductive JsonProperty : Type :=
| json_omitted
| json_null
| json_int (z : Z).

Definition JSON_stringify_property (v : JsValue) : JsonProperty :=
  match v with
  | js_undefined => json_omitted
  | js_null | js_NaN => json_null
  | js_int z => json_int z
  end.

(** [String.prototype.replace] with a string pattern: the first
    occurrence only. *)
Fixpoint replace (pattern replacement s : string) : string :=
  if String.prefix pattern s
  then (replacement ++ substring (String.length pattern)
                                 (String.length s - String.length pattern) s)%string
  else match s with
       | EmptyString => EmptyString
       | String c s' => String c (replace pattern replacement s')
       end.

(** ** The schema (migration 001) *)

Definition uuid := N.
Bind Scope N_scope with uuid.
Definition timestamp := Z.

Module DivineWord.
Record t : Type := mk
  { id : uuid;
    word : string;
    rarity : string }.
End DivineWord.

Module UserCollection.
Record t : Type := mk
  { id : uuid;
    user_id : uuid;
    divine_word_id : uuid;
    found_count : Z;
    first_found_at : timestamp;
    updated_at : timestamp }.
End UserCollection.

(** The counters hold integers (the recorder writes nothing else to
    them); [highest_score] is nullable and the update path can write NULL
    to it. *)
Module UserStatistics.
Record t : Type := mk
  { id : uuid;
    user_id : uuid;
    total_spins : Z;
    total_points : Z;
    divine_count : Z;
    reality_count : Z;
    collection_completion : Z;
    highest_score : option Z;
    last_spin_at : option timestamp;
    created_at : timestamp;
    updated_at : timestamp }.
End UserStatistics.

(** [next_uuid] stands for [gen_random_uuid()]: an identifier no row
    carries yet. *)
Record Database : Type := mkDatabase
  { divine_words : list DivineWord.t;
    user_collections : list UserCollection.t;
    user_statistics : list UserStatistics.t;
    next_uuid : uuid }.

(** ** The query builder

    [maybeSingle()] gives the row when the filter matches exactly one,
    and [data: null] otherwise (no row, or several). *)
Definition maybeSingle {A : Type} (rows : list A) : option A :=
  match rows with
  | [r] => Some r
  | _ => None
  end.

Definition word_is (w : string) (r : DivineWord.t) : bool :=
  (DivineWord.word r =? w)%string.

Definition collection_of (u d : uuid) (r : UserCollection.t) : bool :=
  (UserCollection.user_id r =? u)%N && (UserCollection.divine_word_id r =? d)%N.

Definition statistics_of (u : uuid) (r : UserStatistics.t) : bool :=
  (UserStatistics.user_id r =? u)%N.

(** [from("divine_words").select("id").eq("word", word).maybeSingle()] *)
Definition select_divine_word (w : string) (db : Database) : option uuid :=
  option_map DivineWord.id (maybeSingle (filter (word_is w) (divine_words db))).

(** [from("user_collections").select("id, found_count").eq("user_id", _)
    .eq("divine_word_id", _).maybeSingle()] *)
Definition select_user_collection (u d : uuid) (db : Database)
  : option UserCollection.t :=
  maybeSingle (filter (collection_of u d) (user_collections db)).

(** [from("user_statistics").select("*").eq("user_id", _).maybeSingle()] *)
Definition select_user_statistics (u : uuid) (db : Database)
  : option UserStatistics.t :=
  maybeSingle (filter (statistics_of u) (user_statistics db)).

(** The payloads of the four writes. *)
Record CollectionUpdate : Type := mkCollectionUpdate
  { cu_found_count : Z;
    cu_updated_at : timestamp }.

Record CollectionInsert : Type := mkCollectionInsert
  { ci_user_id : uuid;
    ci_divine_word_id : uuid;
    ci_found_count : Z;
    ci_first_found_at : timestamp;
    ci_updated_at : timestamp }.

Record StatisticsUpdate : Type := mkStatisticsUpdate
  { su_total_spins : Z;
    su_total_points : Z;
    su_divine_count : Z;
    su_reality_count : Z;
    su_highest_score : JsValue;
    su_last_spin_at : timestamp;
    su_updated_at : timestamp }.

Record StatisticsInsert : Type := mkStatisticsInsert
  { si_user_id : uuid;
    si_total_spins : Z;
    si_total_points : Z;
    si_divine_count : Z;
    si_reality_count : Z;
    si_highest_score : JsValue;
    si_last_spin_at : timestamp;
    si_created_at : timestamp;
    si_updated_at : timestamp }.

Definition set_user_collections (l : list UserCollection.t) (db : Database) : Database :=
  mkDatabase (divine_words db) l (user_statistics db) (next_uuid db).

Definition set_user_statistics (l : list UserStatistics.t) (db : Database) : Database :=
  mkDatabase (divine_words db) (user_collections db) l (next_uuid db).

Definition take_uuid (db : Database) : Database :=
  mkDatabase (divine_words db) (user_collections db) (user_statistics db)
             (N.succ (next_uuid db)).

Definition apply_collection_update (p : CollectionUpdate) (r : UserCollection.t)
  : UserCollection.t :=
  UserCollection.mk (UserCollection.id r) (UserCollection.user_id r)
    (UserCollection.divine_word_id r) (cu_found_count p)
    (UserCollection.first_found_at r) (cu_updated_at p).

(** The range of an [integer] column.  A statement that carries a value
    outside it fails as a whole (22003) and changes nothing; the handler
    does not look at the [error] of the result. *)
Definition int4 (z : Z) : bool :=
  (-2147483648 <=? z) && (z <=? 2147483647).

(** A property bound for a nullable [integer] column. *)
Definition int4_property (v : JsValue) : bool :=
  match JSON_stringify_property v with
  | json_int z => int4 z
  | json_omitted | json_null => true
  end.

(** [CHECK (found_count > 0)] and the range of the column. *)
Definition found_count_refused (n : Z) : bool :=
  (n <=? 0) || negb (int4 n).

(** [update({...}).eq("id", id)].  The statement fails as a whole, and
    changes nothing, when [found_count] is refused. *)
Definition update_user_collection (i : uuid) (p : CollectionUpdate) (db : Database)
  : Database :=
  if found_count_refused (cu_found_count p) then db
  else set_user_collections
         (map (fun r => if (UserCollection.id r =? i)%N
                        then apply_collection_update p r else r)
              (user_collections db)) db.

(** [insert({...})].  Refused by [UNIQUE(user_id, divine_word_id)], by
    [CHECK (found_count > 0)] or by the range of the column; the new row
    takes a fresh [id]. *)
Definition insert_user_collection (p : CollectionInsert) (db : Database) : Database :=
  if existsb (collection_of (ci_user_id p) (ci_divine_word_id p)) (user_collections db)
     || found_count_refused (ci_found_count p)
  then db
  else take_uuid
         (set_user_collections
            (user_collections db ++
             [UserCollection.mk (next_uuid db) (ci_user_id p) (ci_divine_word_id p)
                (ci_found_count p) (ci_first_found_at p) (ci_updated_at p)]) db).

(** A column of an UPDATE: a property left out keeps the old value. *)
Definition updated_column (old : option Z) (v : JsValue) : option Z :=
  match JSON_stringify_property v with
  | json_omitted => old
  | json_null => None
  | json_int z => Some z
  end.

(** A column of an INSERT: a property left out takes the column's
    DEFAULT. *)
Definition inserted_column (default : option Z) (v : JsValue) : option Z :=
  match JSON_stringify_property v with
  | json_omitted => default
  | json_null => None
  | json_int z => Some z
  end.

Definition apply_statistics_update (p : StatisticsUpdate) (r : UserStatistics.t)
  : UserStatistics.t :=
  UserStatistics.mk (UserStatistics.id r) (UserStatistics.user_id r)
    (su_total_spins p) (su_total_points p) (su_divine_count p) (su_reality_count p)
    (UserStatistics.collection_completion r)
    (updated_column (UserStatistics.highest_score r) (su_highest_score p))
    (Some (su_last_spin_at p)) (UserStatistics.created_at r) (su_updated_at p).

(** Every number of the payload is within the range of its column. *)
Definition statistics_update_fits (p : StatisticsUpdate) : bool :=
  int4 (su_total_spins p) && int4 (su_total_points p)
  && int4 (su_divine_count p) && int4 (su_reality_count p)
  && int4_property (su_highest_score p).

Definition statistics_insert_fits (p : StatisticsInsert) : bool :=
  int4 (si_total_spins p) && int4 (si_total_points p)
  && int4 (si_divine_count p) && int4 (si_reality_count p)
  && int4_property (si_highest_score p).

(** [update({...}).eq("id", id)].  Refused as a whole, whatever the rows
    it matches, when a number of the payload does not fit its column. *)
Definition update_user_statistics (i : uuid) (p : StatisticsUpdate) (db : Database)
  : Database :=
  if statistics_update_fits p
  then set_user_statistics
         (map (fun r => if (UserStatistics.id r =? i)%N
                        then apply_statistics_update p r else r)
              (user_statistics db)) db
  else db.

(** Refused by [user_id ... UNIQUE] or by a number that does not fit its
    column.  [collection_completion] and a left-out [highest_score] take
    [DEFAULT 0]. *)
Definition insert_user_statistics (p : StatisticsInsert) (db : Database) : Database :=
  if existsb (statistics_of (si_user_id p)) (user_statistics db)
     || negb (statistics_insert_fits p)
  then db
  else take_uuid
         (set_user_statistics
            (user_statistics db ++
             [UserStatistics.mk (next_uuid db) (si_user_id p)
                (si_total_spins p) (si_total_points p)
                (si_divine_count p) (si_reality_count p) 0
                (inserted_column (Some 0) (si_highest_score p))
                (Some (si_last_spin_at p)) (si_created_at p) (si_updated_at p)]) db).

(** ** The world around one invocation

    The handlers keep no state of their own: what they see and change is
    the database, the clock, and the calls they issue.  [trace] lists those
    calls, oldest first. *)

Inductive Call : Type :=
| auth_getUser (token : string)
| divine_words_select_word (w : string)
| divine_words_select_all
| user_collections_select (user_id divine_word_id : uuid)
| user_collections_select_joined (user_id : uuid)
| user_collections_update (id : uuid) (p : CollectionUpdate)
| user_collections_insert (p : CollectionInsert)
| user_statistics_select (user_id : uuid)
| user_statistics_update (id : uuid) (p : StatisticsUpdate)
| user_statistics_insert (p : StatisticsInsert).

Definition is_database_call (c : Call) : bool :=
  match c with
  | auth_getUser _ => false
  | _ => true
  end.

Definition is_write (c : Call) : bool :=
  match c with
  | user_collections_update _ _ | user_collections_insert _
  | user_statistics_update _ _ | user_statistics_insert _ => true
  | _ => false
  end.

Definition is_ledger_write (c : Call) : bool :=
  match c with
  | user_collections_update _ _ | user_collections_insert _ => true
  | _ => false
  end.

Record World : Type := mkWorld
  { database : Database;
    clock : nat;
    trace : list Call }.

(** What the deployment and the identity provider supply:
    [Deno.env.get], [client.auth.getUser(token)] ([None]: an error or no
    user), and the instant the n-th [new Date()] of the run reads. *)
Record Env : Type := mkEnv
  { SUPABASE_URL : option string;
    SUPABASE_SERVICE_ROLE_KEY : option string;
    getUser : string -> option uuid;
    Date_now : nat -> timestamp }.

(** The body as declared by [TrackResultRequest]; a field that the JSON
    text lacks is [None] ([undefined] after destructuring). *)
Record TrackResultRequest : Type := mkTrackResultRequest
  { type : option string;
    word : option string;
    score : option Z }.

(** [json = None]: [await req.json()] rejects (the text is not JSON) or
    the destructuring throws (the text is [null]). *)
Record Request : Type := mkRequest
  { method : string;
    authorization : option string;
    json : option TrackResultRequest }.

Record Completion : Type := mkCompletion
  { percent : option Z;
    collected : Z;
    total : Z }.

Record CollectionItem : Type := mkCollectionItem
  { item : UserCollection.t;
    item_divine_words : option DivineWord.t }.

(** [stats || { total_spins: 0, total_points: 0, divine_count: 0,
    reality_count: 0, highest_score: 0, last_spin_at: null }] *)
Inductive ProfileStats : Type :=
| stats_row (r : UserStatistics.t)
| stats_defaults.

Record Profile : Type := mkProfile
  { profile_stats : ProfileStats;
    collections_total : Z;
    collections_ssr : Z;
    collections_sr : Z;
    collections_items : list CollectionItem;
    completion : Completion }.

Inductive ResponseBody : Type :=
| no_body
| error_body (error : string)
| success_body (message : string)
| profile_body (p : Profile).

Record Response : Type := mkResponse
  { status : Z;
    headers : list (string * string);
    body : ResponseBody }.

(** Lines 10-14. *)
Definition corsHeaders : list (string * string) :=
  [("Access-Control-Allow-Origin", "*");
   ("Access-Control-Allow-Methods", "GET, POST, PUT, DELETE, OPTIONS");
   ("Access-Control-Allow-Headers",
    "Content-Type, Authorization, X-Client-Info, Apikey")].

(** [{ ...corsHeaders, "Content-Type": "application/json" }] *)
Definition json_headers : list (string * string) :=
  corsHeaders ++ [("Content-Type", "application/json")].

Definition Handler (A : Type) : Type := World -> A * World.

Definition ret {A : Type} (a : A) : Handler A := fun w => (a, w).

Definition bind {A B : Type} (m : Handler A) (k : A -> Handler B) : Handler B :=
  fun w => let (a, w') := m w in k a w'.

Declare Scope handler_scope.
Delimit Scope handler_scope with handler.
Notation "x <- m ;; k" := (bind m (fun x => k))
  (at level 61, m at next level, right associativity) : handler_scope.
Notation "m ;; k" := (bind m (fun _ => k))
  (at level 61, right associativity) : handler_scope.
Local Open Scope handler_scope.

(** Issue one database call: log it, let the database answer. *)
Definition query {A : Type} (c : Call) (read : Database -> A) : Handler A :=
  fun w => (read (database w),
            mkWorld (database w) (clock w) (trace w ++ [c])).

Definition write (c : Call) (effect : Database -> Database) : Handler unit :=
  fun w => (tt, mkWorld (effect (database w)) (clock w) (trace w ++ [c])).

Definition falsy (s : option string) : bool :=
  match s with
  | None | Some EmptyString => true
  | Some _ => false
  end.

(** Line 117. *)
Definition points (type : string) : Z :=
  if (type =? "DIVINE")%string then 20
  else if (type =? "REALITY")%string then 5 else 1.

(** Lines 118 and 119. *)
Definition divineIncrement (type : string) : Z :=
  if (type =? "DIVINE")%string then 1 else 0.

Definition realityIncrement (type : string) : Z :=
  if (type =? "REALITY")%string then 1 else 0.

Definition score_value (s : option Z) : JsValue :=
  match s with
  | Some z => js_int z
  | None => js_undefined
  end.

Definition column_value (c : option Z) : JsValue :=
  match c with
  | Some z => js_int z
  | None => js_null
  end.

Definition json_error (code : Z) (msg : string) : Response :=
  mkResponse code json_headers (error_body msg).

Section Handlers.

Variable env : Env.

(** [new Date().toISOString()] *)
Definition now : Handler timestamp :=
  fun w => (Date_now env (clock w),
            mkWorld (database w) (S (clock w)) (trace w)).

Definition auth_call (token : string) : Handler (option uuid) :=
  fun w => (getUser env token,
            mkWorld (database w) (clock w) (trace w ++ [auth_getUser token])).

(** Lines 25-56, and again 181-212: the credential gate.  It answers
    with a response of its own, or with the user. *)
Definition authenticate (req : Request) : Handler (Response + uuid) :=
  if falsy (authorization req)
  then ret (inl (json_error 401 "Missing authorization header"))
  else
    let authHeader := match authorization req with Some h => h | None => "" end in
    let token := replace "Bearer " "" authHeader in
    if falsy (SUPABASE_URL env) || falsy (SUPABASE_SERVICE_ROLE_KEY env)
    then ret (inl (json_error 500 "Server configuration error"))
    else
      user <- auth_call token ;;
      match user with
      | None => ret (inl (json_error 401 "Unauthorized"))
      | Some u => ret (inr u)
      end.

(** Lines 83-108: update or insert the ledger entry. *)
Definition record_collection (user divineWord : uuid) : Handler unit :=
  existing <- query (user_collections_select user divineWord)
                    (select_user_collection user divineWord) ;;
  match existing with
  | Some e =>
      updated_at <- now ;;
      let p := mkCollectionUpdate (UserCollection.found_count e + 1) updated_at in
      write (user_collections_update (UserCollection.id e) p)
            (update_user_collection (UserCollection.id e) p)
  | None =>
      first_found_at <- now ;;
      updated_at <- now ;;
      let p := mkCollectionInsert user divineWord 1 first_found_at updated_at in
      write (user_collections_insert p) (insert_user_collection p)
  end.

(** Lines 111-146: update or insert the statistics row. *)
Definition record_statistics (user : uuid) (type : string) (score : JsValue)
  : Handler unit :=
  stats <- query (user_statistics_select user) (select_user_statistics user) ;;
  match stats with
  | Some st =>
      last_spin_at <- now ;;
      updated_at <- now ;;
      let p := mkStatisticsUpdate
                 (UserStatistics.total_spins st + 1)
                 (UserStatistics.total_points st + points type)
                 (UserStatistics.divine_count st + divineIncrement type)
                 (UserStatistics.reality_count st + realityIncrement type)
                 (Math_max (column_value (UserStatistics.highest_score st)) score)
                 last_spin_at updated_at in
      write (user_statistics_update (UserStatistics.id st) p)
            (update_user_statistics (UserStatistics.id st) p)
  | None =>
      last_spin_at <- now ;;
      created_at <- now ;;
      updated_at <- now ;;
      let p := mkStatisticsInsert user 1 (points type)
                 (divineIncrement type) (realityIncrement type) score
                 last_spin_at created_at updated_at in
      write (user_statistics_insert p) (insert_user_statistics p)
  end.

(** Lines 58-154, once the user is known. *)
Definition track (user : uuid) (req : Request) : Handler Response :=
  match json req with
  | None => ret (json_error 500 "Internal server error")
  | Some b =>
      if falsy (type b) || falsy (word b)
      then ret (json_error 400 "Missing required fields")
      else
        let type := match type b with Some t => t | None => "" end in
        let word := match word b with Some s => s | None => "" end in
        divineWord <- query (divine_words_select_word word)
                            (select_divine_word word) ;;
        if match divineWord with None => true | Some _ => false end
           && negb (type =? "VOID")%string
        then ret (json_error 404 "Divine word not found")
        else
          match divineWord with
          | Some d => record_collection user d
          | None => ret tt
          end ;;
          record_statistics user type (score_value (score b)) ;;
          ret (mkResponse 200 json_headers
                 (success_body "Oracle result tracked successfully"))
  end.

(** The first [Deno.serve] handler (lines 16-162). *)
Definition track_oracle_result (req : Request) : Handler Response :=
  if (method req =? "OPTIONS")%string
  then ret (mkResponse 200 corsHeaders no_body)
  else
    a <- authenticate req ;;
    match a with
    | inl response => ret response
    | inr user => track user req
    end.


(** [order("updated_at", { ascending: false })]: newest first; rows
    with equal instants keep their table order. *)
Fixpoint insert_newest_first (c : UserCollection.t) (l : list UserCollection.t)
  : list UserCollection.t :=
  match l with
  | [] => [c]
  | x :: l' =>
      if UserCollection.updated_at x <=? UserCollection.updated_at c
      then c :: l
      else x :: insert_newest_first c l'
  end.

Definition order_newest_first (l : list UserCollection.t) : list UserCollection.t :=
  fold_right insert_newest_first [] l.

(** The embedded [divine_words (id, word, rarity)] of the joined select. *)
Definition join_divine_words (db : Database) (c : UserCollection.t) : CollectionItem :=
  mkCollectionItem c
    (find (fun d => (DivineWord.id d =? UserCollection.divine_word_id c)%N)
          (divine_words db)).

Definition select_collections_joined (u : uuid) (db : Database) : list CollectionItem :=
  map (join_divine_words db)
      (order_newest_first
         (filter (fun c => (UserCollection.user_id c =? u)%N) (user_collections db))).

(** Lines 243-245, on the two lengths:
    [totalWords > 0 ? Math.floor((collectedWords / totalWords) * 100) : 0] *)
Definition completionPercent (collectedWords totalWords : Z) : option Z :=
  if 0 <? totalWords
  then JsNumber.floor
         (JsNumber.mul
            (JsNumber.div (JsNumber.of_Z collectedWords) (JsNumber.of_Z totalWords))
            (JsNumber.of_Z 100))
  else Some 0.

(** [collections.filter((c) => c.divine_words.rarity === r)]; reading
    [rarity] off a missing [divine_words] throws, hence the [option]. *)
Fixpoint filter_rarity (r : string) (l : list CollectionItem)
  : option (list CollectionItem) :=
  match l with
  | [] => Some []
  | c :: l' =>
      match item_divine_words c with
      | None => None
      | Some d =>
          match filter_rarity r l' with
          | None => None
          | Some k => Some (if (DivineWord.rarity d =? r)%string then c :: k else k)
          end
      end
  end.

(** Lines 214-274, once the user is known. *)
Definition profile (user : uuid) : Handler Response :=
  stats <- query (user_statistics_select user) (select_user_statistics user) ;;
  collections <- query (user_collections_select_joined user)
                       (select_collections_joined user) ;;
  allWords <- query divine_words_select_all divine_words ;;
  let totalWords := Z.of_nat (List.length allWords) in
  let collectedWords := Z.of_nat (List.length collections) in
  let completionPercent := completionPercent collectedWords totalWords in
  match filter_rarity "SSR" collections, filter_rarity "SR" collections with
  | Some ssrCollections, Some srCollections =>
      ret (mkResponse 200 json_headers
             (profile_body
                (mkProfile
                   (match stats with
                    | Some r => stats_row r
                    | None => stats_defaults
                    end)
                   collectedWords
                   (Z.of_nat (List.length ssrCollections))
                   (Z.of_nat (List.length srCollections))
                   collections
                   (mkCompletion completionPercent collectedWords totalWords))))
  | _, _ => ret (json_error 500 "Internal server error")
  end.

(** The second [Deno.serve] handler (lines 172-282). *)
Definition get_profile (req : Request) : Handler Response :=
  if (method req =? "OPTIONS")%string
  then ret (mkResponse 200 corsHeaders no_body)
  else
    a <- authenticate req ;;
    match a with
    | inl response => ret response
    | inr user => profile user
    end.

End Handlers.

(** ** Notions used by the statements *)

Definition token_of (req : Request) : string :=
  replace "Bearer " "" (match authorization req with Some h => h | None => "" end).

(** The request passes the preflight test and the credential gate as
    user [u] (the tests of lines 17, 26, 37 and 51). *)
Definition authenticated (env : Env) (req : Request) (u : uuid) : Prop :=
  (method req =? "OPTIONS")%string = false /\
  falsy (authorization req) = false /\
  falsy (SUPABASE_URL env) = false /\
  falsy (SUPABASE_SERVICE_ROLE_KEY env) = false /\
  getUser env (token_of req) = Some u.

Definition logged (c : Call) (w : World) : World :=
  mkWorld (database w) (clock w) (trace w ++ [c]).

Definition database_calls (w : World) : list Call :=
  filter is_database_call (trace w).

Definition writes (w : World) : list Call := filter is_write (trace w).

Definition ledger_writes (w : World) : list Call :=
  filter is_ledger_write (trace w).

(** The user's running totals, [0] while the user has no row (the
    defaults the profile reader shows). *)
Definition total_points_of (u : uuid) (db : Database) : Z :=
  match select_user_statistics u db with
  | Some st => UserStatistics.total_points st
  | None => 0
  end.

Definition total_spins_of (u : uuid) (db : Database) : Z :=
  match select_user_statistics u db with
  | Some st => UserStatistics.total_spins st
  | None => 0
  end.

(** [user_id uuid NOT NULL UNIQUE] on [user_statistics]. *)
Definition unique_statistics (db : Database) : Prop :=
  NoDup (map UserStatistics.user_id (user_statistics db)).

(** The body carries the field, with a non-empty text (so that line 61
    lets it through). *)
Definition present (field : option string) (s : string) : Prop :=
  field = Some s /\ s <> "".

Definition tracked : Response :=
  mkResponse 200 json_headers (success_body "Oracle result tracked successfully").

Definition collection_key (r : UserCollection.t) : uuid * uuid :=
  (UserCollection.user_id r, UserCollection.divine_word_id r).

(** The constraints of the migration that the handlers can meet: the
    three UNIQUE keys, the primary keys, [CHECK (found_count > 0)], and
    the identifiers already handed out by [gen_random_uuid()]. *)
Record constraints (db : Database) : Prop := mkConstraints
  { words_unique : NoDup (map DivineWord.word (divine_words db));
    collections_unique : NoDup (map collection_key (user_collections db));
    statistics_unique : unique_statistics db;
    found_counts_positive :
      Forall (fun r => 0 < UserCollection.found_count r) (user_collections db);
    collections_primary_key : NoDup (map UserCollection.id (user_collections db));
    statistics_primary_key : NoDup (map UserStatistics.id (user_statistics db));
    collections_issued :
      Forall (fun r => (UserCollection.id r < next_uuid db)%N) (user_collections db);
    statistics_issued :
      Forall (fun r => (UserStatistics.id r < next_uuid db)%N) (user_statistics db) }.

(** ** Sequences of spins *)

(** The requests of a run, served one after the other. *)
Fixpoint serve_all (env : Env) (reqs : list Request) (w : World)
  : list Response * World :=
  match reqs with
  | [] => ([], w)
  | r :: rest =>
      let (response, w1) := track_oracle_result env r w in
      let (responses, w2) := serve_all env rest w1 in
      (response :: responses, w2)
  end.

Record Spin : Type := mkSpin
  { spin_type : string;
    spin_word : string;
    spin_score : Z }.

Definition spin_request (authHeader : string) (s : Spin) : Request :=
  mkRequest "POST" (Some authHeader)
    (Some (mkTrackResultRequest (Some (spin_type s)) (Some (spin_word s))
             (Some (spin_score s)))).

(** The sum of the per-spin point values. *)
Definition sum_points (spins : list Spin) : Z :=
  fold_right (fun s acc => points (spin_type s) + acc) 0 spins.

(** The greatest of the scores, from [h] on. *)
Definition max_score (h : Z) (spins : list Spin) : Z :=
  fold_left (fun m s => Z.max m (spin_score s)) spins h.

(** The [completion] object of a 200 answer of the profile reader. *)
Definition completion_of (r : Response) : option Completion :=
  match body r with
  | profile_body p => Some (completion p)
  | _ => None
  end.

(** Whether the statistics write of a spin fits the [integer] columns:
    the values of lines 125-129 for a user who has a row, the score of
    line 141 for a user who has none.  The database accepts the write
    when it does, and refuses it otherwise. *)
Definition update_fits (st : UserStatistics.t) (type : string) (score : JsValue)
  : bool :=
  int4 (UserStatistics.total_spins st + 1)
  && int4 (UserStatistics.total_points st + points type)
  && int4 (UserStatistics.divine_count st + divineIncrement type)
  && int4 (UserStatistics.reality_count st + realityIncrement type)
  && int4_property (Math_max (column_value (UserStatistics.highest_score st)) score).

Definition spin_fits (u : uuid) (type : string) (score : JsValue) (db : Database)
  : bool :=
  match select_user_statistics u db with
  | Some st => update_fits st type score
  | None => int4_property score
  end.

(** ** Further notions *)

(** The ledger rows and the statistics rows that belong to a user. *)
Definition ledger_of (u : uuid) (db : Database) : list UserCollection.t :=
  filter (fun c => (UserCollection.user_id c =? u)%N) (user_collections db).

Definition statistics_rows_of (u : uuid) (db : Database) : list UserStatistics.t :=
  filter (statistics_of u) (user_statistics db).

(** How often the ledger says the user found the word; [0] without an
    entry. *)
Definition found_count_of (u d : uuid) (db : Database) : Z :=
  match select_user_collection u d db with
  | Some e => UserCollection.found_count e
  | None => 0
  end.

(** [divine_word_id uuid NOT NULL REFERENCES divine_words(id)] *)
Definition foreign_keys (db : Database) : Prop :=
  Forall (fun c => exists d, In d (divine_words db) /\
                             DivineWord.id d = UserCollection.divine_word_id c)
         (user_collections db).

(** [CHECK (rarity IN ('SSR', 'SR'))] *)
Definition rarity_checked (db : Database) : Prop :=
  Forall (fun d => DivineWord.rarity d = "SSR" \/ DivineWord.rarity d = "SR")
         (divine_words db).

(** The number of spins of a run that carry the given type. *)
Definition count_type (t : string) (spins : list Spin) : Z :=
  Z.of_nat (List.length (filter (fun s => (spin_type s =? t)%string) spins)).

(** The profile of a 200 answer of the reader. *)
Definition profile_of (r : Response) : option Profile :=
  match body r with
  | profile_body p => Some p
  | _ => None
  end.

(** [a] may stand before [b] in a list ordered newest first. *)
Definition not_older (a b : UserCollection.t) : Prop :=
  UserCollection.updated_at b <= UserCollection.updated_at a.

(** The reported percentage of [collected] out of [total] is the floor
    of the exact quotient or one below it, and lies between 0 and 100. *)
Definition percent_within_one (collected total : Z) : bool :=
  match completionPercent collected total with
  | Some p =>
      (100 * collected / total - 1 <=? p) && (p <=? 100 * collected / total)
      && (0 <=? p) && (p <=? 100)
  | None => false
  end.

(** All the pairs [0 <= collected <= total] with [1 <= total <= n]. *)
Definition percent_within_one_upto (n : nat) : bool :=
  forallb (fun t => forallb (fun c => percent_within_one (Z.of_nat c) (Z.of_nat t))
                            (seq 0 (S t)))
          (seq 1 n).

(** The reported percentage is the floor of the exact quotient. *)
Definition percent_exact (collected total : Z) : bool :=
  match completionPercent collected total with
  | Some p => p =? 100 * collected / total
  | None => false
  end.

Definition percent_exact_upto (n : nat) : bool :=
  forallb (fun t => forallb (fun c => percent_exact (Z.of_nat c) (Z.of_nat t))
                            (seq 0 (S t)))
          (seq 1 n).

(** ** The seed of the migration (lines 131-152) *)

Definition seed_rows : list (string * string) :=
  [("うんこ", "SSR"); ("ちんこ", "SSR"); ("まんこ", "SSR"); ("ぱんこ", "SSR");
   ("あんこ", "SSR"); ("さんこ", "SSR"); ("きんこ", "SSR"); ("わんこ", "SSR");
   ("げんこ", "SSR");
   ("てんき", "SR"); ("げんき", "SR"); ("りんご", "SR"); ("だんご", "SR");
   ("きんご", "SR"); ("ぶんこ", "SR"); ("はんこ", "SR"); ("さんご", "SR")].

(** [CHECK (rarity IN ('SSR', 'SR'))] *)
Definition rarity_ok (r : string) : bool :=
  (r =? "SSR")%string || (r =? "SR")%string.

(** One row of [INSERT INTO divine_words (word, rarity) VALUES ...
    ON CONFLICT (word) DO NOTHING]: skipped when the word is there. *)
Definition insert_divine_word (w r : string) (db : Database) : Database :=
  if existsb (word_is w) (divine_words db) then db
  else mkDatabase (divine_words db ++ [DivineWord.mk (next_uuid db) w r])
                  (user_collections db) (user_statistics db)
                  (N.succ (next_uuid db)).

(** The statement, row by row; it fails as a whole, [None], on a row
    that breaks the CHECK. *)
Fixpoint insert_divine_words (rows : list (string * string)) (db : Database)
  : option Database :=
  match rows with
  | [] => Some db
  | (w, r) :: rest =>
      if rarity_ok r then insert_divine_words rest (insert_divine_word w r db)
      else None
  end.

(** The three tables as [CREATE TABLE] leaves them. *)
Definition created_db : Database := mkDatabase [] [] [] 1.

(** ** Sample data *)

Definition seed_words : list DivineWord.t :=
  [DivineWord.mk 1 "wanko" "SSR"; DivineWord.mk 2 "ringo" "SR"].

Definition empty_db : Database := mkDatabase seed_words [] [] 3.

Definition sample_env : Env :=
  mkEnv (Some "https://project.supabase.co") (Some "service-role-key")
        (fun t => if (t =? "alice-jwt")%string then Some 7%N else None)
        (fun n => 1000 + Z.of_nat n).

Definition fresh_world : World := mkWorld empty_db 0 [].

Definition post (t w : option string) (s : option Z) : Request :=
  mkRequest "POST" (Some "Bearer alice-jwt") (Some (mkTrackResultRequest t w s)).

Definition preflight : Request := mkRequest "OPTIONS" None None.

Definition anonymous_get : Request := mkRequest "GET" None None.

Definition later_spins : list Spin :=
  [mkSpin "VOID" "neko" 95; mkSpin "REALITY" "ringo" 40].

(** A catalog of 50 words of which user 7 has found the first 29. *)
Definition catalog_of_50 : list DivineWord.t :=
  map (fun n => DivineWord.mk (N.of_nat n) (String (Ascii.ascii_of_nat (64 + n)) "") "SR")
      (seq 1 50).

Definition ledger_of_29 : list UserCollection.t :=
  map (fun n => UserCollection.mk (N.of_nat (100 + n)) 7 (N.of_nat n) 1
                  (Z.of_nat n) (Z.of_nat n))
      (seq 1 29).

Definition world_29_of_50 : World :=
  mkWorld (mkDatabase catalog_of_50 ledger_of_29 [] 200) 0 [].

Definition profile_request : Request :=
  mkRequest "GET" (Some "Bearer alice-jwt") None.

(** Two users: user 8 has found the first word twice, user 7 the second
    word once. *)
Definition busy_db : Database :=
  mkDatabase seed_words
    [UserCollection.mk 10 8 1 2 500 600; UserCollection.mk 11 7 2 1 700 700]
    [UserStatistics.mk 12 8 3 25 1 1 0 (Some 90) (Some 600) 500 600;
     UserStatistics.mk 13 7 1 5 0 1 0 (Some 40) (Some 700) 700 700]
    14.

Definition busy_world : World := mkWorld busy_db 0 [].

Definition unconfigured_env : Env :=
  mkEnv (Some "https://project.supabase.co") None
        (fun t => if (t =? "alice-jwt")%string then Some 7%N else None)
        (fun n => 1000 + Z.of_nat n).

Definition stranger_post : Request :=
  mkRequest "POST" (Some "Bearer mallory-jwt")
    (Some (mkTrackResultRequest (Some "DIVINE") (Some "wanko") (Some 1))).

Definition empty_header_post : Request :=
  mkRequest "POST" (Some "")
    (Some (mkTrackResultRequest (Some "DIVINE") (Some "wanko") (Some 1))).

(** ** The credential gate *)

Lemma authenticate_accepts env req u w :
  authenticated env req u ->
  authenticate env req w = (inr u, logged (auth_getUser (token_of req)) w).
Proof.
  intros (_ & Hh & Hu & Hk & Hg).
  unfold authenticate, bind, auth_call, ret.
  rewrite Hh, Hu, Hk. simpl.
  fold (token_of req). rewrite Hg. reflexivity.
Qed.

Lemma track_oracle_result_authenticated env req u w :
  authenticated env req u ->
  track_oracle_result env req w
  = track env u req (logged (auth_getUser (token_of req)) w).
Proof.
  intros H. pose proof H as (Hm & _).
  unfold track_oracle_result. rewrite Hm. unfold bind.
  rewrite (authenticate_accepts env req u w H). reflexivity.
Qed.

Lemma get_profile_authenticated env req u w :
  authenticated env req u ->
  get_profile env req w
  = profile u (logged (auth_getUser (token_of req)) w).
Proof.
  intros H. pose proof H as (Hm & _).
  unfold get_profile. rewrite Hm. unfold bind.
  rewrite (authenticate_accepts env req u w H). reflexivity.
Qed.

Lemma filter_app_one {A : Type} (f : A -> bool) (l : list A) (x : A) :
  f x = false -> filter f (l ++ [x]) = filter f l.
Proof.
  intros H. rewrite filter_app. simpl. rewrite H. apply app_nil_r.
Qed.

Lemma authenticate_database env req w :
  database (snd (authenticate env req w)) = database w.
Proof.
  unfold authenticate, bind, auth_call, ret.
  destruct (falsy (authorization req)); [reflexivity|].
  destruct (falsy (SUPABASE_URL env) || falsy (SUPABASE_SERVICE_ROLE_KEY env));
    [reflexivity|].
  simpl. destruct (getUser env _); reflexivity.
Qed.

Lemma authenticate_database_calls env req w :
  database_calls (snd (authenticate env req w)) = database_calls w.
Proof.
  unfold authenticate, bind, auth_call, ret.
  destruct (falsy (authorization req)); [reflexivity|].
  destruct (falsy (SUPABASE_URL env) || falsy (SUPABASE_SERVICE_ROLE_KEY env));
    [reflexivity|].
  simpl. destruct (getUser env _); simpl;
    unfold database_calls; simpl; apply filter_app_one; reflexivity.
Qed.

(** C3.  A request whose body lacks [type] or lacks [word] is answered
    400 once it has passed the credential gate.  Whether it passes or
    not, the database is left as it was and no database call (catalog,
    ledger or statistics) is issued. *)
Theorem missing_fields_rejected env req w b :
  json req = Some b ->
  type b = None \/ word b = None ->
  (forall u, authenticated env req u ->
             status (fst (track_oracle_result env req w)) = 400) /\
  database (snd (track_oracle_result env req w)) = database w /\
  database_calls (snd (track_oracle_result env req w)) = database_calls w.
Proof.
  intros Hb Hm.
  assert (Hf : falsy (type b) || falsy (word b) = true).
  { destruct Hm as [-> | ->]; simpl; [reflexivity | apply orb_true_r]. }
  split.
  - intros u Ha.
    rewrite (track_oracle_result_authenticated env req u w Ha).
    unfold track. rewrite Hb, Hf. reflexivity.
  - unfold track_oracle_result.
    destruct (method req =? "OPTIONS")%string; [split; reflexivity|].
    unfold bind.
    pose proof (authenticate_database env req w) as Hdb.
    pose proof (authenticate_database_calls env req w) as Hcalls.
    destruct (authenticate env req w) as [[response | user] w1]; simpl in *.
    + split; assumption.
    + unfold track. rewrite Hb, Hf. simpl. split; assumption.
Qed.

Lemma missing_fields_rejected_witness :
  authenticated sample_env (post None (Some "ringo") (Some 3)) 7 /\
  status (fst (track_oracle_result sample_env
                 (post None (Some "ringo") (Some 3)) fresh_world)) = 400 /\
  database (snd (track_oracle_result sample_env
                   (post None (Some "ringo") (Some 3)) fresh_world))
  = database fresh_world /\
  database_calls (snd (track_oracle_result sample_env
                         (post None (Some "ringo") (Some 3)) fresh_world))
  = database_calls fresh_world.
Proof.
  assert (Ha : authenticated sample_env (post None (Some "ringo") (Some 3)) 7)
    by (repeat split; reflexivity).
  destruct (missing_fields_rejected sample_env
              (post None (Some "ringo") (Some 3)) fresh_world
              (mkTrackResultRequest None (Some "ringo") (Some 3))
              eq_refl (or_introl eq_refl))
    as (H400 & Hdb & Hcalls).
  split; [exact Ha|]. split; [exact (H400 7%N Ha)|]. split; assumption.
Defined.

(** ** The query builder on lists *)

Lemma maybeSingle_Some {A : Type} (l : list A) (x : A) :
  maybeSingle l = Some x <-> l = [x].
Proof.
  split.
  - destruct l as [|a [|b l]]; simpl; intros H; try discriminate.
    injection H as ->. reflexivity.
  - intros ->. reflexivity.
Qed.

Lemma filter_map_stable {A : Type} (f : A -> bool) (g : A -> A) (l : list A) :
  (forall x, f (g x) = f x) ->
  filter f (map g l) = map g (filter f l).
Proof.
  intros H. induction l as [|a l IH]; simpl.
  - reflexivity.
  - rewrite H. destruct (f a); simpl; rewrite IH; reflexivity.
Qed.

Lemma existsb_filter_nil {A : Type} (f : A -> bool) (l : list A) :
  filter f l = [] -> existsb f l = false.
Proof.
  induction l as [|a l IH]; simpl.
  - reflexivity.
  - destruct (f a); simpl; [discriminate | exact IH].
Qed.

(** Under a UNIQUE key, a filter on that key matches at most one row. *)
Lemma filter_unique_key {A : Type} (key : A -> N) (k : N) (l : list A) :
  NoDup (map key l) ->
  filter (fun r => (key r =? k)%N) l = [] \/
  exists x, filter (fun r => (key r =? k)%N) l = [x].
Proof.
  induction l as [|a l IH]; simpl; intros H.
  - left; reflexivity.
  - inversion H as [|? ? Hnotin Hnd]; subst.
    destruct (N.eqb_spec (key a) k) as [E | E].
    + right. exists a. f_equal.
      assert (Hnone : forall y, In y l -> (key y =? k)%N = false).
      { intros y Hy. apply N.eqb_neq. intros Ey. apply Hnotin.
        rewrite E, <- Ey. apply in_map. exact Hy. }
      clear - Hnone. induction l as [|b l IHl]; simpl.
      * reflexivity.
      * rewrite (Hnone b (or_introl eq_refl)). apply IHl.
        intros y Hy. apply Hnone. right. exact Hy.
    + apply IH. exact Hnd.
Qed.

Lemma select_user_statistics_unique u db :
  unique_statistics db ->
  select_user_statistics u db = None ->
  filter (statistics_of u) (user_statistics db) = [].
Proof.
  intros Hu Hs. unfold select_user_statistics in Hs.
  destruct (filter_unique_key UserStatistics.user_id u _ Hu) as [E | (x & E)];
    change (filter (statistics_of u) (user_statistics db) = []) in E
    || change (filter (statistics_of u) (user_statistics db) = [x]) in E.
  - exact E.
  - rewrite E in Hs. discriminate.
Qed.

Lemma select_after_statistics_update u db st p :
  statistics_update_fits p = true ->
  select_user_statistics u db = Some st ->
  select_user_statistics u (update_user_statistics (UserStatistics.id st) p db)
  = Some (apply_statistics_update p st).
Proof.
  unfold select_user_statistics, update_user_statistics. intros -> H. simpl.
  apply maybeSingle_Some in H. apply maybeSingle_Some.
  rewrite filter_map_stable.
  - rewrite H. simpl. rewrite N.eqb_refl. reflexivity.
  - intros x. destruct (UserStatistics.id x =? UserStatistics.id st)%N; reflexivity.
Qed.

Lemma select_after_statistics_insert db p :
  statistics_insert_fits p = true ->
  filter (statistics_of (si_user_id p)) (user_statistics db) = [] ->
  select_user_statistics (si_user_id p) (insert_user_statistics p db)
  = Some (UserStatistics.mk (next_uuid db) (si_user_id p)
            (si_total_spins p) (si_total_points p)
            (si_divine_count p) (si_reality_count p) 0
            (inserted_column (Some 0) (si_highest_score p))
            (Some (si_last_spin_at p)) (si_created_at p) (si_updated_at p)).
Proof.
  intros Hfit H. unfold select_user_statistics, insert_user_statistics.
  rewrite (existsb_filter_nil _ _ H), Hfit. simpl.
  rewrite filter_app, H. simpl.
  unfold statistics_of at 1. simpl. rewrite N.eqb_refl. reflexivity.
Qed.

Lemma select_after_collection_update u d db e p :
  found_count_refused (cu_found_count p) = false ->
  select_user_collection u d db = Some e ->
  select_user_collection u d (update_user_collection (UserCollection.id e) p db)
  = Some (apply_collection_update p e).
Proof.
  unfold select_user_collection, update_user_collection.
  intros Hp H. rewrite Hp. simpl.
  apply maybeSingle_Some in H. apply maybeSingle_Some.
  rewrite filter_map_stable.
  - rewrite H. simpl. rewrite N.eqb_refl. reflexivity.
  - intros x. destruct (UserCollection.id x =? UserCollection.id e)%N; reflexivity.
Qed.

Lemma select_after_collection_insert db p :
  found_count_refused (ci_found_count p) = false ->
  filter (collection_of (ci_user_id p) (ci_divine_word_id p)) (user_collections db) = [] ->
  select_user_collection (ci_user_id p) (ci_divine_word_id p)
    (insert_user_collection p db)
  = Some (UserCollection.mk (next_uuid db) (ci_user_id p) (ci_divine_word_id p)
            (ci_found_count p) (ci_first_found_at p) (ci_updated_at p)).
Proof.
  intros Hp H. unfold select_user_collection, insert_user_collection.
  rewrite (existsb_filter_nil _ _ H), Hp. simpl.
  rewrite filter_app, H. simpl.
  unfold collection_of at 1. simpl. rewrite !N.eqb_refl. reflexivity.
Qed.

(** ** The steps of the recorder *)

Lemma present_not_falsy field s : present field s -> falsy field = false.
Proof.
  intros (-> & Hs). destruct s; [contradiction | reflexivity].
Qed.

Lemma record_statistics_update env u ty sc w st :
  select_user_statistics u (database w) = Some st ->
  exists p,
    record_statistics env u ty sc w
    = (tt, mkWorld (update_user_statistics (UserStatistics.id st) p (database w))
             (S (S (clock w)))
             ((trace w ++ [user_statistics_select u])
                ++ [user_statistics_update (UserStatistics.id st) p])) /\
    su_total_spins p = UserStatistics.total_spins st + 1 /\
    su_total_points p = UserStatistics.total_points st + points ty /\
    su_divine_count p = UserStatistics.divine_count st + divineIncrement ty /\
    su_reality_count p = UserStatistics.reality_count st + realityIncrement ty /\
    su_highest_score p = Math_max (column_value (UserStatistics.highest_score st)) sc /\
    statistics_update_fits p = update_fits st ty sc.
Proof.
  intros H. eexists. split.
  - unfold record_statistics, bind, query, now, write. simpl. rewrite H.
    reflexivity.
  - simpl. repeat split.
Qed.

Lemma record_statistics_insert env u ty sc w :
  select_user_statistics u (database w) = None ->
  exists p,
    record_statistics env u ty sc w
    = (tt, mkWorld (insert_user_statistics p (database w))
             (S (S (S (clock w))))
             ((trace w ++ [user_statistics_select u])
                ++ [user_statistics_insert p])) /\
    si_user_id p = u /\
    si_total_spins p = 1 /\
    si_total_points p = points ty /\
    si_divine_count p = divineIncrement ty /\
    si_reality_count p = realityIncrement ty /\
    si_highest_score p = sc /\
    statistics_insert_fits p = int4_property sc.
Proof.
  intros H. eexists. split.
  - unfold record_statistics, bind, query, now, write. simpl. rewrite H.
    reflexivity.
  - simpl. repeat split.
    unfold statistics_insert_fits, points, divineIncrement, realityIncrement.
    simpl.
    destruct (ty =? "DIVINE")%string; destruct (ty =? "REALITY")%string;
      reflexivity.
Qed.

Lemma record_collection_update env u d w e :
  select_user_collection u d (database w) = Some e ->
  exists p,
    record_collection env u d w
    = (tt, mkWorld (update_user_collection (UserCollection.id e) p (database w))
             (S (clock w))
             ((trace w ++ [user_collections_select u d])
                ++ [user_collections_update (UserCollection.id e) p])) /\
    cu_found_count p = UserCollection.found_count e + 1 /\
    cu_updated_at p = Date_now env (clock w).
Proof.
  intros H. eexists. split.
  - unfold record_collection, bind, query, now, write. simpl. rewrite H.
    reflexivity.
  - simpl. split; reflexivity.
Qed.

Lemma record_collection_insert env u d w :
  select_user_collection u d (database w) = None ->
  record_collection env u d w
  = (tt, mkWorld (insert_user_collection
                    (mkCollectionInsert u d 1 (Date_now env (clock w))
                       (Date_now env (S (clock w)))) (database w))
           (S (S (clock w)))
           ((trace w ++ [user_collections_select u d])
              ++ [user_collections_insert
                    (mkCollectionInsert u d 1 (Date_now env (clock w))
                       (Date_now env (S (clock w))))])).
Proof.
  intros H.
  unfold record_collection, bind, query, now, write. simpl. rewrite H.
  reflexivity.
Qed.

(** The ledger step leaves the other two tables alone, the statistics
    step leaves the ledger and the catalog alone. *)
Lemma record_collection_frame env u d w :
  user_statistics (database (snd (record_collection env u d w)))
  = user_statistics (database w) /\
  divine_words (database (snd (record_collection env u d w)))
  = divine_words (database w).
Proof.
  destruct (select_user_collection u d (database w)) as [e|] eqn:E.
  - destruct (record_collection_update env u d w e E) as (p & -> & _).
    simpl. unfold update_user_collection.
    destruct (found_count_refused (cu_found_count p)); split; reflexivity.
  - rewrite (record_collection_insert env u d w E). simpl.
    unfold insert_user_collection.
    destruct (_ || _); split; reflexivity.
Qed.

Lemma record_statistics_frame env u ty sc w :
  user_collections (database (snd (record_statistics env u ty sc w)))
  = user_collections (database w) /\
  divine_words (database (snd (record_statistics env u ty sc w)))
  = divine_words (database w).
Proof.
  destruct (select_user_statistics u (database w)) as [st|] eqn:E.
  - destruct (record_statistics_update env u ty sc w st E) as (p & -> & _).
    simpl. unfold update_user_statistics.
    destruct (statistics_update_fits p); split; reflexivity.
  - destruct (record_statistics_insert env u ty sc w E) as (p & -> & _).
    simpl. unfold insert_user_statistics.
    destruct (_ || _); split; reflexivity.
Qed.

Lemma track_known_word env u req w b ty wd d :
  json req = Some b ->
  present (type b) ty ->
  present (word b) wd ->
  select_divine_word wd (database w) = Some d ->
  track env u req w
  = (tracked,
     snd (record_statistics env u ty (score_value (score b))
            (snd (record_collection env u d
                    (logged (divine_words_select_word wd) w))))).
Proof.
  intros Hb Ht Hw Hd. unfold track. rewrite Hb.
  rewrite (present_not_falsy _ _ Ht), (present_not_falsy _ _ Hw).
  destruct Ht as (-> & _), Hw as (-> & _). simpl.
  unfold bind, query at 1. simpl. rewrite Hd. simpl.
  fold (logged (divine_words_select_word wd) w).
  destruct (record_collection env u d _) as [[] w1]. simpl.
  destruct (record_statistics env u ty _ w1) as [[] w2]. reflexivity.
Qed.

Lemma track_unknown_word env u req w b ty wd :
  json req = Some b ->
  present (type b) ty ->
  present (word b) wd ->
  select_divine_word wd (database w) = None ->
  track env u req w
  = if negb (ty =? "VOID")%string
    then (json_error 404 "Divine word not found",
          logged (divine_words_select_word wd) w)
    else (tracked,
          snd (record_statistics env u ty (score_value (score b))
                 (logged (divine_words_select_word wd) w))).
Proof.
  intros Hb Ht Hw Hd. unfold track. rewrite Hb.
  rewrite (present_not_falsy _ _ Ht), (present_not_falsy _ _ Hw).
  destruct Ht as (-> & _), Hw as (-> & _). simpl.
  unfold bind, query at 1. simpl. rewrite Hd. simpl.
  fold (logged (divine_words_select_word wd) w).
  destruct (negb (ty =? "VOID")%string); simpl.
  - reflexivity.
  - destruct (record_statistics env u ty _ _) as [[] w2]. reflexivity.
Qed.

Lemma not_falsy_present field : falsy field = false -> exists s, present field s.
Proof.
  destruct field as [[|c s]|]; simpl; intros H; try discriminate.
  exists (String c s). split; [reflexivity | discriminate].
Qed.

Lemma select_user_statistics_ext u db1 db2 :
  user_statistics db1 = user_statistics db2 ->
  select_user_statistics u db1 = select_user_statistics u db2.
Proof.
  unfold select_user_statistics. intros ->. reflexivity.
Qed.

(** The statistics step on a user who has a row, when the new values fit
    the columns: that row, and the user's lookup, move by one spin. *)
Lemma statistics_step_existing env u ty sc w st :
  select_user_statistics u (database w) = Some st ->
  update_fits st ty sc = true ->
  exists st',
    select_user_statistics u (database (snd (record_statistics env u ty sc w)))
    = Some st' /\
    UserStatistics.total_spins st' = UserStatistics.total_spins st + 1 /\
    UserStatistics.total_points st' = UserStatistics.total_points st + points ty /\
    UserStatistics.divine_count st'
    = UserStatistics.divine_count st + divineIncrement ty /\
    UserStatistics.reality_count st'
    = UserStatistics.reality_count st + realityIncrement ty /\
    UserStatistics.highest_score st'
    = updated_column (UserStatistics.highest_score st)
        (Math_max (column_value (UserStatistics.highest_score st)) sc).
Proof.
  intros H Hfit.
  destruct (record_statistics_update env u ty sc w st H)
    as (p & -> & H1 & H2 & H3 & H4 & H5 & H6).
  rewrite Hfit in H6.
  exists (apply_statistics_update p st). simpl.
  split; [apply select_after_statistics_update; assumption|].
  rewrite H1, H2, H3, H4, H5. repeat split.
Qed.

(** The statistics step on a user who has no row yet, when the score
    fits the column: the row is seeded with the single spin's values. *)
Lemma statistics_step_first env u ty sc w :
  filter (statistics_of u) (user_statistics (database w)) = [] ->
  int4_property sc = true ->
  exists st',
    select_user_statistics u (database (snd (record_statistics env u ty sc w)))
    = Some st' /\
    UserStatistics.total_spins st' = 1 /\
    UserStatistics.total_points st' = points ty /\
    UserStatistics.divine_count st' = divineIncrement ty /\
    UserStatistics.reality_count st' = realityIncrement ty /\
    UserStatistics.highest_score st' = inserted_column (Some 0) sc.
Proof.
  intros H Hfit.
  assert (Hs : select_user_statistics u (database w) = None).
  { unfold select_user_statistics. rewrite H. reflexivity. }
  destruct (record_statistics_insert env u ty sc w Hs)
    as (p & -> & H0 & H1 & H2 & H3 & H4 & H5 & H6).
  rewrite Hfit in H6.
  simpl. subst u. eexists. split.
  - apply select_after_statistics_insert; assumption.
  - simpl. rewrite H1, H2, H3, H4, H5. repeat split.
Qed.

(** The statistics step when the write does not fit: the database
    refuses it and nothing changes. *)
Lemma statistics_step_refused env u ty sc w :
  spin_fits u ty sc (database w) = false ->
  database (snd (record_statistics env u ty sc w)) = database w.
Proof.
  unfold spin_fits. intros Hfit.
  destruct (select_user_statistics u (database w)) as [st|] eqn:E.
  - destruct (record_statistics_update env u ty sc w st E)
      as (p & -> & _ & _ & _ & _ & _ & H6).
    simpl. unfold update_user_statistics. rewrite H6, Hfit. reflexivity.
  - destruct (record_statistics_insert env u ty sc w E)
      as (p & -> & _ & _ & _ & _ & _ & _ & H6).
    simpl. unfold insert_user_statistics. rewrite H6, Hfit.
    rewrite orb_true_r. reflexivity.
Qed.

Lemma statistics_step_totals env u ty sc w :
  unique_statistics (database w) ->
  spin_fits u ty sc (database w) = true ->
  total_spins_of u (database (snd (record_statistics env u ty sc w)))
  = total_spins_of u (database w) + 1 /\
  total_points_of u (database (snd (record_statistics env u ty sc w)))
  = total_points_of u (database w) + points ty.
Proof.
  intros Hu Hfit. unfold total_spins_of, total_points_of.
  unfold spin_fits in Hfit.
  destruct (select_user_statistics u (database w)) as [st|] eqn:E.
  - destruct (statistics_step_existing env u ty sc w st E Hfit)
      as (st' & -> & H1 & H2 & _).
    split; assumption.
  - pose proof (select_user_statistics_unique u _ Hu E) as Hn.
    destruct (statistics_step_first env u ty sc w Hn Hfit)
      as (st' & -> & H1 & H2 & _).
    rewrite H1, H2. split; reflexivity.
Qed.

Lemma record_collection_trace env u d w :
  exists calls, trace (snd (record_collection env u d w)) = trace w ++ calls.
Proof.
  destruct (select_user_collection u d (database w)) as [e|] eqn:E.
  - destruct (record_collection_update env u d w e E) as (p & -> & _).
    simpl. eexists. rewrite <- app_assoc. reflexivity.
  - rewrite (record_collection_insert env u d w E).
    simpl. eexists. rewrite <- app_assoc. reflexivity.
Qed.

(** A request that passed the credential gate and was answered 200
    went through the statistics step, from a world whose statistics
    table is still the one the request found. *)
Lemma recorded_spin env req u w b :
  authenticated env req u ->
  json req = Some b ->
  status (fst (track_oracle_result env req w)) = 200 ->
  exists ty wd w1,
    present (type b) ty /\ present (word b) wd /\
    user_statistics (database w1) = user_statistics (database w) /\
    (exists calls, trace w1 = trace w ++ calls) /\
    snd (track_oracle_result env req w)
    = snd (record_statistics env u ty (score_value (score b)) w1).
Proof.
  intros Ha Hb.
  rewrite (track_oracle_result_authenticated env req u w Ha).
  set (w0 := logged (auth_getUser (token_of req)) w).
  destruct (falsy (type b)) eqn:Ft.
  { unfold track. rewrite Hb, Ft. simpl. discriminate. }
  destruct (falsy (word b)) eqn:Fw.
  { unfold track. rewrite Hb, Ft, Fw. simpl. discriminate. }
  destruct (not_falsy_present _ Ft) as (ty & Ht).
  destruct (not_falsy_present _ Fw) as (wd & Hw).
  destruct (select_divine_word wd (database w0)) as [d|] eqn:Hd.
  - rewrite (track_known_word env u req w0 b ty wd d Hb Ht Hw Hd).
    intros _. exists ty, wd.
    exists (snd (record_collection env u d
                   (logged (divine_words_select_word wd) w0))).
    split; [exact Ht|]. split; [exact Hw|]. split; [|split; [|reflexivity]].
    + apply (record_collection_frame env u d
               (logged (divine_words_select_word wd) w0)).
    + destruct (record_collection_trace env u d
                  (logged (divine_words_select_word wd) w0)) as (calls & ->).
      simpl. eexists. rewrite <- !app_assoc. reflexivity.
  - rewrite (track_unknown_word env u req w0 b ty wd Hb Ht Hw Hd).
    destruct (negb (ty =? "VOID")%string); simpl; [discriminate|].
    intros _. exists ty, wd.
    exists (logged (divine_words_select_word wd) w0).
    split; [exact Ht|]. split; [exact Hw|]. split; [reflexivity|].
    split; [|reflexivity].
    simpl. eexists. rewrite <- !app_assoc. reflexivity.
Qed.

Lemma spin_fits_ext u ty sc db1 db2 :
  user_statistics db1 = user_statistics db2 ->
  spin_fits u ty sc db1 = spin_fits u ty sc db2.
Proof.
  unfold spin_fits, select_user_statistics. intros ->. reflexivity.
Qed.

(** C1.  For a valid spin that the recorder recorded (it answered 200
    and the statistics write fits the integer columns, so that the
    database accepted it), the amount added to the user's [total_points]
    depends on the spin's type alone: 20 for DIVINE, 5 for REALITY, 1 for
    VOID.  A spin answered 200 whose write does not fit is not recorded:
    nothing is credited and the database is left as it was. *)
Theorem points_by_type env req u w b ty :
  authenticated env req u ->
  json req = Some b ->
  type b = Some ty ->
  unique_statistics (database w) ->
  status (fst (track_oracle_result env req w)) = 200 ->
  (spin_fits u ty (score_value (score b)) (database w) = true ->
   total_points_of u (database (snd (track_oracle_result env req w)))
   = total_points_of u (database w) + points ty) /\
  (spin_fits u ty (score_value (score b)) (database w) = false ->
   user_statistics (database (snd (track_oracle_result env req w)))
   = user_statistics (database w)) /\
  (ty = "DIVINE" -> points ty = 20) /\
  (ty = "REALITY" -> points ty = 5) /\
  (ty = "VOID" -> points ty = 1).
Proof.
  intros Ha Hb Ht Hu H200.
  destruct (recorded_spin env req u w b Ha Hb H200)
    as (ty' & wd & w1 & (Ht' & _) & _ & Hst & _ & ->).
  rewrite Ht in Ht'. injection Ht' as <-.
  assert (Hu1 : unique_statistics (database w1)).
  { unfold unique_statistics. rewrite Hst. exact Hu. }
  rewrite <- (spin_fits_ext u ty _ _ _ Hst).
  split; [|split].
  - intros Hfit.
    destruct (statistics_step_totals env u ty (score_value (score b)) w1
                Hu1 Hfit) as (_ & ->).
    unfold total_points_of.
    rewrite (select_user_statistics_ext u _ _ Hst). reflexivity.
  - intros Hfit.
    rewrite (statistics_step_refused env u ty (score_value (score b)) w1 Hfit).
    exact Hst.
  - repeat split; intros ->; reflexivity.
Qed.

Lemma points_by_type_witness :
  total_points_of 7
    (database (snd (track_oracle_result sample_env
                      (post (Some "DIVINE") (Some "wanko") (Some 87)) fresh_world)))
  = total_points_of 7 (database fresh_world) + points "DIVINE" /\
  points "DIVINE" = 20.
Proof.
  destruct (points_by_type sample_env
              (post (Some "DIVINE") (Some "wanko") (Some 87)) 7%N fresh_world
              (mkTrackResultRequest (Some "DIVINE") (Some "wanko") (Some 87))
              "DIVINE")
    as (H1 & _ & H3 & _).
  - repeat split; reflexivity.
  - reflexivity.
  - reflexivity.
  - apply NoDup_nil.
  - reflexivity.
  - exact (conj (H1 eq_refl) (H3 eq_refl)).
Defined.

Lemma select_divine_word_absent wd db :
  filter (word_is wd) (divine_words db) = [] ->
  select_divine_word wd db = None.
Proof.
  unfold select_divine_word. intros ->. reflexivity.
Qed.

(** C4.  A DIVINE spin whose word matches no catalog row is answered 404.
    The only calls issued are the credential check and the catalog
    lookup: no write is attempted and the database is left as it was. *)
Theorem unknown_divine_word_rejected env req u w b wd :
  authenticated env req u ->
  json req = Some b ->
  type b = Some "DIVINE" ->
  present (word b) wd ->
  filter (word_is wd) (divine_words (database w)) = [] ->
  status (fst (track_oracle_result env req w)) = 404 /\
  database (snd (track_oracle_result env req w)) = database w /\
  trace (snd (track_oracle_result env req w))
  = trace w ++ [auth_getUser (token_of req); divine_words_select_word wd] /\
  writes (snd (track_oracle_result env req w)) = writes w.
Proof.
  intros Ha Hb Ht Hw Hn.
  rewrite (track_oracle_result_authenticated env req u w Ha).
  assert (Ht' : present (type b) "DIVINE") by (split; [exact Ht | discriminate]).
  rewrite (track_unknown_word env u req
             (logged (auth_getUser (token_of req)) w) b "DIVINE" wd Hb Ht' Hw
             (select_divine_word_absent wd _ Hn)).
  simpl. repeat split.
  - rewrite <- app_assoc. reflexivity.
  - unfold writes. simpl. rewrite !filter_app_one; reflexivity.
Qed.

Lemma unknown_divine_word_rejected_witness :
  status (fst (track_oracle_result sample_env
                 (post (Some "DIVINE") (Some "neko") (Some 87)) fresh_world)) = 404 /\
  database (snd (track_oracle_result sample_env
                   (post (Some "DIVINE") (Some "neko") (Some 87)) fresh_world))
  = database fresh_world /\
  trace (snd (track_oracle_result sample_env
                (post (Some "DIVINE") (Some "neko") (Some 87)) fresh_world))
  = trace fresh_world
      ++ [auth_getUser (token_of (post (Some "DIVINE") (Some "neko") (Some 87)));
          divine_words_select_word "neko"] /\
  writes (snd (track_oracle_result sample_env
                 (post (Some "DIVINE") (Some "neko") (Some 87)) fresh_world))
  = writes fresh_world.
Proof.
  apply (unknown_divine_word_rejected sample_env
           (post (Some "DIVINE") (Some "neko") (Some 87)) 7%N fresh_world
           (mkTrackResultRequest (Some "DIVINE") (Some "neko") (Some 87)) "neko").
  - repeat split; reflexivity.
  - reflexivity.
  - reflexivity.
  - split; [reflexivity | discriminate].
  - reflexivity.
Defined.

Lemma record_statistics_trace env u ty sc w :
  exists c,
    trace (snd (record_statistics env u ty sc w))
    = (trace w ++ [user_statistics_select u]) ++ [c] /\
    is_write c = true /\ is_ledger_write c = false.
Proof.
  destruct (select_user_statistics u (database w)) as [st|] eqn:E.
  - destruct (record_statistics_update env u ty sc w st E) as (p & -> & _).
    eexists. repeat split.
  - destruct (record_statistics_insert env u ty sc w E) as (p & -> & _).
    eexists. repeat split.
Qed.

(** C5, as stated, fails on a score beyond the range of the
    [highest_score integer] column: the VOID spin on an unknown word is
    answered 200, but the database refuses the statistics write and the
    user has no statistics row afterwards. *)
Lemma oversized_score_is_not_recorded :
  authenticated sample_env
    (post (Some "VOID") (Some "neko") (Some 2147483648)) 7 /\
  filter (word_is "neko") (divine_words (database fresh_world)) = [] /\
  status (fst (track_oracle_result sample_env
                 (post (Some "VOID") (Some "neko") (Some 2147483648))
                 fresh_world)) = 200 /\
  select_user_statistics 7
    (database (snd (track_oracle_result sample_env
                      (post (Some "VOID") (Some "neko") (Some 2147483648))
                      fresh_world))) = None /\
  total_spins_of 7
    (database (snd (track_oracle_result sample_env
                      (post (Some "VOID") (Some "neko") (Some 2147483648))
                      fresh_world)))
  <> total_spins_of 7 (database fresh_world) + 1.
Proof.
  repeat split; discriminate.
Qed.

(** C5, amended.  A VOID spin whose word matches no catalog row is
    answered 200 and the ledger is not written (no ledger call, table
    unchanged).  When the statistics write fits the integer columns, the
    user's statistics row exists afterwards, with one more spin and one
    more point than the user had; when it does not fit, the database
    refuses it and is left as it was. *)
Theorem void_unknown_word_recorded env req u w b wd :
  authenticated env req u ->
  json req = Some b ->
  type b = Some "VOID" ->
  present (word b) wd ->
  filter (word_is wd) (divine_words (database w)) = [] ->
  unique_statistics (database w) ->
  status (fst (track_oracle_result env req w)) = 200 /\
  user_collections (database (snd (track_oracle_result env req w)))
  = user_collections (database w) /\
  ledger_writes (snd (track_oracle_result env req w)) = ledger_writes w /\
  (spin_fits u "VOID" (score_value (score b)) (database w) = true ->
   (exists st, select_user_statistics u
                 (database (snd (track_oracle_result env req w))) = Some st) /\
   total_spins_of u (database (snd (track_oracle_result env req w)))
   = total_spins_of u (database w) + 1 /\
   total_points_of u (database (snd (track_oracle_result env req w)))
   = total_points_of u (database w) + 1) /\
  (spin_fits u "VOID" (score_value (score b)) (database w) = false ->
   database (snd (track_oracle_result env req w)) = database w).
Proof.
  intros Ha Hb Ht Hw Hn Hu.
  rewrite (track_oracle_result_authenticated env req u w Ha).
  assert (Ht' : present (type b) "VOID") by (split; [exact Ht | discriminate]).
  rewrite (track_unknown_word env u req
             (logged (auth_getUser (token_of req)) w) b "VOID" wd Hb Ht' Hw
             (select_divine_word_absent wd _ Hn)).
  simpl.
  set (w1 := logged (divine_words_select_word wd)
               (logged (auth_getUser (token_of req)) w)).
  set (sc := score_value (score b)).
  assert (Hu1 : unique_statistics (database w1)) by exact Hu.
  change (database w) with (database w1).
  split; [reflexivity|].
  split; [apply (record_statistics_frame env u "VOID" sc w1)|].
  split.
  { destruct (record_statistics_trace env u "VOID" sc w1) as (c & E & _ & Hc).
    unfold ledger_writes. rewrite E. simpl.
    rewrite !filter_app_one; auto. }
  split.
  - intros Hfit1. split.
    { unfold spin_fits in Hfit1.
      destruct (select_user_statistics u (database w1)) as [st|] eqn:E.
      - destruct (statistics_step_existing env u "VOID" sc w1 st E Hfit1)
          as (st' & H & _).
        exists st'. exact H.
      - destruct (statistics_step_first env u "VOID" sc w1
                    (select_user_statistics_unique u _ Hu1 E) Hfit1)
          as (st' & H & _).
        exists st'. exact H. }
    exact (statistics_step_totals env u "VOID" sc w1 Hu1 Hfit1).
  - intros Hfit1. exact (statistics_step_refused env u "VOID" sc w1 Hfit1).
Qed.

Lemma void_unknown_word_recorded_witness :
  (let w := snd (track_oracle_result sample_env
                   (post (Some "VOID") (Some "neko") (Some 12)) fresh_world) in
   status (fst (track_oracle_result sample_env
                  (post (Some "VOID") (Some "neko") (Some 12)) fresh_world)) = 200 /\
   user_collections (database w) = user_collections (database fresh_world) /\
   ledger_writes w = ledger_writes fresh_world /\
   (exists st, select_user_statistics 7 (database w) = Some st) /\
   total_spins_of 7 (database w) = total_spins_of 7 (database fresh_world) + 1 /\
   total_points_of 7 (database w) = total_points_of 7 (database fresh_world) + 1) /\
  (let w := snd (track_oracle_result sample_env
                   (post (Some "VOID") (Some "neko") (Some 3000000000))
                   busy_world) in
   status (fst (track_oracle_result sample_env
                  (post (Some "VOID") (Some "neko") (Some 3000000000))
                  busy_world)) = 200 /\
   ledger_writes w = ledger_writes busy_world /\
   database w = database busy_world).
Proof.
  split.
  - destruct (void_unknown_word_recorded sample_env
                (post (Some "VOID") (Some "neko") (Some 12)) 7%N fresh_world
                (mkTrackResultRequest (Some "VOID") (Some "neko") (Some 12))
                "neko")
      as (H1 & H2 & H3 & H4 & _).
    + repeat split; reflexivity.
    + reflexivity.
    + reflexivity.
    + split; [reflexivity | discriminate].
    + reflexivity.
    + apply NoDup_nil.
    + destruct (H4 eq_refl) as (H5 & H6 & H7).
      cbv zeta. exact (conj H1 (conj H2 (conj H3 (conj H5 (conj H6 H7))))).
  - destruct (void_unknown_word_recorded sample_env
                (post (Some "VOID") (Some "neko") (Some 3000000000)) 7%N
                busy_world
                (mkTrackResultRequest (Some "VOID") (Some "neko")
                   (Some 3000000000))
                "neko")
      as (H1 & _ & H3 & _ & H5).
    + repeat split; reflexivity.
    + reflexivity.
    + reflexivity.
    + split; [reflexivity | discriminate].
    + reflexivity.
    + unfold unique_statistics. simpl.
      repeat (constructor; simpl; try (intuition discriminate)).
    + cbv zeta. split; [exact H1 | split; [exact H3 | exact (H5 eq_refl)]].
Defined.

(** C8, as stated, fails on a preflight: an OPTIONS request carries no
    [Authorization] header and both handlers answer it 200. *)
Lemma preflight_without_authorization_is_200 :
  authorization preflight = None /\
  status (fst (track_oracle_result sample_env preflight fresh_world)) = 200 /\
  status (fst (track_oracle_result sample_env preflight fresh_world)) <> 401 /\
  status (fst (get_profile sample_env preflight fresh_world)) = 200 /\
  status (fst (get_profile sample_env preflight fresh_world)) <> 401.
Proof.
  repeat split; discriminate.
Qed.

(** C8, amended.  A request other than OPTIONS that has no
    [Authorization] header is answered 401 by both handlers, and the world
    is left exactly as it was: no call at all was issued, to the database
    or to the identity provider.  An OPTIONS request is answered 200 by
    both handlers, with or without the header, and also without any
    call. *)
Theorem missing_authorization_rejected env req w :
  ((method req =? "OPTIONS")%string = false ->
   authorization req = None ->
   track_oracle_result env req w
   = (json_error 401 "Missing authorization header", w) /\
   get_profile env req w
   = (json_error 401 "Missing authorization header", w)) /\
  ((method req =? "OPTIONS")%string = true ->
   track_oracle_result env req w = (mkResponse 200 corsHeaders no_body, w) /\
   get_profile env req w = (mkResponse 200 corsHeaders no_body, w)).
Proof.
  unfold track_oracle_result, get_profile. split.
  - intros Hm Hh. rewrite Hm.
    unfold bind, authenticate. rewrite Hh. simpl. split; reflexivity.
  - intros Hm. rewrite Hm. split; reflexivity.
Qed.

Lemma missing_authorization_rejected_witness :
  (track_oracle_result sample_env anonymous_get fresh_world
   = (json_error 401 "Missing authorization header", fresh_world) /\
   get_profile sample_env anonymous_get fresh_world
   = (json_error 401 "Missing authorization header", fresh_world)) /\
  (track_oracle_result sample_env
     (mkRequest "OPTIONS" (Some "Bearer alice-jwt") None) busy_world
   = (mkResponse 200 corsHeaders no_body, busy_world) /\
   get_profile sample_env
     (mkRequest "OPTIONS" (Some "Bearer alice-jwt") None) busy_world
   = (mkResponse 200 corsHeaders no_body, busy_world)).
Proof.
  split.
  - apply (missing_authorization_rejected sample_env anonymous_get fresh_world);
      reflexivity.
  - apply (missing_authorization_rejected sample_env
             (mkRequest "OPTIONS" (Some "Bearer alice-jwt") None) busy_world).
    reflexivity.
Defined.

Lemma track_validated_trace env u req w b ty wd :
  json req = Some b ->
  present (type b) ty ->
  present (word b) wd ->
  status (fst (track env u req w)) <> 400 /\
  exists rest,
    trace (snd (track env u req w))
    = trace w ++ divine_words_select_word wd :: rest.
Proof.
  intros Hb Ht Hw.
  destruct (select_divine_word wd (database w)) as [d|] eqn:Hd.
  - rewrite (track_known_word env u req w b ty wd d Hb Ht Hw Hd). simpl.
    split; [discriminate|].
    destruct (record_statistics_trace env u ty (score_value (score b))
                (snd (record_collection env u d
                        (logged (divine_words_select_word wd) w))))
      as (c & -> & _).
    destruct (select_user_collection u d (database w)) as [e|] eqn:He.
    + destruct (record_collection_update env u d
                  (logged (divine_words_select_word wd) w) e He)
        as (p & -> & _).
      simpl. eexists. rewrite <- !app_assoc. simpl. reflexivity.
    + rewrite (record_collection_insert env u d
                 (logged (divine_words_select_word wd) w) He).
      simpl. eexists. rewrite <- !app_assoc. simpl. reflexivity.
  - rewrite (track_unknown_word env u req w b ty wd Hb Ht Hw Hd).
    destruct (negb (ty =? "VOID")%string); simpl.
    + split; [discriminate|]. exists []. reflexivity.
    + split; [discriminate|].
      destruct (record_statistics_trace env u ty (score_value (score b))
                  (logged (divine_words_select_word wd) w))
        as (c & -> & _).
      simpl. eexists. rewrite <- !app_assoc. simpl. reflexivity.
Qed.

(** The last call of the statistics step, by the row the user has. *)
Lemma record_statistics_last_call env u ty sc w :
  exists calls c,
    trace (snd (record_statistics env u ty sc w)) = trace w ++ calls ++ [c] /\
    match select_user_statistics u (database w) with
    | Some st =>
        exists p, c = user_statistics_update (UserStatistics.id st) p /\
                  su_highest_score p
                  = Math_max (column_value (UserStatistics.highest_score st)) sc
    | None =>
        exists p, c = user_statistics_insert p /\ si_highest_score p = sc
    end.
Proof.
  destruct (select_user_statistics u (database w)) as [st|] eqn:E.
  - destruct (record_statistics_update env u ty sc w st E)
      as (p & -> & _ & _ & _ & _ & H & _).
    exists [user_statistics_select u]. eexists. simpl. split.
    + rewrite <- app_assoc. reflexivity.
    + exists p. split; [reflexivity | exact H].
  - destruct (record_statistics_insert env u ty sc w E)
      as (p & -> & _ & _ & _ & _ & _ & H & _).
    exists [user_statistics_select u]. eexists. simpl. split.
    + rewrite <- app_assoc. reflexivity.
    + exists p. split; [reflexivity | exact H].
Qed.

Lemma Math_max_undefined v : Math_max v js_undefined = js_NaN.
Proof.
  unfold Math_max. simpl. destruct (ToNumber v); reflexivity.
Qed.

(** C9.  A body with non-empty [type] and [word] and no [score] passes
    validation: the answer is not 400 and the catalog lookup is the first
    database call.  When the answer is 200, the last call is the
    statistics write, its [highest_score] is computed from the absent
    score, and the row is written with it.  On the update path the value
    is [Math.max(stats.highest_score, undefined)], which is [NaN]: when
    the new counters fit their columns, the user's row has one more
    spin, the points of the type more, and NULL as [highest_score].  On
    the insert path the value is [undefined] itself, the property is not
    sent, and the user's new row has 1 spin, the points of the type, and
    the column's default 0 as [highest_score]. *)
Theorem absent_score_accepted env req u w b ty wd :
  authenticated env req u ->
  json req = Some b ->
  present (type b) ty ->
  present (word b) wd ->
  score b = None ->
  status (fst (track_oracle_result env req w)) <> 400 /\
  (exists rest,
      trace (snd (track_oracle_result env req w))
      = trace w ++ auth_getUser (token_of req)
                :: divine_words_select_word wd :: rest) /\
  (status (fst (track_oracle_result env req w)) = 200 ->
   exists calls c,
     trace (snd (track_oracle_result env req w)) = trace w ++ calls ++ [c] /\
     match select_user_statistics u (database w) with
     | Some st =>
         (exists p, c = user_statistics_update (UserStatistics.id st) p /\
                    su_highest_score p
                    = Math_max (column_value (UserStatistics.highest_score st))
                        js_undefined /\
                    su_highest_score p = js_NaN) /\
         (update_fits st ty js_undefined = true ->
          exists st',
            select_user_statistics u
              (database (snd (track_oracle_result env req w))) = Some st' /\
            UserStatistics.total_spins st' = UserStatistics.total_spins st + 1 /\
            UserStatistics.total_points st'
            = UserStatistics.total_points st + points ty /\
            UserStatistics.highest_score st' = None)
     | None =>
         (exists p, c = user_statistics_insert p /\
                    si_highest_score p = js_undefined) /\
         (unique_statistics (database w) ->
          exists st',
            select_user_statistics u
              (database (snd (track_oracle_result env req w))) = Some st' /\
            UserStatistics.total_spins st' = 1 /\
            UserStatistics.total_points st' = points ty /\
            UserStatistics.highest_score st' = Some 0)
     end).
Proof.
  intros Ha Hb Ht Hw Hs. split; [|split].
  - rewrite (track_oracle_result_authenticated env req u w Ha).
    apply (track_validated_trace env u req _ b ty wd Hb Ht Hw).
  - rewrite (track_oracle_result_authenticated env req u w Ha).
    destruct (track_validated_trace env u req
                (logged (auth_getUser (token_of req)) w) b ty wd Hb Ht Hw)
      as (_ & rest & ->).
    exists rest. simpl. rewrite <- app_assoc. reflexivity.
  - intros H200.
    destruct (recorded_spin env req u w b Ha Hb H200)
      as (ty' & wd' & w1 & (Ht' & _) & _ & Hst & (pre & Hpre) & ->).
    assert (ty' = ty) by (destruct Ht; congruence). subst ty'.
    rewrite Hs. simpl.
    destruct (record_statistics_last_call env u ty js_undefined w1)
      as (calls & c & -> & Hc).
    exists (pre ++ calls), c. split.
    + rewrite Hpre, <- !app_assoc. reflexivity.
    + rewrite (select_user_statistics_ext u _ _ Hst) in Hc.
      destruct (select_user_statistics u (database w)) as [st|] eqn:E.
      * rewrite <- (select_user_statistics_ext u _ _ Hst) in E.
        split.
        { destruct Hc as (p & -> & Hp). exists p.
          split; [reflexivity|]. split; [exact Hp|].
          rewrite Hp. apply Math_max_undefined. }
        intros Hfit.
        destruct (statistics_step_existing env u ty js_undefined w1 st E Hfit)
          as (st' & Hsel & H1 & H2 & _ & _ & H5).
        exists st'. repeat split; try assumption.
        rewrite H5, Math_max_undefined.
        destruct (UserStatistics.highest_score st); reflexivity.
      * rewrite <- (select_user_statistics_ext u _ _ Hst) in E.
        split; [exact Hc|].
        intros Hu.
        assert (Hu1 : unique_statistics (database w1)).
        { unfold unique_statistics. rewrite Hst. exact Hu. }
        destruct (statistics_step_first env u ty js_undefined w1
                    (select_user_statistics_unique u _ Hu1 E) eq_refl)
          as (st' & Hsel & H1 & H2 & _ & _ & H5).
        exists st'. repeat split; assumption.
Qed.

Lemma absent_score_accepted_witness :
  status (fst (track_oracle_result sample_env
                 (post (Some "REALITY") (Some "ringo") None) fresh_world)) <> 400 /\
  (exists rest,
      trace (snd (track_oracle_result sample_env
                    (post (Some "REALITY") (Some "ringo") None) fresh_world))
      = trace fresh_world
          ++ auth_getUser (token_of (post (Some "REALITY") (Some "ringo") None))
          :: divine_words_select_word "ringo" :: rest) /\
  (status (fst (track_oracle_result sample_env
                  (post (Some "REALITY") (Some "ringo") None) fresh_world)) = 200 ->
   exists calls c,
     trace (snd (track_oracle_result sample_env
                   (post (Some "REALITY") (Some "ringo") None) fresh_world))
     = trace fresh_world ++ calls ++ [c] /\
     (exists p, c = user_statistics_insert p /\ si_highest_score p = js_undefined) /\
     (unique_statistics (database fresh_world) ->
      exists st',
        select_user_statistics 7
          (database (snd (track_oracle_result sample_env
                            (post (Some "REALITY") (Some "ringo") None)
                            fresh_world))) = Some st' /\
        UserStatistics.total_spins st' = 1 /\
        UserStatistics.total_points st' = points "REALITY" /\
        UserStatistics.highest_score st' = Some 0)).
Proof.
  apply (absent_score_accepted sample_env
           (post (Some "REALITY") (Some "ringo") None) 7%N fresh_world
           (mkTrackResultRequest (Some "REALITY") (Some "ringo") None)
           "REALITY" "ringo").
  - repeat split; reflexivity.
  - reflexivity.
  - split; [reflexivity | discriminate].
  - split; [reflexivity | discriminate].
  - reflexivity.
Defined.

(** ** Types outside the three listed ones *)

Lemma scoring_unlisted ty :
  ty <> "DIVINE" -> ty <> "REALITY" ->
  points ty = 1 /\ divineIncrement ty = 0 /\ realityIncrement ty = 0.
Proof.
  intros Hd Hr. unfold points, divineIncrement, realityIncrement.
  apply String.eqb_neq in Hd. apply String.eqb_neq in Hr.
  rewrite Hd, Hr. repeat split.
Qed.

(** The statistics step reads the type through the three scoring
    functions only. *)
Lemma record_statistics_scoring env u t1 t2 sc w :
  points t1 = points t2 ->
  divineIncrement t1 = divineIncrement t2 ->
  realityIncrement t1 = realityIncrement t2 ->
  record_statistics env u t1 sc w = record_statistics env u t2 sc w.
Proof.
  intros Hp Hd Hr. unfold record_statistics. rewrite Hp, Hd, Hr. reflexivity.
Qed.

(** The ledger step sees the world through the database and the clock. *)
Lemma record_collection_database env u d w1 w2 :
  database w1 = database w2 ->
  clock w1 = clock w2 ->
  database (snd (record_collection env u d w1))
  = database (snd (record_collection env u d w2)).
Proof.
  intros Hdb Hc.
  unfold record_collection, bind, query, now, write. simpl.
  rewrite Hdb, Hc.
  destruct (select_user_collection u d (database w2)); reflexivity.
Qed.

(** C10.  A non-empty type outside DIVINE, REALITY and VOID is not
    rejected.  With a word that the catalog lookup finds, the answer is
    200, the ledger ends as the ledger step leaves it, and the whole
    outcome (response, database, calls) is the one the same request has
    with type VOID: 1 point, no DIVINE or REALITY increment.  With a word
    that the lookup does not find, the answer is 404. *)
Theorem unlisted_type_scored_as_void env m h ty wd sc u w :
  authenticated env
    (mkRequest m h (Some (mkTrackResultRequest (Some ty) (Some wd) sc))) u ->
  ty <> "" -> ty <> "DIVINE" -> ty <> "REALITY" -> ty <> "VOID" ->
  wd <> "" ->
  (points ty = 1 /\ divineIncrement ty = 0 /\ realityIncrement ty = 0) /\
  (forall d,
      select_divine_word wd (database w) = Some d ->
      status (fst (track_oracle_result env
                     (mkRequest m h (Some (mkTrackResultRequest (Some ty) (Some wd) sc)))
                     w)) = 200 /\
      user_collections
        (database (snd (track_oracle_result env
                     (mkRequest m h (Some (mkTrackResultRequest (Some ty) (Some wd) sc)))
                     w)))
      = user_collections (database (snd (record_collection env u d w))) /\
      track_oracle_result env
        (mkRequest m h (Some (mkTrackResultRequest (Some ty) (Some wd) sc))) w
      = track_oracle_result env
          (mkRequest m h (Some (mkTrackResultRequest (Some "VOID") (Some wd) sc))) w) /\
  (select_divine_word wd (database w) = None ->
   status (fst (track_oracle_result env
                  (mkRequest m h (Some (mkTrackResultRequest (Some ty) (Some wd) sc)))
                  w)) = 404).
Proof.
  intros Ha Hty Hd Hr Hv Hwd.
  pose proof (scoring_unlisted ty Hd Hr) as Hsc.
  split; [exact Hsc|].
  set (req := mkRequest m h (Some (mkTrackResultRequest (Some ty) (Some wd) sc))).
  set (reqv := mkRequest m h (Some (mkTrackResultRequest (Some "VOID") (Some wd) sc))).
  assert (Hav : authenticated env reqv u) by exact Ha.
  assert (Hb : json req = Some (mkTrackResultRequest (Some ty) (Some wd) sc))
    by reflexivity.
  assert (Hbv : json reqv = Some (mkTrackResultRequest (Some "VOID") (Some wd) sc))
    by reflexivity.
  rewrite (track_oracle_result_authenticated env req u w Ha).
  rewrite (track_oracle_result_authenticated env reqv u w Hav).
  change (token_of reqv) with (token_of req).
  set (w0 := logged (auth_getUser (token_of req)) w).
  split.
  - intros d Hsel.
    rewrite (track_known_word env u req w0 _ ty wd d Hb
               (conj eq_refl Hty) (conj eq_refl Hwd) Hsel).
    assert (Hpv : present (Some "VOID") "VOID")
      by (split; [reflexivity | discriminate]).
    rewrite (track_known_word env u reqv w0 _ "VOID" wd d Hbv
               Hpv (conj eq_refl Hwd) Hsel).
    simpl. split; [reflexivity|]. split.
    + rewrite (proj1 (record_statistics_frame env u ty (score_value sc) _)).
      f_equal. apply record_collection_database; reflexivity.
    + destruct Hsc as (Hp & Hdi & Hri).
      rewrite (record_statistics_scoring env u ty "VOID"); auto.
  - intros Hsel.
    rewrite (track_unknown_word env u req w0 _ ty wd Hb
               (conj eq_refl Hty) (conj eq_refl Hwd) Hsel).
    apply String.eqb_neq in Hv. rewrite Hv. reflexivity.
Qed.

Lemma unlisted_type_scored_as_void_witness :
  track_oracle_result sample_env (post (Some "LEGEND") (Some "ringo") (Some 5))
    fresh_world
  = track_oracle_result sample_env (post (Some "VOID") (Some "ringo") (Some 5))
      fresh_world.
Proof.
  apply (unlisted_type_scored_as_void sample_env "POST" (Some "Bearer alice-jwt")
           "LEGEND" "ringo" (Some 5) 7%N fresh_world) with (d := 2%N);
    try discriminate; try reflexivity.
  repeat split; reflexivity.
Defined.

(** ** The ledger *)

Lemma select_divine_word_ext wd db1 db2 :
  divine_words db1 = divine_words db2 ->
  select_divine_word wd db1 = select_divine_word wd db2.
Proof.
  unfold select_divine_word. intros ->. reflexivity.
Qed.

Lemma select_user_collection_ext u d db1 db2 :
  user_collections db1 = user_collections db2 ->
  select_user_collection u d db1 = select_user_collection u d db2.
Proof.
  unfold select_user_collection. intros ->. reflexivity.
Qed.

(** A spin on a known word: the tables after it, in terms of the ledger
    step run on the world the request found. *)
Lemma track_known_word_tables env req u w b ty wd d :
  authenticated env req u ->
  json req = Some b ->
  present (type b) ty ->
  present (word b) wd ->
  select_divine_word wd (database w) = Some d ->
  user_collections (database (snd (track_oracle_result env req w)))
  = user_collections (database (snd (record_collection env u d w))) /\
  divine_words (database (snd (track_oracle_result env req w)))
  = divine_words (database w).
Proof.
  intros Ha Hb Ht Hw Hd.
  rewrite (track_oracle_result_authenticated env req u w Ha).
  rewrite (track_known_word env u req
             (logged (auth_getUser (token_of req)) w) b ty wd d Hb Ht Hw Hd).
  simpl.
  destruct (record_statistics_frame env u ty (score_value (score b))
              (snd (record_collection env u d
                      (logged (divine_words_select_word wd)
                         (logged (auth_getUser (token_of req)) w)))))
    as (-> & ->).
  split.
  - f_equal. apply record_collection_database; reflexivity.
  - apply (record_collection_frame env u d
             (logged (divine_words_select_word wd)
                (logged (auth_getUser (token_of req)) w))).
Qed.

(** First find: the entry is created with [found_count = 1]. *)
Lemma ledger_step_first env u d w :
  filter (collection_of u d) (user_collections (database w)) = [] ->
  select_user_collection u d (database (snd (record_collection env u d w)))
  = Some (UserCollection.mk (next_uuid (database w)) u d 1
            (Date_now env (clock w)) (Date_now env (S (clock w)))).
Proof.
  intros H.
  assert (Hs : select_user_collection u d (database w) = None).
  { unfold select_user_collection. rewrite H. reflexivity. }
  rewrite (record_collection_insert env u d w Hs). simpl.
  apply (select_after_collection_insert (database w)
           (mkCollectionInsert u d 1 (Date_now env (clock w))
              (Date_now env (S (clock w))))).
  - reflexivity.
  - exact H.
Qed.

(** Repeat find: the rows with the entry's [id] get the new
    [found_count] and [updated_at], and nothing else changes, when the
    new count is one the column takes. *)
Lemma ledger_step_repeat env u d w e :
  select_user_collection u d (database w) = Some e ->
  found_count_refused (UserCollection.found_count e + 1) = false ->
  let p := mkCollectionUpdate (UserCollection.found_count e + 1)
             (Date_now env (clock w)) in
  select_user_collection u d (database (snd (record_collection env u d w)))
  = Some (apply_collection_update p e) /\
  user_collections (database (snd (record_collection env u d w)))
  = map (fun r => if (UserCollection.id r =? UserCollection.id e)%N
                  then apply_collection_update p r else r)
        (user_collections (database w)).
Proof.
  intros H Hc p.
  destruct (record_collection_update env u d w e H) as (q & -> & Hq1 & Hq2).
  assert (Eq : q = p) by (destruct q; simpl in *; subst; reflexivity).
  subst q. simpl. split.
  - apply select_after_collection_update; [exact Hc | exact H].
  - unfold update_user_collection. simpl cu_found_count. rewrite Hc.
    reflexivity.
Qed.

(** C6.  Two spins by one user on the same known word, the first of
    which finds no ledger entry: after the first the entry has
    [found_count = 1]; after the second it has [found_count = 2] and the
    [first_found_at] of the first recording.  The second spin changes
    [found_count] and [updated_at] of that entry and nothing else in the
    ledger. *)
Theorem second_spin_increments env req1 req2 u w b1 b2 ty1 ty2 wd d :
  authenticated env req1 u ->
  authenticated env req2 u ->
  json req1 = Some b1 ->
  json req2 = Some b2 ->
  present (type b1) ty1 ->
  present (type b2) ty2 ->
  present (word b1) wd ->
  present (word b2) wd ->
  select_divine_word wd (database w) = Some d ->
  filter (collection_of u d) (user_collections (database w)) = [] ->
  exists e1 e2,
    select_user_collection u d
      (database (snd (track_oracle_result env req1 w))) = Some e1 /\
    UserCollection.found_count e1 = 1 /\
    select_user_collection u d
      (database (snd (track_oracle_result env req2
                        (snd (track_oracle_result env req1 w))))) = Some e2 /\
    UserCollection.found_count e2 = 2 /\
    UserCollection.first_found_at e2 = UserCollection.first_found_at e1 /\
    e2 = UserCollection.mk (UserCollection.id e1) (UserCollection.user_id e1)
           (UserCollection.divine_word_id e1) 2
           (UserCollection.first_found_at e1) (UserCollection.updated_at e2) /\
    user_collections
      (database (snd (track_oracle_result env req2
                        (snd (track_oracle_result env req1 w)))))
    = map (fun r => if (UserCollection.id r =? UserCollection.id e1)%N
                    then UserCollection.mk (UserCollection.id r)
                           (UserCollection.user_id r)
                           (UserCollection.divine_word_id r) 2
                           (UserCollection.first_found_at r)
                           (UserCollection.updated_at e2)
                    else r)
          (user_collections (database (snd (track_oracle_result env req1 w)))).
Proof.
  intros Ha1 Ha2 Hb1 Hb2 Ht1 Ht2 Hw1 Hw2 Hd Hnone.
  destruct (track_known_word_tables env req1 u w b1 ty1 wd d Ha1 Hb1 Ht1 Hw1 Hd)
    as (Hl1 & Hc1).
  set (w1 := snd (track_oracle_result env req1 w)) in *.
  set (e1 := UserCollection.mk (next_uuid (database w)) u d 1
               (Date_now env (clock w)) (Date_now env (S (clock w)))).
  assert (He1 : select_user_collection u d (database w1) = Some e1).
  { rewrite (select_user_collection_ext u d _ _ Hl1).
    apply ledger_step_first. exact Hnone. }
  assert (Hd1 : select_divine_word wd (database w1) = Some d).
  { rewrite (select_divine_word_ext wd _ _ Hc1). exact Hd. }
  destruct (track_known_word_tables env req2 u w1 b2 ty2 wd d Ha2 Hb2 Ht2 Hw2 Hd1)
    as (Hl2 & _).
  destruct (ledger_step_repeat env u d w1 e1 He1) as (Hs2 & Hm2).
  { reflexivity. }
  exists e1. eexists.
  split; [exact He1|]. split; [reflexivity|].
  split; [rewrite (select_user_collection_ext u d _ _ Hl2); exact Hs2|].
  split; [reflexivity|]. split; [reflexivity|]. split; [reflexivity|].
  rewrite Hl2, Hm2. reflexivity.
Qed.

Lemma second_spin_increments_witness :
  exists e1 e2,
    select_user_collection 7 1
      (database (snd (track_oracle_result sample_env
                        (post (Some "DIVINE") (Some "wanko") (Some 87))
                        fresh_world))) = Some e1 /\
    UserCollection.found_count e1 = 1 /\
    select_user_collection 7 1
      (database (snd (track_oracle_result sample_env
                        (post (Some "VOID") (Some "wanko") (Some 3))
                        (snd (track_oracle_result sample_env
                                (post (Some "DIVINE") (Some "wanko") (Some 87))
                                fresh_world))))) = Some e2 /\
    UserCollection.found_count e2 = 2 /\
    UserCollection.first_found_at e2 = UserCollection.first_found_at e1.
Proof.
  destruct (second_spin_increments sample_env
              (post (Some "DIVINE") (Some "wanko") (Some 87))
              (post (Some "VOID") (Some "wanko") (Some 3))
              7%N fresh_world
              (mkTrackResultRequest (Some "DIVINE") (Some "wanko") (Some 87))
              (mkTrackResultRequest (Some "VOID") (Some "wanko") (Some 3))
              "DIVINE" "VOID" "wanko" 1%N)
    as (e1 & e2 & H1 & H2 & H3 & H4 & H5 & _);
    try reflexivity;
    try (split; [reflexivity | discriminate]);
    try (repeat split; reflexivity).
  exists e1, e2. repeat split; assumption.
Defined.

(** ** Runs of spins *)

Lemma spin_request_authenticated env authHeader s s' u :
  authenticated env (spin_request authHeader s) u ->
  authenticated env (spin_request authHeader s') u.
Proof.
  intros H. exact H.
Qed.

Lemma serve_all_cons env r rest w :
  serve_all env (r :: rest) w
  = (fst (track_oracle_result env r w)
       :: fst (serve_all env rest (snd (track_oracle_result env r w))),
     snd (serve_all env rest (snd (track_oracle_result env r w)))).
Proof.
  simpl. destruct (track_oracle_result env r w) as [response w1]. simpl.
  destruct (serve_all env rest w1) as [responses w2]. reflexivity.
Qed.

Lemma int4_spec z : int4 z = true <-> -2147483648 <= z <= 2147483647.
Proof.
  unfold int4. rewrite andb_true_iff, !Z.leb_le. reflexivity.
Qed.

Lemma points_bounds ty : 1 <= points ty <= 20.
Proof.
  unfold points.
  destruct (ty =? "DIVINE")%string; [lia|].
  destruct (ty =? "REALITY")%string; lia.
Qed.

Lemma increments_bounds ty :
  0 <= divineIncrement ty <= 1 /\ 0 <= realityIncrement ty <= 1.
Proof.
  unfold divineIncrement, realityIncrement.
  destruct (ty =? "DIVINE")%string; destruct (ty =? "REALITY")%string; lia.
Qed.

Lemma sum_points_nonneg spins : 0 <= sum_points spins.
Proof.
  induction spins as [|s spins IH]; simpl; [lia|].
  pose proof (points_bounds (spin_type s)). lia.
Qed.

Lemma count_type_cons t s spins :
  count_type t (s :: spins)
  = (if (spin_type s =? t)%string then 1 else 0) + count_type t spins.
Proof.
  unfold count_type. simpl.
  destruct (spin_type s =? t)%string; simpl List.length; lia.
Qed.

(** A row with room: counters that are not negative, none above
    [total_points], and [total_points] far enough below the top of the
    column for the points still to come. *)
Lemma update_fits_room st ty h z room :
  UserStatistics.highest_score st = Some h ->
  int4 h = true -> int4 z = true ->
  0 <= UserStatistics.total_spins st <= UserStatistics.total_points st ->
  0 <= UserStatistics.divine_count st <= UserStatistics.total_points st ->
  0 <= UserStatistics.reality_count st <= UserStatistics.total_points st ->
  0 <= room ->
  UserStatistics.total_points st + (points ty + room) <= 2147483647 ->
  update_fits st ty (js_int z) = true.
Proof.
  intros Hh Ih Iz Hs Hd Hr Hroom Hmax.
  apply int4_spec in Ih, Iz.
  pose proof (points_bounds ty). destruct (increments_bounds ty).
  unfold update_fits. rewrite Hh. simpl.
  rewrite !andb_true_iff. repeat split; apply int4_spec; lia.
Qed.

(** One recorded spin of a user who has a row. *)
Lemma recorded_spin_existing env authHeader s u w st h :
  authenticated env (spin_request authHeader s) u ->
  select_user_statistics u (database w) = Some st ->
  UserStatistics.highest_score st = Some h ->
  update_fits st (spin_type s) (js_int (spin_score s)) = true ->
  status (fst (track_oracle_result env (spin_request authHeader s) w)) = 200 ->
  exists st',
    select_user_statistics u
      (database (snd (track_oracle_result env (spin_request authHeader s) w)))
    = Some st' /\
    UserStatistics.total_spins st' = UserStatistics.total_spins st + 1 /\
    UserStatistics.total_points st'
    = UserStatistics.total_points st + points (spin_type s) /\
    UserStatistics.divine_count st'
    = UserStatistics.divine_count st + divineIncrement (spin_type s) /\
    UserStatistics.reality_count st'
    = UserStatistics.reality_count st + realityIncrement (spin_type s) /\
    UserStatistics.highest_score st' = Some (Z.max h (spin_score s)).
Proof.
  intros Ha Hst Hh Hfit H200.
  destruct (recorded_spin env (spin_request authHeader s) u w _ Ha eq_refl H200)
    as (ty & wd & w1 & (Ht & _) & _ & Hstats & _ & ->).
  simpl in Ht. injection Ht as <-.
  rewrite <- (select_user_statistics_ext u _ _ Hstats) in Hst.
  destruct (statistics_step_existing env u (spin_type s)
              (score_value (Some (spin_score s))) w1 st Hst Hfit)
    as (st' & Hsel & H1 & H2 & H3 & H4 & H5).
  exists st'. repeat split; try assumption.
  rewrite H5, Hh. reflexivity.
Qed.

(** One recorded spin of a user who has no row. *)
Lemma recorded_spin_first env authHeader s u w :
  authenticated env (spin_request authHeader s) u ->
  filter (statistics_of u) (user_statistics (database w)) = [] ->
  int4 (spin_score s) = true ->
  status (fst (track_oracle_result env (spin_request authHeader s) w)) = 200 ->
  exists st',
    select_user_statistics u
      (database (snd (track_oracle_result env (spin_request authHeader s) w)))
    = Some st' /\
    UserStatistics.total_spins st' = 1 /\
    UserStatistics.total_points st' = points (spin_type s) /\
    UserStatistics.divine_count st' = divineIncrement (spin_type s) /\
    UserStatistics.reality_count st' = realityIncrement (spin_type s) /\
    UserStatistics.highest_score st' = Some (spin_score s).
Proof.
  intros Ha Hnone Hfit H200.
  destruct (recorded_spin env (spin_request authHeader s) u w _ Ha eq_refl H200)
    as (ty & wd & w1 & (Ht & _) & _ & Hstats & _ & ->).
  simpl in Ht. injection Ht as <-.
  rewrite <- Hstats in Hnone.
  destruct (statistics_step_first env u (spin_type s)
              (score_value (Some (spin_score s))) w1 Hnone Hfit)
    as (st' & Hsel & H1 & H2 & H3 & H4 & H5).
  exists st'. repeat split; assumption.
Qed.

(** A run that goes on from a row with room for it. *)
Lemma spins_continue env authHeader u spins :
  forall w st h,
    (forall s, authenticated env (spin_request authHeader s) u) ->
    select_user_statistics u (database w) = Some st ->
    UserStatistics.highest_score st = Some h ->
    int4 h = true ->
    0 <= UserStatistics.total_spins st <= UserStatistics.total_points st ->
    0 <= UserStatistics.divine_count st <= UserStatistics.total_points st ->
    0 <= UserStatistics.reality_count st <= UserStatistics.total_points st ->
    UserStatistics.total_points st + sum_points spins <= 2147483647 ->
    Forall (fun s => int4 (spin_score s) = true) spins ->
    Forall (fun r => status r = 200)
           (fst (serve_all env (map (spin_request authHeader) spins) w)) ->
    exists st',
      select_user_statistics u
        (database (snd (serve_all env (map (spin_request authHeader) spins) w)))
      = Some st' /\
      UserStatistics.total_spins st'
      = UserStatistics.total_spins st + Z.of_nat (List.length spins) /\
      UserStatistics.total_points st'
      = UserStatistics.total_points st + sum_points spins /\
      UserStatistics.divine_count st'
      = UserStatistics.divine_count st + count_type "DIVINE" spins /\
      UserStatistics.reality_count st'
      = UserStatistics.reality_count st + count_type "REALITY" spins /\
      UserStatistics.highest_score st' = Some (max_score h spins).
Proof.
  induction spins as [|s spins IH];
    intros w st h Ha Hst Hh Ih Hs Hd Hr Hmax Hscores Hall.
  - exists st. unfold count_type. simpl. rewrite !Z.add_0_r.
    repeat split; assumption.
  - change (map (spin_request authHeader) (s :: spins))
      with (spin_request authHeader s :: map (spin_request authHeader) spins)
      in *.
    rewrite serve_all_cons in *. simpl fst in Hall. simpl snd.
    inversion Hall as [|? ? H200 Hrest]; subst.
    inversion Hscores as [|? ? Iz Hscores']; subst.
    change (sum_points (s :: spins))
      with (points (spin_type s) + sum_points spins) in *.
    pose proof (sum_points_nonneg spins) as Hnn.
    pose proof (points_bounds (spin_type s)) as Hp.
    destruct (increments_bounds (spin_type s)) as (Hdi & Hri).
    assert (Hfit : update_fits st (spin_type s) (js_int (spin_score s)) = true)
      by (apply (update_fits_room st _ h _ (sum_points spins)); assumption || lia).
    destruct (recorded_spin_existing env authHeader s u w st h (Ha s) Hst Hh
                Hfit H200)
      as (st1 & Hsel1 & Hn1 & Hp1 & Hd1 & Hr1 & Hh1).
    assert (Ih1 : int4 (Z.max h (spin_score s)) = true).
    { apply int4_spec. apply int4_spec in Ih, Iz. lia. }
    destruct (IH _ st1 (Z.max h (spin_score s)) Ha Hsel1 Hh1 Ih1
                ltac:(lia) ltac:(lia) ltac:(lia) ltac:(lia) Hscores' Hrest)
      as (st' & Hsel & Hn & Hpt & Hdc & Hrc & Hm).
    exists st'. split; [exact Hsel|].
    rewrite Hn, Hpt, Hdc, Hrc, Hm, Hn1, Hp1, Hd1, Hr1, !count_type_cons.
    change (List.length (s :: spins)) with (S (List.length spins)).
    unfold divineIncrement, realityIncrement.
    repeat split; lia.
Qed.

(** A run from a user without a row. *)
Lemma spins_from_no_row env authHeader u w s spins :
  authenticated env (spin_request authHeader s) u ->
  filter (statistics_of u) (user_statistics (database w)) = [] ->
  Forall (fun s' => int4 (spin_score s') = true) (s :: spins) ->
  sum_points (s :: spins) <= 2147483647 ->
  Forall (fun r => status r = 200)
         (fst (serve_all env (map (spin_request authHeader) (s :: spins)) w)) ->
  exists st,
    select_user_statistics u
      (database (snd (serve_all env (map (spin_request authHeader) (s :: spins)) w)))
    = Some st /\
    UserStatistics.total_spins st = Z.of_nat (List.length (s :: spins)) /\
    UserStatistics.total_points st = sum_points (s :: spins) /\
    UserStatistics.divine_count st = count_type "DIVINE" (s :: spins) /\
    UserStatistics.reality_count st = count_type "REALITY" (s :: spins) /\
    UserStatistics.highest_score st = Some (max_score (spin_score s) spins).
Proof.
  intros Ha0 Hnone Hscores Hmax Hall.
  assert (Ha : forall s', authenticated env (spin_request authHeader s') u)
    by (intros s'; apply (spin_request_authenticated env authHeader s s' u Ha0)).
  change (map (spin_request authHeader) (s :: spins))
    with (spin_request authHeader s :: map (spin_request authHeader) spins)
    in *.
  rewrite serve_all_cons in *. simpl fst in Hall. simpl snd.
  inversion Hall as [|? ? H200 Hrest]; subst.
  inversion Hscores as [|? ? Iz Hscores']; subst.
  change (sum_points (s :: spins))
    with (points (spin_type s) + sum_points spins) in *.
  pose proof (sum_points_nonneg spins) as Hnn.
  pose proof (points_bounds (spin_type s)) as Hp.
  destruct (increments_bounds (spin_type s)) as (Hdi & Hri).
  destruct (recorded_spin_first env authHeader s u w (Ha s) Hnone Iz H200)
    as (st1 & Hsel1 & Hn1 & Hp1 & Hd1 & Hr1 & Hh1).
  destruct (spins_continue env authHeader u spins _ st1 (spin_score s)
              Ha Hsel1 Hh1 Iz ltac:(lia) ltac:(lia) ltac:(lia) ltac:(lia)
              Hscores' Hrest)
    as (st & Hsel & Hn & Hpt & Hdc & Hrc & Hm).
  exists st. split; [exact Hsel|].
  rewrite Hn, Hpt, Hdc, Hrc, Hm, Hn1, Hp1, Hd1, Hr1, !count_type_cons.
  change (List.length (s :: spins)) with (S (List.length spins)).
  unfold divineIncrement, realityIncrement.
  repeat split; lia.
Qed.

(** C2.  A user without a statistics row sends N >= 1 spins, one after
    the other, and each is recorded: it is answered 200, its score is
    within the range of the integer column, and the points of the run
    add up to no more than the column takes.  The user's row then has
    [total_points] equal to the sum of the spins' point values,
    [total_spins] equal to N, and [highest_score] equal to the greatest
    of the scores. *)
Theorem statistics_after_spins env authHeader u w s spins :
  authenticated env (spin_request authHeader s) u ->
  filter (statistics_of u) (user_statistics (database w)) = [] ->
  Forall (fun s' => int4 (spin_score s') = true) (s :: spins) ->
  sum_points (s :: spins) <= 2147483647 ->
  Forall (fun r => status r = 200)
         (fst (serve_all env (map (spin_request authHeader) (s :: spins)) w)) ->
  exists st,
    select_user_statistics u
      (database (snd (serve_all env (map (spin_request authHeader) (s :: spins)) w)))
    = Some st /\
    UserStatistics.total_points st = sum_points (s :: spins) /\
    UserStatistics.total_spins st = Z.of_nat (List.length (s :: spins)) /\
    UserStatistics.highest_score st = Some (max_score (spin_score s) spins).
Proof.
  intros Ha Hnone Hscores Hmax Hall.
  destruct (spins_from_no_row env authHeader u w s spins Ha Hnone Hscores
              Hmax Hall) as (st & Hsel & Hn & Hp & _ & _ & Hm).
  exists st. repeat split; assumption.
Qed.

Lemma statistics_after_spins_witness :
  exists st,
    select_user_statistics 7
      (database (snd (serve_all sample_env
                        (map (spin_request "Bearer alice-jwt")
                             (mkSpin "DIVINE" "wanko" 87 :: later_spins))
                        fresh_world)))
    = Some st /\
    UserStatistics.total_points st = 26 /\
    UserStatistics.total_spins st = 3 /\
    UserStatistics.highest_score st = Some 95.
Proof.
  apply (statistics_after_spins sample_env "Bearer alice-jwt" 7%N fresh_world
           (mkSpin "DIVINE" "wanko" 87) later_spins).
  - repeat split; reflexivity.
  - reflexivity.
  - repeat constructor.
  - vm_compute. discriminate.
  - vm_compute. repeat constructor.
Defined.

(** ** The completion percentage *)

Lemma completionPercent_empty_catalog collected total :
  total <= 0 -> completionPercent collected total = Some 0.
Proof.
  intros H. unfold completionPercent.
  replace (0 <? total) with false by (symmetry; apply Z.ltb_ge; exact H).
  reflexivity.
Qed.

(** On the seeded catalog (17 words) the reader's percentage is the
    floor of the exact quotient. *)
Lemma completionPercent_seed_catalog collected :
  0 <= collected <= 17 ->
  completionPercent collected 17 = Some (100 * collected / 17).
Proof.
  intros H.
  assert (E : In collected (map Z.of_nat (seq 0 18))).
  { rewrite <- (Z2Nat.id collected) by lia. apply in_map.
    apply in_seq. lia. }
  simpl in E.
  repeat (destruct E as [<- | E]; [vm_compute; reflexivity|]).
  destruct E.
Qed.

(** What the reader reports is [completionPercent] of the two lengths. *)
Lemma profile_completion u w r :
  fst (profile u w) = r ->
  status r = 200 ->
  completion_of r
  = Some (mkCompletion
            (completionPercent
               (Z.of_nat (List.length (select_collections_joined u (database w))))
               (Z.of_nat (List.length (divine_words (database w)))))
            (Z.of_nat (List.length (select_collections_joined u (database w))))
            (Z.of_nat (List.length (divine_words (database w))))).
Proof.
  intros <-. unfold profile, bind, query, ret. simpl.
  destruct (filter_rarity "SSR" _); [|discriminate].
  destruct (filter_rarity "SR" _); [|discriminate].
  reflexivity.
Qed.

(** C7.  The percentage that the reader reports is not always
    [floor(100 * collected / total)].  With 29 words collected out of 50
    it computes [Math.floor((29 / 50) * 100)] in binary64: [29 / 50]
    rounds below 0.58, the product stays below 58, and the reader reports
    57 where the floor of the exact quotient is 58. *)
Theorem completion_29_of_50_is_57 :
  completionPercent 29 50 = Some 57 /\
  100 * 29 / 50 = 58 /\
  completion_of (fst (get_profile sample_env profile_request world_29_of_50))
  = Some (mkCompletion (Some 57) 29 50).
Proof.
  repeat split; vm_compute; reflexivity.
Qed.

(** ** The schema's constraints are kept

    The statements above that assume [unique_statistics] speak of every
    database the handlers can reach from one that meets the constraints. *)

Lemma map_map_stable {A B : Type} (key : A -> B) (g : A -> A) (l : list A) :
  (forall x, key (g x) = key x) -> map key (map g l) = map key l.
Proof.
  intros H. rewrite map_map. apply map_ext. exact H.
Qed.

Lemma existsb_false_not_in {A B : Type} (f : A -> bool) (key : A -> B) (k : B)
      (l : list A) :
  (forall x, key x = k -> f x = true) ->
  existsb f l = false -> ~ In k (map key l).
Proof.
  intros Hk He Hin. apply in_map_iff in Hin. destruct Hin as (x & Hx & Hxl).
  assert (existsb f l = true) by (apply existsb_exists; exists x; auto).
  congruence.
Qed.

Lemma issued_fresh {A : Type} (id : A -> N) (n : N) (l : list A) :
  Forall (fun r => (id r < n)%N) l -> ~ In n (map id l).
Proof.
  intros H Hin. apply in_map_iff in Hin. destruct Hin as (x & Hx & Hxl).
  rewrite Forall_forall in H. specialize (H x Hxl). lia.
Qed.

Lemma issued_succ {A : Type} (id : A -> N) (n : N) (l : list A) :
  Forall (fun r => (id r < n)%N) l -> Forall (fun r => (id r < N.succ n)%N) l.
Proof.
  apply Forall_impl. intros r H. lia.
Qed.

Lemma NoDup_snoc {A : Type} (l : list A) (x : A) :
  NoDup l -> ~ In x l -> NoDup (l ++ [x]).
Proof.
  intros Hl Hx. apply NoDup_app.
  - exact Hl.
  - constructor; [intros [] | constructor].
  - intros a Ha [<- | []]. exact (Hx Ha).
Qed.

Lemma found_count_accepted n :
  found_count_refused n = false -> 0 < n <= 2147483647.
Proof.
  unfold found_count_refused. intros H.
  apply orb_false_iff in H. destruct H as (H0 & H1).
  apply Z.leb_gt in H0. apply negb_false_iff, int4_spec in H1. lia.
Qed.

Lemma update_user_collection_constraints i p db :
  constraints db -> constraints (update_user_collection i p db).
Proof.
  intros C. unfold update_user_collection.
  destruct (found_count_refused (cu_found_count p)) eqn:Hc; [exact C|].
  apply found_count_accepted in Hc. destruct Hc as (Hc & _).
  set (g := fun r => if (UserCollection.id r =? i)%N
                     then apply_collection_update p r else r).
  assert (Hkey : forall x, collection_key (g x) = collection_key x).
  { intros x. unfold g. destruct (UserCollection.id x =? i)%N; reflexivity. }
  assert (Hid : forall x, UserCollection.id (g x) = UserCollection.id x).
  { intros x. unfold g. destruct (UserCollection.id x =? i)%N; reflexivity. }
  destruct C as [Cw Cc Cs Cf Cpk Cspk Ci Csi].
  constructor; simpl; try assumption.
  - rewrite (map_map_stable collection_key g _ Hkey). exact Cc.
  - apply Forall_map. revert Cf. apply Forall_impl. intros r Hr. unfold g.
    destruct (UserCollection.id r =? i)%N; [exact Hc | exact Hr].
  - rewrite (map_map_stable UserCollection.id g _ Hid). exact Cpk.
  - apply Forall_map. revert Ci. apply Forall_impl. intros r Hr.
    rewrite Hid. exact Hr.
Qed.

Lemma insert_user_collection_constraints p db :
  constraints db -> constraints (insert_user_collection p db).
Proof.
  intros C. unfold insert_user_collection.
  destruct (existsb _ _) eqn:He; [exact C|].
  destruct (found_count_refused (ci_found_count p)) eqn:Hc; [exact C|].
  apply found_count_accepted in Hc. destruct Hc as (Hc & _).
  destruct C as [Cw Cc Cs Cf Cpk Cspk Ci Csi].
  constructor; simpl; try assumption.
  - rewrite map_app. apply NoDup_snoc; [exact Cc|]. simpl.
    apply (existsb_false_not_in _ collection_key _ _ ) with (2 := He).
    intros x Hx. unfold collection_key in Hx. injection Hx as H1 H2.
    unfold collection_of. rewrite H1, H2, !N.eqb_refl. reflexivity.
  - apply Forall_app. split; [exact Cf|]. constructor; [exact Hc | constructor].
  - rewrite map_app. apply NoDup_snoc; [exact Cpk|]. simpl.
    apply issued_fresh. exact Ci.
  - apply Forall_app. split.
    + apply issued_succ. exact Ci.
    + constructor; [simpl; lia | constructor].
  - apply issued_succ. exact Csi.
Qed.

Lemma update_user_statistics_constraints i p db :
  constraints db -> constraints (update_user_statistics i p db).
Proof.
  intros C. unfold update_user_statistics.
  destruct (statistics_update_fits p); [|exact C].
  set (g := fun r => if (UserStatistics.id r =? i)%N
                     then apply_statistics_update p r else r).
  assert (Hkey : forall x, UserStatistics.user_id (g x) = UserStatistics.user_id x).
  { intros x. unfold g. destruct (UserStatistics.id x =? i)%N; reflexivity. }
  assert (Hid : forall x, UserStatistics.id (g x) = UserStatistics.id x).
  { intros x. unfold g. destruct (UserStatistics.id x =? i)%N; reflexivity. }
  destruct C as [Cw Cc Cs Cf Cpk Cspk Ci Csi].
  constructor; simpl; try assumption.
  - unfold unique_statistics. simpl.
    rewrite (map_map_stable UserStatistics.user_id g _ Hkey). exact Cs.
  - rewrite (map_map_stable UserStatistics.id g _ Hid). exact Cspk.
  - apply Forall_map. revert Csi. apply Forall_impl. intros r Hr.
    rewrite Hid. exact Hr.
Qed.

Lemma insert_user_statistics_constraints p db :
  constraints db -> constraints (insert_user_statistics p db).
Proof.
  intros C. unfold insert_user_statistics.
  destruct (existsb _ _) eqn:He; [exact C|].
  destruct (statistics_insert_fits p); [|exact C].
  destruct C as [Cw Cc Cs Cf Cpk Cspk Ci Csi].
  constructor; simpl; try assumption.
  - unfold unique_statistics. simpl.
    rewrite map_app. apply NoDup_snoc; [exact Cs|]. simpl.
    apply (existsb_false_not_in _ UserStatistics.user_id _ _) with (2 := He).
    intros x Hx. unfold statistics_of. rewrite Hx. apply N.eqb_refl.
  - rewrite map_app. apply NoDup_snoc; [exact Cspk|]. simpl.
    apply issued_fresh. exact Csi.
  - apply issued_succ. exact Ci.
  - apply Forall_app. split.
    + apply issued_succ. exact Csi.
    + constructor; [simpl; lia | constructor].
Qed.

Lemma record_collection_constraints env u d w :
  constraints (database w) ->
  constraints (database (snd (record_collection env u d w))).
Proof.
  intros C.
  destruct (select_user_collection u d (database w)) as [e|] eqn:E.
  - destruct (record_collection_update env u d w e E) as (p & -> & _).
    apply update_user_collection_constraints. exact C.
  - rewrite (record_collection_insert env u d w E).
    apply insert_user_collection_constraints. exact C.
Qed.

Lemma record_statistics_constraints env u ty sc w :
  constraints (database w) ->
  constraints (database (snd (record_statistics env u ty sc w))).
Proof.
  intros C.
  destruct (select_user_statistics u (database w)) as [st|] eqn:E.
  - destruct (record_statistics_update env u ty sc w st E) as (p & -> & _).
    apply update_user_statistics_constraints. exact C.
  - destruct (record_statistics_insert env u ty sc w E) as (p & -> & _).
    apply insert_user_statistics_constraints. exact C.
Qed.

Lemma track_constraints env u req w :
  constraints (database w) ->
  constraints (database (snd (track env u req w))).
Proof.
  intros C.
  destruct (json req) as [b|] eqn:Hb; [|unfold track; rewrite Hb; exact C].
  destruct (falsy (type b)) eqn:Ft.
  { unfold track. rewrite Hb, Ft. exact C. }
  destruct (falsy (word b)) eqn:Fw.
  { unfold track. rewrite Hb, Ft, Fw. exact C. }
  destruct (not_falsy_present _ Ft) as (ty & Ht).
  destruct (not_falsy_present _ Fw) as (wd & Hw).
  destruct (select_divine_word wd (database w)) as [d|] eqn:Hd.
  - rewrite (track_known_word env u req w b ty wd d Hb Ht Hw Hd). simpl.
    apply record_statistics_constraints, record_collection_constraints.
    exact C.
  - rewrite (track_unknown_word env u req w b ty wd Hb Ht Hw Hd).
    destruct (negb (ty =? "VOID")%string); simpl; [exact C|].
    apply record_statistics_constraints. exact C.
Qed.

(** Whatever the request, the recorder takes a database that meets the
    constraints to one that meets them. *)
Theorem track_oracle_result_constraints env req w :
  constraints (database w) ->
  constraints (database (snd (track_oracle_result env req w))).
Proof.
  intros C. unfold track_oracle_result.
  destruct (method req =? "OPTIONS")%string; [exact C|].
  unfold bind.
  pose proof (authenticate_database env req w) as Hdb.
  destruct (authenticate env req w) as [[response | user] w1]; simpl in *.
  - rewrite Hdb. exact C.
  - apply track_constraints. rewrite Hdb. exact C.
Qed.

(** The profile reader writes nothing. *)
Theorem get_profile_reads_only env req w :
  database (snd (get_profile env req w)) = database w.
Proof.
  unfold get_profile.
  destruct (method req =? "OPTIONS")%string; [reflexivity|].
  unfold bind.
  pose proof (authenticate_database env req w) as Hdb.
  destruct (authenticate env req w) as [[response | user] w1]; simpl in *.
  - exact Hdb.
  - unfold profile, bind, query, ret. simpl.
    destruct (filter_rarity "SSR" _); [destruct (filter_rarity "SR" _)|];
      exact Hdb.
Qed.

Lemma empty_db_constraints : constraints empty_db.
Proof.
  constructor; simpl; repeat constructor; simpl; intuition discriminate.
Qed.

(** ** A first spin, end to end

    A user without a row sends a DIVINE spin on a catalog word with
    score 87: the ledger entry is created with [found_count = 1] and the
    statistics row with 1 spin, 20 points, 1 DIVINE find, no REALITY find
    and 87 as best score. *)
Example first_divine_spin :
  let w := snd (track_oracle_result sample_env
                  (post (Some "DIVINE") (Some "wanko") (Some 87)) fresh_world) in
  option_map UserCollection.found_count
    (select_user_collection 7 1 (database w)) = Some 1 /\
  option_map (fun st => (UserStatistics.total_spins st,
                         UserStatistics.total_points st,
                         UserStatistics.divine_count st,
                         UserStatistics.reality_count st,
                         UserStatistics.highest_score st))
    (select_user_statistics 7 (database w))
  = Some (1, 20, 1, 0, Some 87).
Proof.
  split; reflexivity.
Qed.

(** A later spin without a score on that row: the update carries
    [NaN], which reaches the column as NULL. *)
Example scoreless_spin_after :
  let w1 := snd (track_oracle_result sample_env
                   (post (Some "DIVINE") (Some "wanko") (Some 87)) fresh_world) in
  let w2 := snd (track_oracle_result sample_env
                   (post (Some "VOID") (Some "wanko") None) w1) in
  option_map UserStatistics.highest_score
    (select_user_statistics 7 (database w2)) = Some None.
Proof.
  reflexivity.
Qed.

(** ** Headers *)

Lemma authenticate_headers env req w :
  match fst (authenticate env req w) with
  | inl response => headers response = json_headers
  | inr _ => True
  end.
Proof.
  unfold authenticate, bind, auth_call, ret.
  destruct (falsy (authorization req)); [reflexivity|].
  destruct (falsy (SUPABASE_URL env) || falsy (SUPABASE_SERVICE_ROLE_KEY env));
    [reflexivity|].
  simpl. destruct (getUser env _); simpl; [exact I | reflexivity].
Qed.

Lemma track_headers env u req w :
  headers (fst (track env u req w)) = json_headers.
Proof.
  destruct (json req) as [b|] eqn:Hb; [|unfold track; rewrite Hb; reflexivity].
  destruct (falsy (type b)) eqn:Ft.
  { unfold track. rewrite Hb, Ft. reflexivity. }
  destruct (falsy (word b)) eqn:Fw.
  { unfold track. rewrite Hb, Ft, Fw. reflexivity. }
  destruct (not_falsy_present _ Ft) as (ty & Ht).
  destruct (not_falsy_present _ Fw) as (wd & Hw).
  destruct (select_divine_word wd (database w)) as [d|] eqn:Hd.
  - rewrite (track_known_word env u req w b ty wd d Hb Ht Hw Hd). reflexivity.
  - rewrite (track_unknown_word env u req w b ty wd Hb Ht Hw Hd).
    destruct (negb (ty =? "VOID")%string); reflexivity.
Qed.

Lemma profile_headers u w :
  headers (fst (profile u w)) = json_headers.
Proof.
  unfold profile, bind, query, ret. simpl.
  destruct (filter_rarity "SSR" _); [destruct (filter_rarity "SR" _)|];
    reflexivity.
Qed.

(** X1.  Every response of both handlers, the preflight answer included,
    carries the three [corsHeaders]. *)
Theorem cors_on_every_response env req w :
  incl corsHeaders (headers (fst (track_oracle_result env req w))) /\
  incl corsHeaders (headers (fst (get_profile env req w))).
Proof.
  assert (Hj : incl corsHeaders json_headers) by (apply incl_appl, incl_refl).
  unfold track_oracle_result, get_profile.
  destruct (method req =? "OPTIONS")%string; [split; apply incl_refl|].
  unfold bind.
  pose proof (authenticate_headers env req w) as Ha.
  destruct (authenticate env req w) as [[response | user] w1]; simpl in *.
  - rewrite Ha. split; exact Hj.
  - rewrite track_headers, profile_headers. split; exact Hj.
Qed.

(** ** The outcomes of a request, case by case *)

Lemma authenticate_cases env req w :
  (falsy (authorization req) = true /\
   authenticate env req w
   = (inl (json_error 401 "Missing authorization header"), w)) \/
  (falsy (authorization req) = false /\
   falsy (SUPABASE_URL env) || falsy (SUPABASE_SERVICE_ROLE_KEY env) = true /\
   authenticate env req w
   = (inl (json_error 500 "Server configuration error"), w)) \/
  (falsy (authorization req) = false /\
   falsy (SUPABASE_URL env) || falsy (SUPABASE_SERVICE_ROLE_KEY env) = false /\
   getUser env (token_of req) = None /\
   authenticate env req w
   = (inl (json_error 401 "Unauthorized"),
      logged (auth_getUser (token_of req)) w)) \/
  (exists u,
      falsy (authorization req) = false /\
      falsy (SUPABASE_URL env) || falsy (SUPABASE_SERVICE_ROLE_KEY env) = false /\
      getUser env (token_of req) = Some u /\
      authenticate env req w
      = (inr u, logged (auth_getUser (token_of req)) w)).
Proof.
  unfold authenticate, bind, auth_call, ret.
  destruct (falsy (authorization req)) eqn:Fh; [left; split; reflexivity|].
  right.
  destruct (falsy (SUPABASE_URL env) || falsy (SUPABASE_SERVICE_ROLE_KEY env))
    eqn:Fe; [left; repeat split|].
  right. simpl. fold (token_of req).
  destruct (getUser env (token_of req)) as [u|] eqn:Hg.
  - right. exists u. repeat split.
  - left. repeat split.
Qed.

Lemma configured env :
  falsy (SUPABASE_URL env) || falsy (SUPABASE_SERVICE_ROLE_KEY env) = false ->
  falsy (SUPABASE_URL env) = false /\ falsy (SUPABASE_SERVICE_ROLE_KEY env) = false.
Proof.
  apply orb_false_elim.
Qed.

(** The recorder, past the preflight test: a gate failure that leaves
    the database and its calls alone, or the body of the handler run for
    the user the token resolves to. *)
Lemma track_oracle_result_cases env req w :
  (method req =? "OPTIONS")%string = false ->
  (exists code msg w1,
      track_oracle_result env req w = (json_error code msg, w1) /\
      (code = 401 \/ code = 500) /\
      database w1 = database w /\
      filter is_database_call (trace w1) = filter is_database_call (trace w) /\
      filter is_write (trace w1) = filter is_write (trace w) /\
      exists calls, trace w1 = trace w ++ calls /\
                    filter is_database_call calls = []) \/
  (exists u,
      authenticated env req u /\
      track_oracle_result env req w
      = track env u req (logged (auth_getUser (token_of req)) w)).
Proof.
  intros Hm. unfold track_oracle_result. rewrite Hm. unfold bind.
  destruct (authenticate_cases env req w)
    as [(_ & ->) | [(_ & _ & ->) | [(_ & _ & _ & ->) | (u & Fh & Fe & Hg & ->)]]].
  - left. exists 401, "Missing authorization header", w.
    repeat split; auto. exists []. split; [symmetry; apply app_nil_r | reflexivity].
  - left. exists 500, "Server configuration error", w.
    repeat split; auto. exists []. split; [symmetry; apply app_nil_r | reflexivity].
  - left. exists 401, "Unauthorized", (logged (auth_getUser (token_of req)) w).
    split; [reflexivity|]. split; [auto|]. split; [reflexivity|].
    split; [simpl; apply filter_app_one; reflexivity|].
    split; [simpl; apply filter_app_one; reflexivity|].
    eexists. split; reflexivity.
  - right. exists u. destruct (configured env Fe) as (Fu & Fk).
    split; [repeat split; assumption | reflexivity].
Qed.

Lemma get_profile_cases env req w :
  (method req =? "OPTIONS")%string = false ->
  (exists code msg w1,
      get_profile env req w = (json_error code msg, w1) /\
      (code = 401 \/ code = 500) /\
      database w1 = database w /\
      filter is_database_call (trace w1) = filter is_database_call (trace w) /\
      filter is_write (trace w1) = filter is_write (trace w)) \/
  (exists u,
      authenticated env req u /\
      get_profile env req w
      = profile u (logged (auth_getUser (token_of req)) w)).
Proof.
  intros Hm. unfold get_profile. rewrite Hm. unfold bind.
  destruct (authenticate_cases env req w)
    as [(_ & ->) | [(_ & _ & ->) | [(_ & _ & _ & ->) | (u & Fh & Fe & Hg & ->)]]].
  - left. exists 401, "Missing authorization header", w. repeat split; auto.
  - left. exists 500, "Server configuration error", w. repeat split; auto.
  - left. exists 401, "Unauthorized", (logged (auth_getUser (token_of req)) w).
    split; [reflexivity|]. split; [auto|]. split; [reflexivity|].
    split; simpl; apply filter_app_one; reflexivity.
  - right. exists u. destruct (configured env Fe) as (Fu & Fk).
    split; [repeat split; assumption | reflexivity].
Qed.

(** The body of the recorder: the five ways it ends. *)
Lemma track_cases env u req w :
  (json req = None /\
   track env u req w = (json_error 500 "Internal server error", w)) \/
  (exists b, json req = Some b /\
             falsy (type b) || falsy (word b) = true /\
             track env u req w = (json_error 400 "Missing required fields", w)) \/
  (exists b ty wd,
      json req = Some b /\ present (type b) ty /\ present (word b) wd /\
      select_divine_word wd (database w) = None /\
      (ty =? "VOID")%string = false /\
      track env u req w
      = (json_error 404 "Divine word not found",
         logged (divine_words_select_word wd) w)) \/
  (exists b wd,
      json req = Some b /\ present (type b) "VOID" /\ present (word b) wd /\
      select_divine_word wd (database w) = None /\
      track env u req w
      = (tracked,
         snd (record_statistics env u "VOID" (score_value (score b))
                (logged (divine_words_select_word wd) w)))) \/
  (exists b ty wd d,
      json req = Some b /\ present (type b) ty /\ present (word b) wd /\
      select_divine_word wd (database w) = Some d /\
      track env u req w
      = (tracked,
         snd (record_statistics env u ty (score_value (score b))
                (snd (record_collection env u d
                        (logged (divine_words_select_word wd) w)))))).
Proof.
  destruct (json req) as [b|] eqn:Hb;
    [|left; split; [reflexivity | unfold track; rewrite Hb; reflexivity]].
  right.
  destruct (falsy (type b) || falsy (word b)) eqn:Hf.
  { left. exists b. split; [first [reflexivity | assumption]|]. split; [first [reflexivity | assumption]|].
    unfold track. rewrite Hb, Hf. reflexivity. }
  right. apply orb_false_elim in Hf. destruct Hf as (Ft & Fw).
  destruct (not_falsy_present _ Ft) as (ty & Ht).
  destruct (not_falsy_present _ Fw) as (wd & Hw).
  destruct (select_divine_word wd (database w)) as [d|] eqn:Hd.
  - right. right. exists b, ty, wd, d.
    split; [first [reflexivity | assumption]|]. split; [exact Ht|]. split; [exact Hw|].
    split; [first [reflexivity | assumption]|].
    apply (track_known_word env u req w b ty wd d Hb Ht Hw Hd).
  - pose proof (track_unknown_word env u req w b ty wd Hb Ht Hw Hd) as E.
    destruct (ty =? "VOID")%string eqn:Hv.
    + right. left. apply String.eqb_eq in Hv. subst ty.
      exists b, wd.
      split; [first [reflexivity | assumption]|]. split; [exact Ht|]. split; [exact Hw|].
      split; [first [reflexivity | assumption]|]. exact E.
    + left. exists b, ty, wd.
      split; [first [reflexivity | assumption]|]. split; [exact Ht|]. split; [exact Hw|].
      split; [first [reflexivity | assumption]|]. split; [first [reflexivity | assumption]|]. exact E.
Qed.

Lemma record_collection_calls env u d w :
  exists c,
    trace (snd (record_collection env u d w))
    = trace w ++ [user_collections_select u d; c] /\
    is_write c = true.
Proof.
  destruct (select_user_collection u d (database w)) as [e|] eqn:E.
  - destruct (record_collection_update env u d w e E) as (p & -> & _).
    eexists. simpl. rewrite <- app_assoc. split; reflexivity.
  - rewrite (record_collection_insert env u d w E).
    eexists. simpl. rewrite <- app_assoc. split; reflexivity.
Qed.

Lemma record_statistics_calls env u ty sc w :
  exists c,
    trace (snd (record_statistics env u ty sc w))
    = trace w ++ [user_statistics_select u; c] /\
    is_write c = true.
Proof.
  destruct (record_statistics_trace env u ty sc w) as (c & -> & Hc & _).
  exists c. rewrite <- app_assoc. split; [reflexivity | exact Hc].
Qed.

(** The calls of one run of the recorder's body. *)
Lemma track_calls env u req w :
  exists calls,
    trace (snd (track env u req w)) = trace w ++ calls /\
    (List.length (filter is_write calls) <= 2)%nat /\
    (List.length calls <= 5)%nat /\
    (status (fst (track env u req w)) <> 200 ->
     filter is_write calls = [] /\
     database (snd (track env u req w)) = database w).
Proof.
  destruct (track_cases env u req w)
    as [(_ & ->) | [(b & _ & _ & ->) | [(b & ty & wd & _ & _ & _ & _ & _ & ->)
       | [(b & wd & _ & _ & _ & _ & ->) | (b & ty & wd & d & _ & _ & _ & _ & ->)]]]].
  - exists []. simpl. rewrite app_nil_r. repeat split; lia.
  - exists []. simpl. rewrite app_nil_r. repeat split; lia.
  - exists [divine_words_select_word wd]. simpl. repeat split; lia.
  - destruct (record_statistics_calls env u "VOID" (score_value (score b))
                (logged (divine_words_select_word wd) w)) as (c & E & Hc).
    exists [divine_words_select_word wd; user_statistics_select u; c].
    simpl snd. rewrite E. simpl. rewrite Hc, <- app_assoc. simpl.
    repeat split; lia.
  - destruct (record_collection_calls env u d
                (logged (divine_words_select_word wd) w)) as (c1 & E1 & Hc1).
    destruct (record_statistics_calls env u ty (score_value (score b))
                (snd (record_collection env u d
                        (logged (divine_words_select_word wd) w))))
      as (c2 & E2 & Hc2).
    exists [divine_words_select_word wd; user_collections_select u d; c1;
            user_statistics_select u; c2].
    simpl snd. rewrite E2, E1. simpl. rewrite Hc1, Hc2, <- !app_assoc. simpl.
    repeat split; lia.
Qed.

Lemma track_oracle_result_calls env req w :
  exists calls,
    trace (snd (track_oracle_result env req w)) = trace w ++ calls /\
    (List.length (filter is_write calls) <= 2)%nat /\
    (List.length (filter is_database_call calls) <= 5)%nat /\
    (status (fst (track_oracle_result env req w)) <> 200 ->
     filter is_write calls = [] /\
     database (snd (track_oracle_result env req w)) = database w).
Proof.
  destruct (method req =? "OPTIONS")%string eqn:Hm.
  { unfold track_oracle_result. rewrite Hm. exists []. simpl.
    rewrite app_nil_r. repeat split; lia. }
  destruct (track_oracle_result_cases env req w Hm)
    as [(code & msg & w1 & -> & _ & Hdb & _ & _ & calls & Ht & Hc)
       | (u & _ & ->)].
  - exists calls. simpl. split; [exact Ht|].
    assert (Hw : filter is_write calls = []).
    { clear - Hc. induction calls as [|c calls IH]; [reflexivity|].
      simpl in Hc. destruct c; simpl in *; try discriminate; auto. }
    rewrite Hw, Hc. simpl. repeat split; try lia. exact Hdb.
  - destruct (track_calls env u req (logged (auth_getUser (token_of req)) w))
      as (calls & Ht & Hw & Hn & Herr).
    exists (auth_getUser (token_of req) :: calls).
    split; [rewrite Ht; simpl; rewrite <- app_assoc; reflexivity|].
    simpl. split; [exact Hw|]. split.
    + pose proof (filter_length_le is_database_call calls). lia.
    + exact Herr.
Qed.

(** X2.  Whatever the request, one run of the recorder issues at most two
    writes and at most five database calls, all appended to the log. *)
Theorem recorder_calls_bounded env req w :
  exists calls,
    trace (snd (track_oracle_result env req w)) = trace w ++ calls /\
    (List.length (filter is_write calls) <= 2)%nat /\
    (List.length (filter is_database_call calls) <= 5)%nat.
Proof.
  destruct (track_oracle_result_calls env req w) as (calls & H1 & H2 & H3 & _).
  exists calls. repeat split; assumption.
Qed.

(** X3.  An answer of the recorder other than 200 comes with no write: the
    database is the one the request found and the log gains no write. *)
Theorem error_answers_change_nothing env req w :
  status (fst (track_oracle_result env req w)) <> 200 ->
  database (snd (track_oracle_result env req w)) = database w /\
  writes (snd (track_oracle_result env req w)) = writes w.
Proof.
  intros H.
  destruct (track_oracle_result_calls env req w) as (calls & Ht & _ & _ & Herr).
  destruct (Herr H) as (Hw & Hdb). split; [exact Hdb|].
  unfold writes. rewrite Ht, filter_app, Hw. apply app_nil_r.
Qed.

Lemma error_answers_change_nothing_witness :
  database (snd (track_oracle_result sample_env
                   (post (Some "REALITY") (Some "neko") (Some 1)) fresh_world))
  = database fresh_world /\
  writes (snd (track_oracle_result sample_env
                 (post (Some "REALITY") (Some "neko") (Some 1)) fresh_world))
  = writes fresh_world.
Proof.
  apply (error_answers_change_nothing sample_env
           (post (Some "REALITY") (Some "neko") (Some 1)) fresh_world).
  vm_compute. discriminate.
Defined.

(** X4.  The status of an answer of the recorder is one of 200, 400, 401,
    404 and 500; that of the reader is one of 200, 401 and 500. *)
Theorem status_codes env req w :
  In (status (fst (track_oracle_result env req w))) [200; 400; 401; 404; 500] /\
  In (status (fst (get_profile env req w))) [200; 401; 500].
Proof.
  destruct (method req =? "OPTIONS")%string eqn:Hm.
  { unfold track_oracle_result, get_profile. rewrite Hm. simpl. auto. }
  split.
  - destruct (track_oracle_result_cases env req w Hm)
      as [(code & msg & w1 & -> & [-> | ->] & _) | (u & _ & ->)];
      [simpl; auto | simpl; auto 6 |].
    destruct (track_cases env u req (logged (auth_getUser (token_of req)) w))
      as [(_ & ->) | [(b & _ & _ & ->) | [(b & ty & wd & _ & _ & _ & _ & _ & ->)
         | [(b & wd & _ & _ & _ & _ & ->) | (b & ty & wd & d & _ & _ & _ & _ & ->)]]]];
      simpl; auto 6.
  - destruct (get_profile_cases env req w Hm)
      as [(code & msg & w1 & -> & [-> | ->] & _) | (u & _ & ->)];
      [simpl; auto | simpl; auto |].
    unfold profile, bind, query, ret. simpl.
    destruct (filter_rarity "SSR" _); [destruct (filter_rarity "SR" _)|];
      simpl; auto.
Qed.

Lemma profile_calls u w :
  trace (snd (profile u w))
  = trace w ++ [user_statistics_select u; user_collections_select_joined u;
                divine_words_select_all] /\
  database (snd (profile u w)) = database w.
Proof.
  unfold profile, bind, query, ret. simpl.
  destruct (filter_rarity "SSR" _); [destruct (filter_rarity "SR" _)|];
    simpl; rewrite <- !app_assoc; split; reflexivity.
Qed.

(** X5.  A database call is only ever issued for a request that passed
    the credential gate; the recorder moreover issues one only when the
    body carries a non-empty [type] and a non-empty [word]. *)
Theorem database_access_requires_authentication env req w :
  (database_calls (snd (track_oracle_result env req w)) <> database_calls w ->
   exists u b ty wd,
     authenticated env req u /\ json req = Some b /\
     present (type b) ty /\ present (word b) wd) /\
  (database_calls (snd (get_profile env req w)) <> database_calls w ->
   exists u, authenticated env req u).
Proof.
  destruct (method req =? "OPTIONS")%string eqn:Hm.
  { unfold track_oracle_result, get_profile. rewrite Hm. simpl.
    split; intros H; contradiction H; reflexivity. }
  split; intros H.
  - destruct (track_oracle_result_cases env req w Hm)
      as [(code & msg & w1 & E & _ & _ & Hc & _) | (u & Ha & E)];
      rewrite E in H; simpl in H.
    { contradiction H. }
    exists u.
    assert (Hauth : forall x,
               database_calls (logged (auth_getUser (token_of req)) x)
               = database_calls x).
    { intros x. unfold database_calls. simpl. apply filter_app_one. reflexivity. }
    destruct (track_cases env u req (logged (auth_getUser (token_of req)) w))
      as [(_ & E1) | [(b & _ & _ & E1) | [(b & ty & wd & Hb & Ht & Hw & _)
         | [(b & wd & Hb & Ht & Hw & _) | (b & ty & wd & d & Hb & Ht & Hw & _)]]]].
    + rewrite E1 in H. simpl in H. contradiction H. apply Hauth.
    + rewrite E1 in H. simpl in H. contradiction H. apply Hauth.
    + exists b, ty, wd. auto.
    + exists b, "VOID", wd. auto.
    + exists b, ty, wd. auto.
  - destruct (get_profile_cases env req w Hm)
      as [(code & msg & w1 & E & _ & _ & Hc & _) | (u & Ha & E)];
      rewrite E in H; simpl in H.
    { contradiction H. }
    exists u. exact Ha.
Qed.

Lemma database_access_requires_authentication_witness :
  (exists u b ty wd,
      authenticated sample_env (post (Some "DIVINE") (Some "neko") (Some 87)) u /\
      json (post (Some "DIVINE") (Some "neko") (Some 87)) = Some b /\
      present (type b) ty /\ present (word b) wd) /\
  (exists u, authenticated sample_env profile_request u).
Proof.
  split.
  - apply (proj1 (database_access_requires_authentication sample_env
                    (post (Some "DIVINE") (Some "neko") (Some 87)) fresh_world)).
    vm_compute. discriminate.
  - apply (proj2 (database_access_requires_authentication sample_env
                    profile_request fresh_world)).
    vm_compute. discriminate.
Defined.

(** X6.  Neither handler ever changes the catalog, and the reader changes
    no table at all and issues no write, whatever the request. *)
Theorem catalog_and_reader_are_read_only env req w :
  divine_words (database (snd (track_oracle_result env req w)))
  = divine_words (database w) /\
  database (snd (get_profile env req w)) = database w /\
  writes (snd (get_profile env req w)) = writes w.
Proof.
  destruct (method req =? "OPTIONS")%string eqn:Hm.
  { unfold track_oracle_result, get_profile. rewrite Hm. simpl. auto. }
  split; [|split].
  - destruct (track_oracle_result_cases env req w Hm)
      as [(code & msg & w1 & -> & _ & Hdb & _) | (u & _ & ->)].
    { simpl. rewrite Hdb. reflexivity. }
    destruct (track_cases env u req (logged (auth_getUser (token_of req)) w))
      as [(_ & ->) | [(b & _ & _ & ->) | [(b & ty & wd & _ & _ & _ & _ & _ & ->)
         | [(b & wd & _ & _ & _ & _ & ->) | (b & ty & wd & d & _ & _ & _ & _ & ->)]]]];
      simpl; try reflexivity.
    + apply (record_statistics_frame env u "VOID" (score_value (score b))
               (logged (divine_words_select_word wd)
                  (logged (auth_getUser (token_of req)) w))).
    + rewrite (proj2 (record_statistics_frame env u ty (score_value (score b)) _)).
      apply (record_collection_frame env u d
               (logged (divine_words_select_word wd)
                  (logged (auth_getUser (token_of req)) w))).
  - destruct (get_profile_cases env req w Hm)
      as [(code & msg & w1 & -> & _ & Hdb & _) | (u & _ & ->)].
    { exact Hdb. }
    apply (profile_calls u (logged (auth_getUser (token_of req)) w)).
  - destruct (get_profile_cases env req w Hm)
      as [(code & msg & w1 & -> & _ & _ & _ & Hw) | (u & _ & ->)].
    { exact Hw. }
    unfold writes.
    rewrite (proj1 (profile_calls u (logged (auth_getUser (token_of req)) w))).
    simpl. rewrite <- app_assoc. rewrite filter_app. simpl. apply app_nil_r.
Qed.

(** ** Rows of other users *)

Lemma NoDup_map_injective {A B : Type} (f : A -> B) (l : list A) (a b : A) :
  NoDup (map f l) -> In a l -> In b l -> f a = f b -> a = b.
Proof.
  induction l as [|x l IH]; simpl; intros Hnd Ha Hb E; [contradiction|].
  inversion Hnd as [|? ? Hnotin Hnd']; subst.
  destruct Ha as [-> | Ha], Hb as [-> | Hb].
  - reflexivity.
  - exfalso. apply Hnotin. rewrite E. apply in_map. exact Hb.
  - exfalso. apply Hnotin. rewrite <- E. apply in_map. exact Ha.
  - apply IH; assumption.
Qed.

Lemma filter_map_fixed {A : Type} (f : A -> bool) (g : A -> A) (l : list A) :
  (forall x, In x l -> f x = true -> g x = x) ->
  (forall x, f (g x) = f x) ->
  filter f (map g l) = filter f l.
Proof.
  intros Hfix Hf. induction l as [|a l IH]; simpl; [reflexivity|].
  rewrite Hf. destruct (f a) eqn:Fa.
  - rewrite (Hfix a (or_introl eq_refl) Fa). f_equal.
    apply IH. intros x Hx. apply Hfix. right. exact Hx.
  - apply IH. intros x Hx. apply Hfix. right. exact Hx.
Qed.

Lemma maybeSingle_In {A : Type} (f : A -> bool) (l : list A) (x : A) :
  maybeSingle (filter f l) = Some x -> In x l /\ f x = true.
Proof.
  intros H. apply maybeSingle_Some in H.
  apply filter_In. rewrite H. left. reflexivity.
Qed.

Lemma record_statistics_others env u ty sc w u' :
  constraints (database w) -> u' <> u ->
  statistics_rows_of u' (database (snd (record_statistics env u ty sc w)))
  = statistics_rows_of u' (database w).
Proof.
  intros C Hu. unfold statistics_rows_of.
  destruct (select_user_statistics u (database w)) as [st|] eqn:E.
  - destruct (record_statistics_update env u ty sc w st E) as (p & -> & _).
    simpl. unfold update_user_statistics.
    destruct (statistics_update_fits p); [|reflexivity]. simpl.
    apply filter_map_fixed.
    + intros x Hx Fx.
      destruct (N.eqb_spec (UserStatistics.id x) (UserStatistics.id st)) as [Ei|];
        [|reflexivity].
      exfalso. destruct (maybeSingle_In _ _ _ E) as (Hst & Fst).
      assert (x = st)
        by (apply (NoDup_map_injective UserStatistics.id _ x st
                     (statistics_primary_key _ C) Hx Hst Ei)).
      subst x. unfold statistics_of in *.
      apply N.eqb_eq in Fx, Fst. congruence.
    + intros x. destruct (UserStatistics.id x =? UserStatistics.id st)%N;
        reflexivity.
  - destruct (record_statistics_insert env u ty sc w E) as (p & -> & Hp & _).
    simpl. unfold insert_user_statistics.
    destruct (_ || _); [reflexivity|]. simpl.
    apply filter_app_one. unfold statistics_of. simpl. rewrite Hp.
    apply N.eqb_neq. auto.
Qed.

Lemma record_collection_others env u d w u' :
  constraints (database w) -> u' <> u ->
  ledger_of u' (database (snd (record_collection env u d w)))
  = ledger_of u' (database w).
Proof.
  intros C Hu. unfold ledger_of.
  destruct (select_user_collection u d (database w)) as [e|] eqn:E.
  - destruct (record_collection_update env u d w e E) as (p & -> & _).
    simpl. unfold update_user_collection.
    destruct (found_count_refused (cu_found_count p)); [reflexivity|]. simpl.
    apply filter_map_fixed.
    + intros x Hx Fx.
      destruct (N.eqb_spec (UserCollection.id x) (UserCollection.id e)) as [Ei|];
        [|reflexivity].
      exfalso. destruct (maybeSingle_In _ _ _ E) as (He & Fe).
      assert (x = e)
        by (apply (NoDup_map_injective UserCollection.id _ x e
                     (collections_primary_key _ C) Hx He Ei)).
      subst x. unfold collection_of in Fe.
      apply andb_prop in Fe. destruct Fe as (Fe & _).
      apply N.eqb_eq in Fx, Fe. congruence.
    + intros x. destruct (UserCollection.id x =? UserCollection.id e)%N;
        reflexivity.
  - rewrite (record_collection_insert env u d w E). simpl.
    unfold insert_user_collection.
    destruct (_ || _); [reflexivity|]. simpl.
    apply filter_app_one. simpl. apply N.eqb_neq. auto.
Qed.

Lemma track_others env u req w u' :
  constraints (database w) -> u' <> u ->
  ledger_of u' (database (snd (track env u req w))) = ledger_of u' (database w) /\
  statistics_rows_of u' (database (snd (track env u req w)))
  = statistics_rows_of u' (database w).
Proof.
  intros C Hu.
  destruct (track_cases env u req w)
    as [(_ & ->) | [(b & _ & _ & ->) | [(b & ty & wd & _ & _ & _ & _ & _ & ->)
       | [(b & wd & _ & _ & _ & _ & ->) | (b & ty & wd & d & _ & _ & _ & _ & ->)]]]];
    simpl; auto.
  - set (w1 := logged (divine_words_select_word wd) w).
    split.
    + unfold ledger_of.
      rewrite (proj1 (record_statistics_frame env u "VOID" _ w1)). reflexivity.
    + apply (record_statistics_others env u "VOID" _ w1 u' C Hu).
  - set (w1 := logged (divine_words_select_word wd) w).
    assert (C1 : constraints (database (snd (record_collection env u d w1))))
      by (apply record_collection_constraints; exact C).
    split.
    + unfold ledger_of.
      rewrite (proj1 (record_statistics_frame env u ty _ _)).
      apply (record_collection_others env u d w1 u' C Hu).
    + rewrite (record_statistics_others env u ty _ _ u' C1 Hu).
      unfold statistics_rows_of.
      rewrite (proj1 (record_collection_frame env u d w1)). reflexivity.
Qed.

(** X7.  On a database that meets the schema's constraints, a request
    changes no ledger row and no statistics row of a user other than the
    one its token resolves to. *)
Theorem other_users_untouched env req w u' :
  constraints (database w) ->
  getUser env (token_of req) <> Some u' ->
  ledger_of u' (database (snd (track_oracle_result env req w)))
  = ledger_of u' (database w) /\
  statistics_rows_of u' (database (snd (track_oracle_result env req w)))
  = statistics_rows_of u' (database w).
Proof.
  intros C Hg.
  destruct (method req =? "OPTIONS")%string eqn:Hm.
  { unfold track_oracle_result. rewrite Hm. simpl. auto. }
  destruct (track_oracle_result_cases env req w Hm)
    as [(code & msg & w1 & -> & _ & Hdb & _) | (u & Ha & ->)].
  { simpl. rewrite Hdb. auto. }
  assert (Hu : u' <> u).
  { intros ->. apply Hg. apply Ha. }
  apply (track_others env u req (logged (auth_getUser (token_of req)) w) u' C Hu).
Qed.

Lemma busy_db_constraints : constraints busy_db.
Proof.
  constructor; unfold unique_statistics; simpl;
    repeat (constructor; simpl; try (intuition discriminate); try reflexivity).
Qed.

Lemma other_users_untouched_witness :
  ledger_of 8 (database (snd (track_oracle_result sample_env
                                (post (Some "DIVINE") (Some "wanko") (Some 99))
                                busy_world)))
  = ledger_of 8 (database busy_world) /\
  statistics_rows_of 8 (database (snd (track_oracle_result sample_env
                                (post (Some "DIVINE") (Some "wanko") (Some 99))
                                busy_world)))
  = statistics_rows_of 8 (database busy_world).
Proof.
  apply (other_users_untouched sample_env
           (post (Some "DIVINE") (Some "wanko") (Some 99)) busy_world 8%N).
  - exact busy_db_constraints.
  - vm_compute. discriminate.
Defined.

(** ** Runs of requests *)

Lemma filter_unique {A B : Type} (key : A -> B) (f : A -> bool) (k : B)
      (l : list A) :
  (forall x, f x = true <-> key x = k) ->
  NoDup (map key l) ->
  filter f l = [] \/ exists x, filter f l = [x].
Proof.
  intros Hf. induction l as [|a l IH]; simpl; intros H.
  - left; reflexivity.
  - inversion H as [|? ? Hnotin Hnd]; subst.
    destruct (f a) eqn:Fa.
    + right. exists a. f_equal.
      assert (Hnone : forall y, In y l -> f y = false).
      { intros y Hy. destruct (f y) eqn:Fy; [|reflexivity].
        exfalso. apply Hnotin. apply Hf in Fa. apply Hf in Fy.
        rewrite Fa, <- Fy. apply in_map. exact Hy. }
      clear - Hnone. induction l as [|b l IHl]; simpl.
      * reflexivity.
      * rewrite (Hnone b (or_introl eq_refl)). apply IHl.
        intros y Hy. apply Hnone. right. exact Hy.
    + apply IH. exact Hnd.
Qed.

Lemma collection_of_key u d x :
  collection_of u d x = true <-> collection_key x = (u, d).
Proof.
  unfold collection_of, collection_key. split.
  - intros H. apply andb_prop in H. destruct H as (H1 & H2).
    apply N.eqb_eq in H1, H2. congruence.
  - intros H. injection H as -> ->. rewrite !N.eqb_refl. reflexivity.
Qed.

Lemma select_user_collection_unique u d db :
  constraints db ->
  select_user_collection u d db = None ->
  filter (collection_of u d) (user_collections db) = [].
Proof.
  intros C Hs. unfold select_user_collection in Hs.
  destruct (filter_unique collection_key (collection_of u d) (u, d) _
              (collection_of_key u d) (collections_unique _ C)) as [E | (x & E)].
  - exact E.
  - rewrite E in Hs. discriminate.
Qed.

(** One accepted spin on a known word adds one to the user's count for
    that word. *)
Lemma found_count_step env req u w b ty wd d :
  constraints (database w) ->
  authenticated env req u ->
  json req = Some b ->
  present (type b) ty ->
  present (word b) wd ->
  select_divine_word wd (database w) = Some d ->
  found_count_of u d (database w) + 1 <= 2147483647 ->
  found_count_of u d (database (snd (track_oracle_result env req w)))
  = found_count_of u d (database w) + 1.
Proof.
  intros C Ha Hb Ht Hw Hd Hmax. revert Hmax.
  destruct (track_known_word_tables env req u w b ty wd d Ha Hb Ht Hw Hd)
    as (Hl & _).
  unfold found_count_of.
  rewrite (select_user_collection_ext u d _ _ Hl).
  destruct (select_user_collection u d (database w)) as [e|] eqn:E.
  - intros Hmax.
    assert (Hpos : found_count_refused (UserCollection.found_count e + 1) = false).
    { destruct (maybeSingle_In _ _ _ E) as (He & _).
      pose proof (found_counts_positive _ C) as Hf.
      rewrite Forall_forall in Hf. specialize (Hf e He).
      unfold found_count_refused. apply orb_false_iff. split.
      - apply Z.leb_gt. lia.
      - apply negb_false_iff, int4_spec. lia. }
    destruct (ledger_step_repeat env u d w e E Hpos) as (-> & _).
    reflexivity.
  - intros _. rewrite (ledger_step_first env u d w (select_user_collection_unique u d _ C E)).
    reflexivity.
Qed.

(** X9.  The ledger counts the finds.  On a database that meets the
    constraints, after a run of spins by one user, all on the same word
    that the catalog lookup finds, and as long as the count stays within
    the integer column (at most 2147483647 at the end of the run), the
    user's [found_count] for the word has grown by the number of spins
    (from 0 when there was no entry). *)
Theorem found_count_counts_spins env authHeader u wd d spins :
  forall w,
    constraints (database w) ->
    authenticated env (mkRequest "POST" (Some authHeader) None) u ->
    wd <> "" ->
    Forall (fun s => spin_word s = wd /\ spin_type s <> "") spins ->
    select_divine_word wd (database w) = Some d ->
    found_count_of u d (database w) + Z.of_nat (List.length spins)
    <= 2147483647 ->
    found_count_of u d
      (database (snd (serve_all env (map (spin_request authHeader) spins) w)))
    = found_count_of u d (database w) + Z.of_nat (List.length spins).
Proof.
  induction spins as [|s spins IH]; intros w C Ha Hwd Hall Hd Hmax.
  - simpl. lia.
  - change (map (spin_request authHeader) (s :: spins))
      with (spin_request authHeader s :: map (spin_request authHeader) spins).
    change (List.length (s :: spins)) with (S (List.length spins)) in Hmax.
    rewrite serve_all_cons. simpl snd.
    inversion Hall as [|? ? (Hs & Hty) Hrest]; subst.
    assert (Has : authenticated env (spin_request authHeader s) u) by exact Ha.
    set (w1 := snd (track_oracle_result env (spin_request authHeader s) w)).
    assert (C1 : constraints (database w1))
      by (apply track_oracle_result_constraints; exact C).
    assert (Hd1 : select_divine_word (spin_word s) (database w1) = Some d).
    { rewrite (select_divine_word_ext _ _ (database w)); [exact Hd|].
      apply (track_known_word_tables env (spin_request authHeader s) u w _
               (spin_type s) (spin_word s) d Has eq_refl
               (conj eq_refl Hty) (conj eq_refl Hwd) Hd). }
    assert (Hstep : found_count_of u d (database w1)
                    = found_count_of u d (database w) + 1).
    { apply (found_count_step env (spin_request authHeader s) u w _
               (spin_type s) (spin_word s) d C Has eq_refl
               (conj eq_refl Hty) (conj eq_refl Hwd) Hd). lia. }
    rewrite (IH w1 C1 Ha Hwd Hrest Hd1) by lia.
    rewrite Hstep.
    change (List.length (s :: spins)) with (S (List.length spins)). lia.
Qed.

Lemma found_count_counts_spins_witness :
  found_count_of 7 1
    (database (snd (serve_all sample_env
                      (map (spin_request "Bearer alice-jwt")
                           [mkSpin "DIVINE" "wanko" 87; mkSpin "VOID" "wanko" 3;
                            mkSpin "LEGEND" "wanko" 5])
                      busy_world)))
  = found_count_of 7 1 (database busy_world) + 3.
Proof.
  apply (found_count_counts_spins sample_env "Bearer alice-jwt" 7%N "wanko" 1%N
           [mkSpin "DIVINE" "wanko" 87; mkSpin "VOID" "wanko" 3;
            mkSpin "LEGEND" "wanko" 5] busy_world).
  - exact busy_db_constraints.
  - repeat split; reflexivity.
  - discriminate.
  - repeat constructor; discriminate.
  - reflexivity.
  - vm_compute. discriminate.
Defined.

(** ** The tier counters and the best score *)

(** X10.  The tier counters count the spins of their tier.  A user without
    a statistics row sends N >= 1 spins, each answered 200, with scores
    within the integer column and points that add up to no more than the
    column takes: the row then has [divine_count] equal to the number of
    spins of type DIVINE and [reality_count] equal to the number of spins
    of type REALITY. *)
Theorem tier_counters_after_spins env authHeader u w s spins :
  authenticated env (mkRequest "POST" (Some authHeader) None) u ->
  filter (statistics_of u) (user_statistics (database w)) = [] ->
  Forall (fun s' => int4 (spin_score s') = true) (s :: spins) ->
  sum_points (s :: spins) <= 2147483647 ->
  Forall (fun r => status r = 200)
         (fst (serve_all env (map (spin_request authHeader) (s :: spins)) w)) ->
  exists st,
    select_user_statistics u
      (database (snd (serve_all env (map (spin_request authHeader) (s :: spins)) w)))
    = Some st /\
    UserStatistics.divine_count st = count_type "DIVINE" (s :: spins) /\
    UserStatistics.reality_count st = count_type "REALITY" (s :: spins).
Proof.
  intros Ha Hnone Hscores Hmax Hall.
  destruct (spins_from_no_row env authHeader u w s spins Ha Hnone Hscores
              Hmax Hall) as (st & Hsel & _ & _ & Hd & Hr & _).
  exists st. repeat split; assumption.
Qed.

Lemma tier_counters_after_spins_witness :
  exists st,
    select_user_statistics 7
      (database (snd (serve_all sample_env
                        (map (spin_request "Bearer alice-jwt")
                             (mkSpin "DIVINE" "wanko" 87 :: later_spins))
                        fresh_world)))
    = Some st /\
    UserStatistics.divine_count st = 1 /\
    UserStatistics.reality_count st = 1.
Proof.
  apply (tier_counters_after_spins sample_env "Bearer alice-jwt" 7%N fresh_world
           (mkSpin "DIVINE" "wanko" 87) later_spins).
  - repeat split; reflexivity.
  - reflexivity.
  - repeat constructor.
  - vm_compute. discriminate.
  - vm_compute. repeat constructor.
Defined.

(** X11.  The best score of a row that exists.  When a spin of a user who
    has a statistics row is answered 200 and its update fits the integer
    columns, the new [highest_score] is the greater of the old one (0
    when the column is NULL) and the spin's score; when the body has no
    [score], the column becomes NULL. *)
Theorem best_score_update env req u w b ty st :
  authenticated env req u ->
  json req = Some b ->
  type b = Some ty ->
  select_user_statistics u (database w) = Some st ->
  update_fits st ty (score_value (score b)) = true ->
  status (fst (track_oracle_result env req w)) = 200 ->
  exists st',
    select_user_statistics u (database (snd (track_oracle_result env req w)))
    = Some st' /\
    UserStatistics.highest_score st'
    = match score b with
      | Some z =>
          Some (Z.max (match UserStatistics.highest_score st with
                       | Some h => h
                       | None => 0
                       end) z)
      | None => None
      end.
Proof.
  intros Ha Hb Hty Hst Hfit H200.
  destruct (recorded_spin env req u w b Ha Hb H200)
    as (ty' & wd & w1 & (Ht & _) & _ & Hstats & _ & ->).
  assert (ty' = ty) by congruence. subst ty'.
  rewrite <- (select_user_statistics_ext u _ _ Hstats) in Hst.
  destruct (statistics_step_existing env u ty (score_value (score b)) w1 st
              Hst Hfit)
    as (st' & Hsel & _ & _ & _ & _ & H5).
  exists st'. split; [exact Hsel|]. rewrite H5.
  destruct (score b) as [z|], (UserStatistics.highest_score st) as [h|];
    reflexivity.
Qed.

Lemma best_score_update_witness :
  exists st',
    select_user_statistics 7
      (database (snd (track_oracle_result sample_env
                        (post (Some "VOID") (Some "neko") None) busy_world)))
    = Some st' /\
    UserStatistics.highest_score st' = None.
Proof.
  apply (best_score_update sample_env (post (Some "VOID") (Some "neko") None)
           7%N busy_world (mkTrackResultRequest (Some "VOID") (Some "neko") None)
           "VOID"
           (UserStatistics.mk 13 7 1 5 0 1 0 (Some 40) (Some 700) 700 700)).
  - repeat split; reflexivity.
  - reflexivity.
  - reflexivity.
  - reflexivity.
  - reflexivity.
  - reflexivity.
Defined.

Lemma points_positive ty : 0 < points ty.
Proof.
  unfold points.
  destruct (ty =? "DIVINE")%string; [lia|].
  destruct (ty =? "REALITY")%string; lia.
Qed.

Lemma totals_of_rows u db1 db2 :
  statistics_rows_of u db1 = statistics_rows_of u db2 ->
  total_spins_of u db1 = total_spins_of u db2 /\
  total_points_of u db1 = total_points_of u db2.
Proof.
  unfold total_spins_of, total_points_of, select_user_statistics,
    statistics_rows_of.
  intros ->. split; reflexivity.
Qed.

(** The statistics step, accepted or refused, takes no total down. *)
Lemma statistics_step_grows env u ty sc w :
  unique_statistics (database w) ->
  total_spins_of u (database w)
  <= total_spins_of u (database (snd (record_statistics env u ty sc w))) /\
  total_points_of u (database w)
  <= total_points_of u (database (snd (record_statistics env u ty sc w))).
Proof.
  intros Hu.
  destruct (spin_fits u ty sc (database w)) eqn:Hfit.
  - destruct (statistics_step_totals env u ty sc w Hu Hfit) as (-> & ->).
    pose proof (points_positive ty). split; lia.
  - rewrite (statistics_step_refused env u ty sc w Hfit).
    split; apply Z.le_refl.
Qed.

Lemma track_totals env u req w :
  constraints (database w) ->
  total_spins_of u (database w)
  <= total_spins_of u (database (snd (track env u req w))) /\
  total_points_of u (database w)
  <= total_points_of u (database (snd (track env u req w))).
Proof.
  intros C.
  destruct (track_cases env u req w)
    as [(_ & ->) | [(b & _ & _ & ->) | [(b & ty & wd & _ & _ & _ & _ & _ & ->)
       | [(b & wd & _ & _ & _ & _ & ->) | (b & ty & wd & d & _ & _ & _ & _ & ->)]]]];
    simpl; try (split; apply Z.le_refl).
  - apply (statistics_step_grows env u "VOID" (score_value (score b))
             (logged (divine_words_select_word wd) w) (statistics_unique _ C)).
  - set (w1 := snd (record_collection env u d
                      (logged (divine_words_select_word wd) w))).
    assert (C1 : constraints (database w1))
      by (apply record_collection_constraints; exact C).
    assert (Hrows : statistics_rows_of u (database w1)
                    = statistics_rows_of u (database w)).
    { unfold statistics_rows_of, w1.
      rewrite (proj1 (record_collection_frame env u d _)). reflexivity. }
    destruct (totals_of_rows u _ _ Hrows) as (Hs & Hp).
    simpl database at 1 3. rewrite <- Hs, <- Hp.
    apply (statistics_step_grows env u ty (score_value (score b)) w1
             (statistics_unique _ C1)).
Qed.

(** X12.  No request makes a running total smaller.  On a database that
    meets the constraints, [total_spins] and [total_points] of every
    user are, after any request to the recorder, at least what they
    were. *)
Theorem totals_never_decrease env req w u' :
  constraints (database w) ->
  total_spins_of u' (database w)
  <= total_spins_of u' (database (snd (track_oracle_result env req w))) /\
  total_points_of u' (database w)
  <= total_points_of u' (database (snd (track_oracle_result env req w))).
Proof.
  intros C.
  destruct (method req =? "OPTIONS")%string eqn:Hm.
  { unfold track_oracle_result. rewrite Hm. simpl. split; apply Z.le_refl. }
  destruct (track_oracle_result_cases env req w Hm)
    as [(code & msg & w1 & -> & _ & Hdb & _) | (u & Ha & ->)].
  { simpl. rewrite Hdb. split; apply Z.le_refl. }
  destruct (N.eq_dec u' u) as [-> | Hu].
  - apply (track_totals env u req (logged (auth_getUser (token_of req)) w) C).
  - destruct (track_others env u req (logged (auth_getUser (token_of req)) w)
                u' C Hu) as (_ & Hrows).
    destruct (totals_of_rows u' _ _ Hrows) as (-> & ->).
    split; apply Z.le_refl.
Qed.

Lemma totals_never_decrease_witness :
  total_spins_of 7 (database busy_world)
  <= total_spins_of 7
       (database (snd (track_oracle_result sample_env
                         (post (Some "REALITY") (Some "ringo") (Some 2))
                         busy_world))) /\
  total_points_of 7 (database busy_world)
  <= total_points_of 7
       (database (snd (track_oracle_result sample_env
                         (post (Some "REALITY") (Some "ringo") (Some 2))
                         busy_world))).
Proof.
  apply (totals_never_decrease sample_env
           (post (Some "REALITY") (Some "ringo") (Some 2)) busy_world 7%N).
  exact busy_db_constraints.
Defined.

(** ** The profile reader *)

Lemma insert_newest_first_perm c l :
  Permutation (insert_newest_first c l) (c :: l).
Proof.
  induction l as [|x l IH]; simpl.
  - apply Permutation_refl.
  - destruct (UserCollection.updated_at x <=? UserCollection.updated_at c).
    + apply Permutation_refl.
    + apply perm_trans with (x :: c :: l).
      * apply perm_skip. exact IH.
      * apply perm_swap.
Qed.

Lemma order_newest_first_perm l : Permutation (order_newest_first l) l.
Proof.
  induction l as [|c l IH]; simpl.
  - apply Permutation_refl.
  - apply perm_trans with (c :: order_newest_first l).
    + apply insert_newest_first_perm.
    + apply perm_skip. exact IH.
Qed.

Lemma insert_newest_first_sorted c l :
  Sorted not_older l -> Sorted not_older (insert_newest_first c l).
Proof.
  induction l as [|x l IH]; simpl; intros H.
  - repeat constructor.
  - destruct (Z.leb_spec (UserCollection.updated_at x)
                         (UserCollection.updated_at c)) as [Hle | Hgt].
    + constructor; [exact H|]. constructor. exact Hle.
    + inversion H as [|? ? Hs Hh]; subst.
      constructor; [apply IH; exact Hs|].
      destruct l as [|y l]; simpl.
      * constructor. unfold not_older. lia.
      * destruct (UserCollection.updated_at y <=? UserCollection.updated_at c).
        -- constructor. unfold not_older. lia.
        -- inversion Hh; subst. constructor. assumption.
Qed.

Lemma order_newest_first_sorted l : Sorted not_older (order_newest_first l).
Proof.
  induction l as [|c l IH]; simpl.
  - constructor.
  - apply insert_newest_first_sorted. exact IH.
Qed.

Lemma select_collections_joined_items u db :
  map item (select_collections_joined u db)
  = order_newest_first (ledger_of u db).
Proof.
  unfold select_collections_joined. rewrite map_map. simpl. apply map_id.
Qed.

Lemma select_collections_joined_length u db :
  List.length (select_collections_joined u db) = List.length (ledger_of u db).
Proof.
  rewrite <- (length_map item), select_collections_joined_items.
  apply Permutation_length, order_newest_first_perm.
Qed.

Lemma find_by_id (k : uuid) (words : list DivineWord.t) :
  (exists d, In d words /\ DivineWord.id d = k) ->
  exists d, find (fun d => (DivineWord.id d =? k)%N) words = Some d /\
            In d words.
Proof.
  intros (d & Hd & E).
  destruct (find (fun d => (DivineWord.id d =? k)%N) words) as [d'|] eqn:F.
  - exists d'. split; [reflexivity|]. apply (find_some _ _ F).
  - exfalso. pose proof (find_none _ _ F d Hd) as H. simpl in H.
    rewrite E, N.eqb_refl in H. discriminate.
Qed.

(** Under the foreign key every item of the joined select carries its
    catalog word. *)
Lemma joined_items_words u db :
  foreign_keys db ->
  Forall (fun i => exists d, item_divine_words i = Some d /\ In d (divine_words db))
         (select_collections_joined u db).
Proof.
  intros FK. unfold select_collections_joined.
  apply Forall_map. apply Forall_forall. intros c Hc.
  apply (Permutation_in _ (order_newest_first_perm _)) in Hc.
  apply filter_In in Hc. destruct Hc as (Hc & _).
  unfold foreign_keys in FK. rewrite Forall_forall in FK.
  destruct (find_by_id _ _ (FK c Hc)) as (d & F & Hd).
  exists d. simpl. split; assumption.
Qed.

Lemma filter_rarity_total r items :
  Forall (fun i => exists d, item_divine_words i = Some d) items ->
  exists k, filter_rarity r items = Some k.
Proof.
  induction 1 as [|i items (d & Hd) _ (k & IH)]; simpl.
  - exists []. reflexivity.
  - rewrite Hd, IH. eexists. reflexivity.
Qed.

Lemma filter_rarity_split words items ssr sr :
  Forall (fun d => DivineWord.rarity d = "SSR" \/ DivineWord.rarity d = "SR") words ->
  Forall (fun i => exists d, item_divine_words i = Some d /\ In d words) items ->
  filter_rarity "SSR" items = Some ssr ->
  filter_rarity "SR" items = Some sr ->
  (List.length ssr + List.length sr = List.length items)%nat.
Proof.
  intros Hr Hitems. revert ssr sr.
  induction Hitems as [|i items (d & Hd & Hin) _ IH]; simpl; intros ssr sr H1 H2.
  - injection H1 as <-. injection H2 as <-. reflexivity.
  - rewrite Hd in H1, H2.
    destruct (filter_rarity "SSR" items) as [k1|]; [|discriminate].
    destruct (filter_rarity "SR" items) as [k2|]; [|discriminate].
    specialize (IH k1 k2 eq_refl eq_refl).
    rewrite Forall_forall in Hr.
    destruct (Hr d Hin) as [E | E]; rewrite E in H1, H2; simpl in H1, H2;
      injection H1 as <-; injection H2 as <-; simpl; lia.
Qed.

(** X13.  What the reader reports.  For a request that passed the
    credential gate, on a database that meets the foreign key and the
    CHECK on [rarity], the answer is 200; it shows the user's statistics
    row, or the defaults when there is none; [collections.total] and
    [completion.collected] are the number of the user's ledger rows, the
    SSR and SR counts add up to it, and [completion.total] is the size of
    the catalog. *)
Theorem profile_report env req u w :
  authenticated env req u ->
  foreign_keys (database w) ->
  rarity_checked (database w) ->
  exists p,
    fst (get_profile env req w) = mkResponse 200 json_headers (profile_body p) /\
    profile_stats p
    = match select_user_statistics u (database w) with
      | Some r => stats_row r
      | None => stats_defaults
      end /\
    collections_total p = Z.of_nat (List.length (ledger_of u (database w))) /\
    collections_ssr p + collections_sr p = collections_total p /\
    collected (completion p) = collections_total p /\
    total (completion p) = Z.of_nat (List.length (divine_words (database w))).
Proof.
  intros Ha FK RC.
  rewrite (get_profile_authenticated env req u w Ha).
  unfold profile, bind, query, ret. simpl.
  pose proof (joined_items_words u (database w) FK) as Hitems.
  assert (Hsome : Forall (fun i => exists d, item_divine_words i = Some d)
                         (select_collections_joined u (database w))).
  { revert Hitems. apply Forall_impl. intros i (d & Hd & _). exists d. exact Hd. }
  destruct (filter_rarity_total "SSR" _ Hsome) as (ssr & Hssr).
  destruct (filter_rarity_total "SR" _ Hsome) as (sr & Hsr).
  rewrite Hssr, Hsr. simpl. eexists. split; [reflexivity|]. simpl.
  pose proof (filter_rarity_split _ _ ssr sr RC Hitems Hssr Hsr) as Hsum.
  rewrite select_collections_joined_length in *.
  repeat split; try reflexivity. lia.
Qed.

Lemma busy_db_foreign_keys : foreign_keys busy_db.
Proof.
  unfold foreign_keys. simpl. repeat constructor.
  - exists (DivineWord.mk 1 "wanko" "SSR"). simpl. auto.
  - exists (DivineWord.mk 2 "ringo" "SR"). simpl. auto.
Qed.

Lemma busy_db_rarity_checked : rarity_checked busy_db.
Proof.
  unfold rarity_checked. simpl.
  repeat (apply Forall_cons; [simpl; auto|]). apply Forall_nil.
Qed.

Lemma profile_report_witness :
  exists p,
    fst (get_profile sample_env profile_request busy_world)
    = mkResponse 200 json_headers (profile_body p) /\
    profile_stats p
    = stats_row (UserStatistics.mk 13 7 1 5 0 1 0 (Some 40) (Some 700) 700 700) /\
    collections_total p = 1 /\
    collections_ssr p + collections_sr p = collections_total p /\
    collected (completion p) = collections_total p /\
    total (completion p) = 2.
Proof.
  apply (profile_report sample_env profile_request 7%N busy_world).
  - repeat split; reflexivity.
  - exact busy_db_foreign_keys.
  - exact busy_db_rarity_checked.
Defined.

(** X14.  The items of a profile.  For a request that passed the
    credential gate, on a database that meets the foreign key, the items
    of the answer are the user's own ledger rows, each exactly once, and
    no row stands before a more recently updated one. *)
Theorem profile_items_newest_first env req u w :
  authenticated env req u ->
  foreign_keys (database w) ->
  exists p,
    profile_of (fst (get_profile env req w)) = Some p /\
    Permutation (map item (collections_items p)) (ledger_of u (database w)) /\
    Sorted not_older (map item (collections_items p)).
Proof.
  intros Ha FK.
  rewrite (get_profile_authenticated env req u w Ha).
  unfold profile, bind, query, ret. simpl.
  pose proof (joined_items_words u (database w) FK) as Hitems.
  assert (Hsome : Forall (fun i => exists d, item_divine_words i = Some d)
                         (select_collections_joined u (database w))).
  { revert Hitems. apply Forall_impl. intros i (d & Hd & _). exists d. exact Hd. }
  destruct (filter_rarity_total "SSR" _ Hsome) as (ssr & Hssr).
  destruct (filter_rarity_total "SR" _ Hsome) as (sr & Hsr).
  rewrite Hssr, Hsr. simpl. eexists. split; [reflexivity|]. simpl.
  rewrite select_collections_joined_items. split.
  - apply order_newest_first_perm.
  - apply order_newest_first_sorted.
Qed.

Lemma profile_items_newest_first_witness :
  exists p,
    profile_of (fst (get_profile sample_env profile_request busy_world)) = Some p /\
    Permutation (map item (collections_items p)) (ledger_of 7 (database busy_world)) /\
    Sorted not_older (map item (collections_items p)).
Proof.
  apply (profile_items_newest_first sample_env profile_request 7%N busy_world).
  - repeat split; reflexivity.
  - exact busy_db_foreign_keys.
Defined.

(** ** References into the catalog *)

Lemma select_divine_word_in wd db d :
  select_divine_word wd db = Some d ->
  exists r, In r (divine_words db) /\ DivineWord.id r = d.
Proof.
  unfold select_divine_word. intros H.
  destruct (maybeSingle (filter (word_is wd) (divine_words db))) as [r|] eqn:E;
    [|discriminate].
  injection H as <-. exists r. split; [|reflexivity].
  apply (maybeSingle_In _ _ _ E).
Qed.

Lemma record_collection_foreign_keys env u d w :
  foreign_keys (database w) ->
  (exists r, In r (divine_words (database w)) /\ DivineWord.id r = d) ->
  foreign_keys (database (snd (record_collection env u d w))).
Proof.
  intros FK Hd. unfold foreign_keys in *.
  destruct (select_user_collection u d (database w)) as [e|] eqn:E.
  - destruct (record_collection_update env u d w e E) as (p & -> & _).
    simpl. unfold update_user_collection.
    destruct (found_count_refused (cu_found_count p)); [exact FK|]. simpl.
    apply Forall_map. revert FK. apply Forall_impl. intros c Hc.
    destruct (UserCollection.id c =? UserCollection.id e)%N; exact Hc.
  - rewrite (record_collection_insert env u d w E). simpl.
    unfold insert_user_collection.
    destruct (_ || _); [exact FK|]. simpl.
    apply Forall_app. split; [exact FK|].
    constructor; [exact Hd | constructor].
Qed.

Lemma track_references env u req w :
  foreign_keys (database w) ->
  foreign_keys (database (snd (track env u req w))).
Proof.
  intros FK.
  destruct (track_cases env u req w)
    as [(_ & ->) | [(b & _ & _ & ->) | [(b & ty & wd & _ & _ & _ & _ & _ & ->)
       | [(b & wd & _ & _ & _ & _ & ->) | (b & ty & wd & d & _ & _ & _ & Hd & ->)]]]];
    simpl; try exact FK.
  - unfold foreign_keys.
    destruct (record_statistics_frame env u "VOID" (score_value (score b))
                (logged (divine_words_select_word wd) w)) as (-> & ->).
    exact FK.
  - unfold foreign_keys.
    destruct (record_statistics_frame env u ty (score_value (score b))
                (snd (record_collection env u d
                        (logged (divine_words_select_word wd) w))))
      as (-> & ->).
    apply (record_collection_foreign_keys env u d
             (logged (divine_words_select_word wd) w) FK).
    apply (select_divine_word_in wd). exact Hd.
Qed.

(** X15.  The recorder leaves no dangling reference.  If every ledger row
    points to a catalog word before a request, whatever the request,
    every ledger row points to a catalog word after it. *)
Theorem references_kept env req w :
  foreign_keys (database w) ->
  foreign_keys (database (snd (track_oracle_result env req w))).
Proof.
  intros FK.
  destruct (method req =? "OPTIONS")%string eqn:Hm.
  { unfold track_oracle_result. rewrite Hm. exact FK. }
  destruct (track_oracle_result_cases env req w Hm)
    as [(code & msg & w1 & -> & _ & Hdb & _) | (u & _ & ->)].
  - simpl. rewrite Hdb. exact FK.
  - apply track_references. exact FK.
Qed.

Lemma references_kept_witness :
  foreign_keys
    (database (snd (track_oracle_result sample_env
                      (post (Some "DIVINE") (Some "wanko") (Some 99))
                      busy_world))).
Proof.
  apply (references_kept sample_env
           (post (Some "DIVINE") (Some "wanko") (Some 99)) busy_world).
  exact busy_db_foreign_keys.
Defined.

(** ** A spin, then the profile *)

Lemma get_profile_completion env req u w :
  authenticated env req u ->
  foreign_keys (database w) ->
  completion_of (fst (get_profile env req w))
  = Some (mkCompletion
            (completionPercent
               (Z.of_nat (List.length (ledger_of u (database w))))
               (Z.of_nat (List.length (divine_words (database w)))))
            (Z.of_nat (List.length (ledger_of u (database w))))
            (Z.of_nat (List.length (divine_words (database w))))).
Proof.
  intros Ha FK.
  rewrite (get_profile_authenticated env req u w Ha).
  unfold profile, bind, query, ret. simpl.
  pose proof (joined_items_words u (database w) FK) as Hitems.
  assert (Hsome : Forall (fun i => exists d, item_divine_words i = Some d)
                         (select_collections_joined u (database w))).
  { revert Hitems. apply Forall_impl. intros i (d & Hd & _). exists d. exact Hd. }
  destruct (filter_rarity_total "SSR" _ Hsome) as (ssr & ->).
  destruct (filter_rarity_total "SR" _ Hsome) as (sr & ->).
  unfold completion_of. simpl.
  rewrite select_collections_joined_length. reflexivity.
Qed.

Lemma ledger_length_after_step env u d w :
  constraints (database w) ->
  List.length (ledger_of u (database (snd (record_collection env u d w))))
  = (List.length (ledger_of u (database w))
     + match select_user_collection u d (database w) with
       | Some _ => 0
       | None => 1
       end)%nat.
Proof.
  intros C. unfold ledger_of.
  destruct (select_user_collection u d (database w)) as [e|] eqn:E.
  - destruct (record_collection_update env u d w e E) as (p & -> & _).
    simpl. unfold update_user_collection.
    destruct (found_count_refused (cu_found_count p)); [lia|]. simpl.
    rewrite filter_map_stable, length_map; [lia|].
    intros x. destruct (UserCollection.id x =? UserCollection.id e)%N;
      reflexivity.
  - rewrite (record_collection_insert env u d w E). simpl.
    unfold insert_user_collection. simpl.
    rewrite (existsb_filter_nil _ _ (select_user_collection_unique u d _ C E)).
    simpl. rewrite filter_app, length_app. simpl.
    rewrite N.eqb_refl. reflexivity.
Qed.

(** X16.  A spin, then the profile.  On a database that meets the
    constraints and the foreign key, after an accepted spin on a word the
    catalog lookup finds, the user's profile shows one more collected
    word when the user had no entry for the word and the same number
    when the user had one; the catalog total it shows is unchanged. *)
Theorem profile_after_spin env req preq u w b ty wd d :
  constraints (database w) ->
  foreign_keys (database w) ->
  authenticated env req u ->
  authenticated env preq u ->
  json req = Some b ->
  present (type b) ty ->
  present (word b) wd ->
  select_divine_word wd (database w) = Some d ->
  exists c c',
    completion_of (fst (get_profile env preq w)) = Some c /\
    completion_of
      (fst (get_profile env preq (snd (track_oracle_result env req w))))
    = Some c' /\
    total c' = total c /\
    collected c'
    = collected c + match select_user_collection u d (database w) with
                    | Some _ => 0
                    | None => 1
                    end.
Proof.
  intros C FK Ha Hpa Hb Ht Hw Hd.
  assert (FK' : foreign_keys (database (snd (track_oracle_result env req w)))).
  { rewrite (track_oracle_result_authenticated env req u w Ha).
    apply track_references. exact FK. }
  rewrite (get_profile_completion env preq u w Hpa FK).
  rewrite (get_profile_completion env preq u _ Hpa FK').
  destruct (track_known_word_tables env req u w b ty wd d Ha Hb Ht Hw Hd)
    as (Hl & Hc).
  do 2 eexists. split; [reflexivity|]. split; [reflexivity|]. simpl.
  split; [rewrite Hc; reflexivity|].
  unfold ledger_of at 1. rewrite Hl.
  fold (ledger_of u (database (snd (record_collection env u d w)))).
  rewrite (ledger_length_after_step env u d w C).
  destruct (select_user_collection u d (database w)); lia.
Qed.

Lemma profile_after_spin_witness :
  exists c c',
    completion_of (fst (get_profile sample_env profile_request busy_world))
    = Some c /\
    completion_of
      (fst (get_profile sample_env profile_request
              (snd (track_oracle_result sample_env
                      (post (Some "DIVINE") (Some "wanko") (Some 99))
                      busy_world))))
    = Some c' /\
    total c' = total c /\
    collected c' = collected c + 1.
Proof.
  apply (profile_after_spin sample_env
           (post (Some "DIVINE") (Some "wanko") (Some 99)) profile_request
           7%N busy_world
           (mkTrackResultRequest (Some "DIVINE") (Some "wanko") (Some 99))
           "DIVINE" "wanko" 1%N).
  - exact busy_db_constraints.
  - exact busy_db_foreign_keys.
  - repeat split; reflexivity.
  - repeat split; reflexivity.
  - reflexivity.
  - split; [reflexivity | discriminate].
  - split; [reflexivity | discriminate].
  - reflexivity.
Defined.

(** ** The token *)

Lemma prefix_append p t : String.prefix p (p ++ t)%string = true.
Proof.
  induction p as [|c p IH]; simpl.
  - destruct t; reflexivity.
  - destruct (Ascii.ascii_dec c c) as [_ | N]; [exact IH | contradiction N; reflexivity].
Qed.

Lemma substring_all t : substring 0 (String.length t) t = t.
Proof.
  induction t as [|c t IH]; simpl; [reflexivity | rewrite IH; reflexivity].
Qed.

Lemma substring_append p t n :
  substring (String.length p) n (p ++ t)%string = substring 0 n t.
Proof.
  induction p as [|c p IH]; simpl; [reflexivity | exact IH].
Qed.

Lemma length_append p t :
  String.length (p ++ t)%string = (String.length p + String.length t)%nat.
Proof.
  induction p as [|c p IH]; simpl; [reflexivity | rewrite IH; reflexivity].
Qed.

Lemma replace_prefix p r t : replace p r (p ++ t)%string = (r ++ t)%string.
Proof.
  destruct p as [|c p].
  - simpl. destruct t; simpl; rewrite ?Nat.sub_0_r, ?substring_all; reflexivity.
  - change (replace (String c p) r (String c p ++ t)%string)
      with (if String.prefix (String c p) (String c p ++ t)%string
            then (r ++ substring (String.length (String c p))
                         (String.length (String c p ++ t)%string
                          - String.length (String c p))
                         (String c p ++ t)%string)%string
            else String c (replace (String c p) r (p ++ t)%string)).
    rewrite prefix_append, substring_append, length_append.
    replace (String.length (String c p) + String.length t
             - String.length (String c p))%nat
      with (String.length t) by lia.
    rewrite substring_all. reflexivity.
Qed.

Lemma prefix_split p h :
  String.prefix p h = true -> exists b, h = (p ++ b)%string.
Proof.
  revert h. induction p as [|c p IH]; intros h H.
  - exists h. reflexivity.
  - destruct h as [|c' h]; simpl in H; [discriminate|].
    destruct (Ascii.ascii_dec c c') as [<- | _]; [|discriminate].
    destruct (IH h H) as (b & ->). exists b. reflexivity.
Qed.

Lemma replace_absent p r h :
  (forall a b, h <> (a ++ p ++ b)%string) -> replace p r h = h.
Proof.
  induction h as [|c h IH]; intros Habs.
  - destruct p as [|c p]; [|reflexivity].
    exfalso. apply (Habs "" ""). reflexivity.
  - change (replace p r (String c h))
      with (if String.prefix p (String c h)
            then (r ++ substring (String.length p)
                         (String.length (String c h) - String.length p)
                         (String c h))%string
            else String c (replace p r h)).
    destruct (String.prefix p (String c h)) eqn:Hp.
    + exfalso. destruct (prefix_split _ _ Hp) as (b & E).
      apply (Habs "" b). exact E.
    + f_equal. apply IH. intros a b E. apply (Habs (String c a) b).
      rewrite E. reflexivity.
Qed.

(** X17.  The token handed to the identity provider.  A header of the form
    [Bearer t] yields [t]; a header in which the text "Bearer " does not
    occur is handed over whole. *)
Theorem token_of_header m j t h :
  token_of (mkRequest m (Some ("Bearer " ++ t)%string) j) = t /\
  ((forall a b, h <> (a ++ "Bearer " ++ b)%string) ->
   token_of (mkRequest m (Some h) j) = h).
Proof.
  unfold token_of. simpl authorization. split.
  - apply (replace_prefix "Bearer " "" t).
  - apply replace_absent.
Qed.

Lemma token_of_header_witness :
  token_of (mkRequest "POST" (Some ("Bearer " ++ "alice-jwt")%string) None)
  = "alice-jwt" /\
  token_of (mkRequest "POST" (Some "jwt") None) = "jwt".
Proof.
  destruct (token_of_header "POST" None "alice-jwt" "jwt") as (H1 & H2).
  split; [exact H1|]. apply H2.
  intros a b E.
  assert (L : String.length "jwt"
              = String.length (a ++ "Bearer " ++ b)%string) by (rewrite <- E; reflexivity).
  rewrite !length_append in L. simpl in L. lia.
Defined.

(** ** The percentage, catalog by catalog *)

Lemma percent_within_one_upto_spec n c t :
  percent_within_one_upto n = true ->
  (1 <= t <= n)%nat -> (c <= t)%nat ->
  percent_within_one (Z.of_nat c) (Z.of_nat t) = true.
Proof.
  unfold percent_within_one_upto. intros H Ht Hc.
  rewrite forallb_forall in H.
  assert (Hin : In t (seq 1 n)) by (apply in_seq; lia).
  specialize (H t Hin). cbv beta in H.
  rewrite forallb_forall in H. apply (H c). apply in_seq. lia.
Qed.

Lemma percent_within_one_upto_100 : percent_within_one_upto 100 = true.
Proof.
  vm_compute. reflexivity.
Qed.

(** X18.  How far the reported percentage can be from the floor.  For
    every catalog of 1 to 100 words and every number of collected words
    up to the catalog's size, the reader reports a whole number between 0
    and 100 that is [floor(100 * collected / total)] or one below it. *)
Theorem percent_off_by_at_most_one collected total :
  1 <= total <= 100 ->
  0 <= collected <= total ->
  exists p,
    completionPercent collected total = Some p /\
    100 * collected / total - 1 <= p <= 100 * collected / total /\
    0 <= p <= 100.
Proof.
  intros Ht Hc.
  pose proof (percent_within_one_upto_spec 100 (Z.to_nat collected)
                (Z.to_nat total) percent_within_one_upto_100
                ltac:(lia) ltac:(lia)) as Hcell.
  rewrite !Z2Nat.id in Hcell by lia.
  unfold percent_within_one in Hcell.
  destruct (completionPercent collected total) as [p|]; [|discriminate].
  exists p. split; [reflexivity|].
  apply andb_prop in Hcell. destruct Hcell as (Hcell & H4).
  apply andb_prop in Hcell. destruct Hcell as (Hcell & H3).
  apply andb_prop in Hcell. destruct Hcell as (H1 & H2).
  apply Z.leb_le in H1, H2, H3, H4. lia.
Qed.

Lemma percent_off_by_at_most_one_witness :
  exists p,
    completionPercent 29 50 = Some p /\
    100 * 29 / 50 - 1 <= p <= 100 * 29 / 50 /\
    0 <= p <= 100.
Proof.
  apply (percent_off_by_at_most_one 29 50); lia.
Defined.

Lemma percent_exact_upto_spec n c t :
  percent_exact_upto n = true ->
  (1 <= t <= n)%nat -> (c <= t)%nat ->
  percent_exact (Z.of_nat c) (Z.of_nat t) = true.
Proof.
  unfold percent_exact_upto. intros H Ht Hc.
  rewrite forallb_forall in H.
  assert (Hin : In t (seq 1 n)) by (apply in_seq; lia).
  specialize (H t Hin). cbv beta in H.
  rewrite forallb_forall in H. apply (H c). apply in_seq. lia.
Qed.

Lemma percent_exact_upto_49 : percent_exact_upto 49 = true.
Proof.
  vm_compute. reflexivity.
Qed.

(** X19.  Small catalogs.  For every catalog of fewer than 50 words, the
    seeded one of 17 among them, and every number of collected words up
    to the catalog's size, the reader reports exactly
    [floor(100 * collected / total)]. *)
Theorem percent_exact_below_50 collected total :
  1 <= total < 50 ->
  0 <= collected <= total ->
  completionPercent collected total = Some (100 * collected / total).
Proof.
  intros Ht Hc.
  pose proof (percent_exact_upto_spec 49 (Z.to_nat collected) (Z.to_nat total)
                percent_exact_upto_49 ltac:(lia) ltac:(lia)) as Hcell.
  rewrite !Z2Nat.id in Hcell by lia.
  unfold percent_exact in Hcell.
  destruct (completionPercent collected total) as [p|]; [|discriminate].
  apply Z.eqb_eq in Hcell. rewrite Hcell. reflexivity.
Qed.

Lemma percent_exact_below_50_witness :
  completionPercent 5 17 = Some (100 * 5 / 17).
Proof.
  apply (percent_exact_below_50 5 17); lia.
Defined.

(** ** Rejections *)

(** X20.  The three rejections of the credential gate, for both handlers
    and any request other than OPTIONS.  A missing or empty header is
    answered 401 and a missing or empty deployment setting 500, both
    before the identity provider is consulted and with the world left as
    it was; a token the provider does not resolve is answered 401 after
    that one consultation, with no database call. *)
Theorem gate_rejections env req w :
  (method req =? "OPTIONS")%string = false ->
  (falsy (authorization req) = true ->
   track_oracle_result env req w
   = (json_error 401 "Missing authorization header", w) /\
   get_profile env req w
   = (json_error 401 "Missing authorization header", w)) /\
  (falsy (authorization req) = false ->
   falsy (SUPABASE_URL env) || falsy (SUPABASE_SERVICE_ROLE_KEY env) = true ->
   track_oracle_result env req w
   = (json_error 500 "Server configuration error", w) /\
   get_profile env req w
   = (json_error 500 "Server configuration error", w)) /\
  (falsy (authorization req) = false ->
   falsy (SUPABASE_URL env) || falsy (SUPABASE_SERVICE_ROLE_KEY env) = false ->
   getUser env (token_of req) = None ->
   track_oracle_result env req w
   = (json_error 401 "Unauthorized", logged (auth_getUser (token_of req)) w) /\
   get_profile env req w
   = (json_error 401 "Unauthorized", logged (auth_getUser (token_of req)) w)).
Proof.
  intros Hm. unfold track_oracle_result, get_profile. rewrite Hm. unfold bind.
  destruct (authenticate_cases env req w)
    as [(Fh & ->) | [(Fh & Fe & ->) | [(Fh & Fe & Hg & ->)
       | (u & Fh & Fe & Hg & ->)]]];
    (split; [|split]); intros; try congruence; split; reflexivity.
Qed.

Lemma gate_rejections_witness :
  track_oracle_result sample_env empty_header_post fresh_world
  = (json_error 401 "Missing authorization header", fresh_world) /\
  get_profile unconfigured_env profile_request fresh_world
  = (json_error 500 "Server configuration error", fresh_world) /\
  track_oracle_result sample_env stranger_post fresh_world
  = (json_error 401 "Unauthorized",
     logged (auth_getUser "mallory-jwt") fresh_world).
Proof.
  split; [|split].
  - apply (gate_rejections sample_env empty_header_post fresh_world);
      reflexivity.
  - apply (gate_rejections unconfigured_env profile_request fresh_world);
      reflexivity.
  - apply (gate_rejections sample_env stranger_post fresh_world);
      reflexivity.
Defined.

(** X21.  A word the lookup does not find.  For a request that passed the
    credential gate with a non-empty [type] and [word], when the catalog
    lookup returns no row the answer is 200 for type VOID and 404 for
    every other type, REALITY included; the ledger is unchanged either
    way, and on 404 so is the whole database. *)
Theorem unknown_word_answer env req u w b ty wd :
  authenticated env req u ->
  json req = Some b ->
  present (type b) ty ->
  present (word b) wd ->
  select_divine_word wd (database w) = None ->
  status (fst (track_oracle_result env req w))
  = (if (ty =? "VOID")%string then 200 else 404) /\
  user_collections (database (snd (track_oracle_result env req w)))
  = user_collections (database w) /\
  ((ty =? "VOID")%string = false ->
   database (snd (track_oracle_result env req w)) = database w).
Proof.
  intros Ha Hb Ht Hw Hd.
  rewrite (track_oracle_result_authenticated env req u w Ha).
  rewrite (track_unknown_word env u req
             (logged (auth_getUser (token_of req)) w) b ty wd Hb Ht Hw Hd).
  destruct (ty =? "VOID")%string; simpl.
  - split; [reflexivity|]. split; [|discriminate].
    apply (record_statistics_frame env u ty (score_value (score b))
             (logged (divine_words_select_word wd)
                (logged (auth_getUser (token_of req)) w))).
  - repeat split.
Qed.

Lemma unknown_word_answer_witness :
  status (fst (track_oracle_result sample_env
                 (post (Some "REALITY") (Some "neko") (Some 4)) busy_world))
  = 404 /\
  user_collections
    (database (snd (track_oracle_result sample_env
                      (post (Some "REALITY") (Some "neko") (Some 4)) busy_world)))
  = user_collections (database busy_world) /\
  (("REALITY" =? "VOID")%string = false ->
   database (snd (track_oracle_result sample_env
                    (post (Some "REALITY") (Some "neko") (Some 4)) busy_world))
   = database busy_world).
Proof.
  apply (unknown_word_answer sample_env
           (post (Some "REALITY") (Some "neko") (Some 4)) 7%N busy_world
           (mkTrackResultRequest (Some "REALITY") (Some "neko") (Some 4))
           "REALITY" "neko").
  - repeat split; reflexivity.
  - reflexivity.
  - split; [reflexivity | discriminate].
  - split; [reflexivity | discriminate].
  - reflexivity.
Defined.

(** ** One row per user, one entry per word *)

(** X22.  A user who has spun has one statistics row.  On a database
    where [user_id] is unique in the statistics table, after a spin
    answered 200 the user has exactly one statistics row, provided that
    the user had a row already or that the spin's score fits the integer
    column (the insert of a first row with a greater score is refused). *)
Theorem one_statistics_row_after_spin env req u w b :
  unique_statistics (database w) ->
  authenticated env req u ->
  json req = Some b ->
  (select_user_statistics u (database w) = None ->
   int4_property (score_value (score b)) = true) ->
  status (fst (track_oracle_result env req w)) = 200 ->
  exists st,
    statistics_rows_of u (database (snd (track_oracle_result env req w))) = [st].
Proof.
  intros Hu Ha Hb Hfit H200.
  destruct (recorded_spin env req u w b Ha Hb H200)
    as (ty & wd & w1 & _ & _ & Hstats & _ & ->).
  assert (Hu1 : unique_statistics (database w1)).
  { unfold unique_statistics. rewrite Hstats. exact Hu. }
  rewrite <- (select_user_statistics_ext u _ _ Hstats) in Hfit.
  destruct (select_user_statistics u (database w1)) as [st|] eqn:E.
  - destruct (update_fits st ty (score_value (score b))) eqn:Hup.
    + destruct (statistics_step_existing env u ty (score_value (score b)) w1 st
                  E Hup) as (st' & Hsel & _).
      exists st'. apply maybeSingle_Some. exact Hsel.
    + rewrite (statistics_step_refused env u ty (score_value (score b)) w1).
      * exists st. apply maybeSingle_Some. exact E.
      * unfold spin_fits. rewrite E. exact Hup.
  - destruct (statistics_step_first env u ty (score_value (score b)) w1
                (select_user_statistics_unique u _ Hu1 E) (Hfit eq_refl))
      as (st' & Hsel & _).
    exists st'. apply maybeSingle_Some. exact Hsel.
Qed.

Lemma one_statistics_row_after_spin_witness :
  exists st,
    statistics_rows_of 7
      (database (snd (track_oracle_result sample_env
                        (post (Some "VOID") (Some "neko") (Some 12))
                        fresh_world))) = [st].
Proof.
  apply (one_statistics_row_after_spin sample_env
           (post (Some "VOID") (Some "neko") (Some 12)) 7%N fresh_world
           (mkTrackResultRequest (Some "VOID") (Some "neko") (Some 12))).
  - apply NoDup_nil.
  - repeat split; reflexivity.
  - reflexivity.
  - intros _. reflexivity.
  - reflexivity.
Defined.

Lemma record_collection_other_entries env u d w u2 d2 :
  constraints (database w) ->
  (u2, d2) <> (u, d) ->
  filter (collection_of u2 d2)
         (user_collections (database (snd (record_collection env u d w))))
  = filter (collection_of u2 d2) (user_collections (database w)).
Proof.
  intros C Hne.
  destruct (select_user_collection u d (database w)) as [e|] eqn:E.
  - destruct (record_collection_update env u d w e E) as (p & -> & _).
    simpl. unfold update_user_collection.
    destruct (found_count_refused (cu_found_count p)); [reflexivity|]. simpl.
    apply filter_map_fixed.
    + intros x Hx Fx.
      destruct (N.eqb_spec (UserCollection.id x) (UserCollection.id e)) as [Ei|];
        [|reflexivity].
      exfalso. destruct (maybeSingle_In _ _ _ E) as (He & Fe).
      assert (x = e)
        by (apply (NoDup_map_injective UserCollection.id _ x e
                     (collections_primary_key _ C) Hx He Ei)).
      subst x. apply collection_of_key in Fx, Fe. congruence.
    + intros x. destruct (UserCollection.id x =? UserCollection.id e)%N;
        reflexivity.
  - rewrite (record_collection_insert env u d w E). simpl.
    unfold insert_user_collection.
    destruct (_ || _); [reflexivity|]. simpl.
    apply filter_app_one.
    destruct (collection_of u2 d2 _) eqn:F; [|reflexivity].
    exfalso. apply collection_of_key in F. unfold collection_key in F.
    simpl in F. apply Hne. congruence.
Qed.

(** X23.  A spin touches one ledger entry at most.  On a database that
    meets the constraints, a spin of user [u] leaves the user's entry
    for every word other than the one the catalog lookup returned as it
    was (and every entry when the lookup returned none). *)
Theorem other_words_untouched env req u w b wd d' :
  constraints (database w) ->
  authenticated env req u ->
  json req = Some b ->
  word b = Some wd ->
  select_divine_word wd (database w) <> Some d' ->
  select_user_collection u d' (database (snd (track_oracle_result env req w)))
  = select_user_collection u d' (database w).
Proof.
  intros C Ha Hb Hwd Hd'.
  rewrite (track_oracle_result_authenticated env req u w Ha).
  set (w0 := logged (auth_getUser (token_of req)) w).
  unfold select_user_collection.
  destruct (track_cases env u req w0)
    as [(_ & ->) | [(b1 & _ & _ & ->) | [(b1 & ty & wd1 & _ & _ & _ & _ & _ & ->)
       | [(b1 & wd1 & _ & _ & _ & _ & ->)
         | (b1 & ty & wd1 & d & Hb1 & _ & (Hw1 & _) & Hd & ->)]]]];
    simpl; try reflexivity.
  - rewrite (proj1 (record_statistics_frame env u "VOID" _ _)). reflexivity.
  - rewrite (proj1 (record_statistics_frame env u ty _ _)).
    rewrite Hb in Hb1. injection Hb1 as <-.
    rewrite Hwd in Hw1. injection Hw1 as <-.
    rewrite (record_collection_other_entries env u d
               (logged (divine_words_select_word wd) w0) u d' C).
    + reflexivity.
    + intros E. injection E as ->. apply Hd'. exact Hd.
Qed.

Lemma other_words_untouched_witness :
  select_user_collection 7 2
    (database (snd (track_oracle_result sample_env
                      (post (Some "DIVINE") (Some "wanko") (Some 99))
                      busy_world)))
  = select_user_collection 7 2 (database busy_world).
Proof.
  apply (other_words_untouched sample_env
           (post (Some "DIVINE") (Some "wanko") (Some 99)) 7%N busy_world
           (mkTrackResultRequest (Some "DIVINE") (Some "wanko") (Some 99))
           "wanko" 2%N).
  - exact busy_db_constraints.
  - repeat split; reflexivity.
  - reflexivity.
  - reflexivity.
  - vm_compute. discriminate.
Defined.

(** ** The seed *)

Lemma insert_divine_word_keeps w r db w' :
  existsb (word_is w') (divine_words db) = true ->
  existsb (word_is w') (divine_words (insert_divine_word w r db)) = true.
Proof.
  intros H. unfold insert_divine_word.
  destruct (existsb (word_is w) (divine_words db)); [exact H|].
  simpl. rewrite existsb_app, H. reflexivity.
Qed.

Lemma insert_divine_word_present w r db :
  existsb (word_is w) (divine_words (insert_divine_word w r db)) = true.
Proof.
  unfold insert_divine_word.
  destruct (existsb (word_is w) (divine_words db)) eqn:E; [exact E|].
  simpl. rewrite existsb_app. simpl. unfold word_is at 2. simpl.
  rewrite String.eqb_refl. apply orb_true_iff. right. reflexivity.
Qed.

Lemma insert_divine_words_keeps rows :
  forall db db' w',
    insert_divine_words rows db = Some db' ->
    existsb (word_is w') (divine_words db) = true ->
    existsb (word_is w') (divine_words db') = true.
Proof.
  induction rows as [|[w r] rows IH]; simpl; intros db db' w' H Hw.
  - injection H as <-. exact Hw.
  - destruct (rarity_ok r); [|discriminate].
    apply (IH _ _ _ H). apply insert_divine_word_keeps. exact Hw.
Qed.

Lemma insert_divine_words_present rows :
  forall db db',
    insert_divine_words rows db = Some db' ->
    forall w r, In (w, r) rows ->
                rarity_ok r = true /\
                existsb (word_is w) (divine_words db') = true.
Proof.
  induction rows as [|[w0 r0] rows IH]; simpl; intros db db' H w r Hin.
  - contradiction.
  - destruct (rarity_ok r0) eqn:Hr; [|discriminate].
    destruct Hin as [E | Hin].
    + injection E as <- <-. split; [exact Hr|].
      apply (insert_divine_words_keeps rows _ _ _ H).
      apply insert_divine_word_present.
    + apply (IH _ _ H). exact Hin.
Qed.

Lemma insert_divine_words_skips rows db :
  (forall w r, In (w, r) rows ->
               rarity_ok r = true /\
               existsb (word_is w) (divine_words db) = true) ->
  insert_divine_words rows db = Some db.
Proof.
  induction rows as [|[w r] rows IH]; simpl; intros H.
  - reflexivity.
  - destruct (H w r (or_introl eq_refl)) as (-> & Hw).
    unfold insert_divine_word. rewrite Hw.
    apply IH. intros w' r' Hin. apply H. right. exact Hin.
Qed.

(** X24.  The seed can be run again.  Whatever the rows and the database,
    when the seeding statement succeeds, running it once more on the
    database it left succeeds and changes nothing. *)
Theorem seeding_again_changes_nothing rows db db' :
  insert_divine_words rows db = Some db' ->
  insert_divine_words rows db' = Some db'.
Proof.
  intros H. apply insert_divine_words_skips.
  apply (insert_divine_words_present rows db db' H).
Qed.

Lemma seeding_again_changes_nothing_witness :
  exists db',
    insert_divine_words seed_rows created_db = Some db' /\
    insert_divine_words seed_rows db' = Some db'.
Proof.
  eexists. split.
  - vm_compute. reflexivity.
  - apply (seeding_again_changes_nothing seed_rows created_db).
    vm_compute. reflexivity.
Defined.

Lemma word_is_key w x : word_is w x = true <-> DivineWord.word x = w.
Proof.
  unfold word_is. apply String.eqb_eq.
Qed.

Lemma existsb_not_in_words w words :
  existsb (word_is w) words = false -> ~ In w (map DivineWord.word words).
Proof.
  apply (existsb_false_not_in (word_is w) DivineWord.word w words).
  intros x Hx. apply word_is_key. exact Hx.
Qed.

Lemma insert_divine_word_unique w r db :
  NoDup (map DivineWord.word (divine_words db)) ->
  NoDup (map DivineWord.word (divine_words (insert_divine_word w r db))).
Proof.
  intros H. unfold insert_divine_word.
  destruct (existsb (word_is w) (divine_words db)) eqn:E; [exact H|].
  simpl. rewrite map_app. apply NoDup_snoc; [exact H|].
  apply existsb_not_in_words. exact E.
Qed.

Lemma insert_divine_words_unique rows :
  forall db db',
    NoDup (map DivineWord.word (divine_words db)) ->
    insert_divine_words rows db = Some db' ->
    NoDup (map DivineWord.word (divine_words db')).
Proof.
  induction rows as [|[w r] rows IH]; simpl; intros db db' Hu H.
  - injection H as <-. exact Hu.
  - destruct (rarity_ok r); [|discriminate].
    apply (IH _ _ (insert_divine_word_unique w r db Hu) H).
Qed.

(** X25.  Every seeded word can be looked up.  On a table whose words are
    unique, when the seeding statement succeeds the words are still
    unique and the recorder's catalog lookup finds each word of the
    statement. *)
Theorem seeded_words_are_found rows db db' :
  NoDup (map DivineWord.word (divine_words db)) ->
  insert_divine_words rows db = Some db' ->
  NoDup (map DivineWord.word (divine_words db')) /\
  forall w r, In (w, r) rows -> exists d, select_divine_word w db' = Some d.
Proof.
  intros Hu H.
  pose proof (insert_divine_words_unique rows db db' Hu H) as Hu'.
  split; [exact Hu'|]. intros w r Hin.
  destruct (insert_divine_words_present rows db db' H w r Hin) as (_ & Hw).
  unfold select_divine_word.
  destruct (filter_unique DivineWord.word (word_is w) w (divine_words db')
              (word_is_key w) Hu') as [E | (x & E)].
  - rewrite (existsb_filter_nil _ _ E) in Hw. discriminate.
  - rewrite E. simpl. eexists. reflexivity.
Qed.

Lemma seeded_words_are_found_witness :
  exists db',
    insert_divine_words seed_rows created_db = Some db' /\
    List.length (divine_words db') = 17%nat /\
    NoDup (map DivineWord.word (divine_words db')) /\
    forall w r, In (w, r) seed_rows -> exists d, select_divine_word w db' = Some d.
Proof.
  eexists. split; [vm_compute; reflexivity|]. split; [reflexivity|].
  apply (seeded_words_are_found seed_rows created_db).
  - apply NoDup_nil.
  - vm_compute. reflexivity.
Defined.
